(** * Voron host health monitor: a shallow embedding of [voron_monitor.py]

    The monitor polls five probes once per cycle, merges what they return
    into one flat record and appends the record as a CSV row to a primary
    file and an optional backup file.

    Conventions of the embedding.
    - Python [str] is [string]; the development covers text in the ASCII
      range.  The tables given below for [str.isspace], [\s], [\d] and the
      blanks of [int] agree with Python on every code point below 256.
    - Python [dict] with string keys is [gmap string value].
    - Python [float] is the primitive binary64 [float]; the conversions
      between floats and text or integers that Python's runtime supplies
      ([float(str)], [round], [int / int], [repr]) are section variables.
    - An exception of class [Exception] is represented by its message; the
      [BaseException]s outside that class (keyboard interrupt, exit) are
      not outcomes of the modelled collaborators.
    - External collaborators (sub-processes, the file system, the clock,
      the optional metrics library) are explicit arguments. *)

From Stdlib Require Import ZArith Ascii String List Bool Lia.
From Stdlib Require Import Floats.PrimFloat.
From stdpp Require Import base option list gmap strings fin_maps.

Local Open Scope string_scope.
Local Open Scope Z_scope.

(** ** Python string primitives *)

Module PyStr.

(** [str.isspace], which is also [\s]: TAB..CR, FS..US and the blank, and
    above the ASCII range NEL (133) and the no-break space (160). *)
Definition is_space (c : ascii) : bool :=
  let n := nat_of_ascii c in
  ((9 <=? n)%nat && (n <=? 13)%nat) || ((28 <=? n)%nat && (n <=? 32)%nat)
  || (n =? 133)%nat || (n =? 160)%nat.

(** The blanks [int] passes over around a number: TAB..CR and the blank of
    the C locale, and the two blanks above the ASCII range, which the
    interpreter turns into a blank first.  FS..US are not among them. *)
Definition is_int_space (c : ascii) : bool :=
  let n := nat_of_ascii c in
  ((9 <=? n)%nat && (n <=? 13)%nat) || (n =? 32)%nat
  || (n =? 133)%nat || (n =? 160)%nat.

Definition is_digit (c : ascii) : bool :=
  let n := nat_of_ascii c in (48 <=? n)%nat && (n <=? 57)%nat.

(** Case folding as matching an ASCII literal under [re.IGNORECASE] needs
    it: no character outside A..Z folds to an ASCII letter here. *)
Definition lower (c : ascii) : ascii :=
  let n := nat_of_ascii c in
  if (65 <=? n)%nat && (n <=? 90)%nat then ascii_of_nat (n + 32) else c.

Definition is_empty (s : string) : bool :=
  match s with EmptyString => true | String _ _ => false end.

Fixpoint lstrip (s : string) : string :=
  match s with
  | EmptyString => EmptyString
  | String c s' => if is_space c then lstrip s' else s
  end.

Fixpoint rstrip (s : string) : string :=
  match s with
  | EmptyString => EmptyString
  | String c s' =>
      let r := rstrip s' in
      if is_space c && is_empty r then EmptyString else String c r
  end.

(** [s.strip()] *)
Definition strip (s : string) : string := rstrip (lstrip s).

(** [s.split(sep)] for a one-character separator: never the empty list. *)
Fixpoint split (sep : ascii) (s : string) : list string :=
  match s with
  | EmptyString => [EmptyString]
  | String c s' =>
      if Ascii.eqb c sep then EmptyString :: split sep s'
      else match split sep s' with
           | h :: t => String c h :: t
           | [] => [String c EmptyString]
           end
  end.

(** [s.replace(old, new)] for a non-empty [old]: occurrences are replaced
    from the left and do not overlap; [skip] counts the characters of the
    occurrence being replaced that are still to be passed over. *)
Fixpoint replace_from (old new : string) (skip : nat) (s : string) : string :=
  match s with
  | EmptyString => EmptyString
  | String c s' =>
      match skip with
      | S k => replace_from old new k s'
      | O =>
          if String.prefix old s
          then new ++ replace_from old new (String.length old - 1) s'
          else String c (replace_from old new 0 s')
      end
  end.

Definition replace (old new s : string) : string := replace_from old new 0 s.

(** [sep.join(parts)] *)
Definition join (sep : string) (parts : list string) : string :=
  String.concat sep parts.

(** [s[:n]] *)
Fixpoint take (n : nat) (s : string) : string :=
  match n, s with
  | S k, String c s' => String c (take k s')
  | _, _ => EmptyString
  end.

(** [str(n)] for an integer. *)
Definition digit_char (d : nat) : ascii := ascii_of_nat (48 + d).

Fixpoint pos_digits (fuel : nat) (n : Z) (acc : string) : string :=
  match fuel with
  | O => acc
  | S k =>
      let acc' := String (digit_char (Z.to_nat (n mod 10))) acc in
      if n <? 10 then acc' else pos_digits k (n / 10) acc'
  end.

Definition str_of_int (n : Z) : string :=
  if n <? 0 then String "-" (pos_digits (S (Z.to_nat (Z.log2 (- n)))) (- n) EmptyString)
  else pos_digits (S (Z.to_nat (Z.log2 n))) n EmptyString.

(** [int(digits)] for a non-empty run of ASCII decimal digits. *)
Definition digit_val (c : ascii) : Z := Z.of_nat (nat_of_ascii c) - 48.

Fixpoint int_of_digits (acc : Z) (s : string) : Z :=
  match s with
  | EmptyString => acc
  | String c s' => int_of_digits (10 * acc + digit_val c) s'
  end.

(** *** [int(s, 16)] *)

Definition hex_val (c : ascii) : option Z :=
  let n := nat_of_ascii c in
  if (48 <=? n)%nat && (n <=? 57)%nat then Some (Z.of_nat n - 48)
  else if (97 <=? n)%nat && (n <=? 102)%nat then Some (Z.of_nat n - 87)
  else if (65 <=? n)%nat && (n <=? 70)%nat then Some (Z.of_nat n - 55)
  else None.

(** The digit scan of the interpreter's string-to-integer routine for a
    power-of-two base: digits and single underscores; [prev_us] tells
    whether the previous character was an underscore, [seen] whether any
    character was consumed.  Returns the value and the unread rest, or
    [None] on a doubled or trailing underscore or when nothing was read. *)
Fixpoint scan_hex (acc : Z) (prev_us seen : bool) (s : string)
  : option (Z * string) :=
  let stop := if prev_us || negb seen then None else Some (acc, s) in
  match s with
  | EmptyString => stop
  | String c s' =>
      if Ascii.eqb c "_" then
        if prev_us then None else scan_hex acc true true s'
      else
        match hex_val c with
        | Some d => scan_hex (16 * acc + d) false true s'
        | None => stop
        end
  end.

Definition skip_hex_prefix (s : string) : string :=
  match s with
  | String "0" (String x rest) =>
      if Ascii.eqb x "x" || Ascii.eqb x "X" then
        match rest with
        | String "_" rest' => rest'
        | _ => rest
        end
      else s
  | _ => s
  end.

Fixpoint skip_int_space (s : string) : string :=
  match s with
  | EmptyString => EmptyString
  | String c s' => if is_int_space c then skip_int_space s' else s
  end.

(** [int(s, 16)]; [None] stands for [ValueError]. *)
Definition int16 (s : string) : option Z :=
  let s1 := skip_int_space s in
  let '(sign, s2) :=
    match s1 with
    | String "+" r => (1, r)
    | String "-" r => (-1, r)
    | _ => (1, s1)
    end in
  let s3 := skip_hex_prefix s2 in
  match s3 with
  | String "_" _ => None
  | _ =>
      match scan_hex 0 false false s3 with
      | Some (v, rest) =>
          if is_empty (skip_int_space rest) then Some (sign * v) else None
      | None => None
      end
  end.

End PyStr.

(** ** Regular expressions

    The patterns of the monitor use literals, [.], [\d], [\s], [*] and [+]
    only, so a match exists exactly when the pattern's language contains a
    substring of the text; matching is by derivatives. *)

Module Re.

Inductive regex : Type :=
| Null
| Eps
| Cls (p : ascii -> bool)
| Seq (a b : regex)
| Alt (a b : regex)
| Star (a : regex).

Fixpoint nullable (r : regex) : bool :=
  match r with
  | Null => false
  | Eps => true
  | Cls _ => false
  | Seq a b => nullable a && nullable b
  | Alt a b => nullable a || nullable b
  | Star _ => true
  end.

Fixpoint deriv (c : ascii) (r : regex) : regex :=
  match r with
  | Null => Null
  | Eps => Null
  | Cls p => if p c then Eps else Null
  | Seq a b =>
      if nullable a then Alt (Seq (deriv c a) b) (deriv c b)
      else Seq (deriv c a) b
  | Alt a b => Alt (deriv c a) (deriv c b)
  | Star a => Seq (deriv c a) (Star a)
  end.

(** [pattern.match(s)]: some prefix of [s] is in the language. *)
Fixpoint match_prefix (r : regex) (s : string) : bool :=
  nullable r ||
  match s with
  | EmptyString => false
  | String c s' => match_prefix (deriv c r) s'
  end.

(** [pattern.search(s)] as a truth value. *)
Fixpoint search (r : regex) (s : string) : bool :=
  match_prefix r s ||
  match s with
  | EmptyString => false
  | String _ s' => search r s'
  end.

Definition plus (r : regex) : regex := Seq r (Star r).

(** [.] without DOTALL: any character but the line feed. *)
Definition dot : regex := Cls (fun c => negb (Ascii.eqb c "010")).
Definition digit : regex := Cls PyStr.is_digit.
Definition space : regex := Cls PyStr.is_space.

(** A literal, case-sensitive. *)
Fixpoint lit (s : string) : regex :=
  match s with
  | EmptyString => Eps
  | String c s' => Seq (Cls (Ascii.eqb c)) (lit s')
  end.

(** A literal under [re.IGNORECASE]. *)
Fixpoint lit_i (s : string) : regex :=
  match s with
  | EmptyString => Eps
  | String c s' =>
      Seq (Cls (fun x => Ascii.eqb (PyStr.lower x) (PyStr.lower c))) (lit_i s')
  end.

Fixpoint take_while (p : ascii -> bool) (s : string) : string :=
  match s with
  | String c s' => if p c then String c (take_while p s') else EmptyString
  | EmptyString => EmptyString
  end.

Fixpoint drop_while (p : ascii -> bool) (s : string) : string :=
  match s with
  | String c s' => if p c then drop_while p s' else s
  | EmptyString => EmptyString
  end.

Fixpoint drop (n : nat) (s : string) : string :=
  match n, s with
  | S k, String _ s' => drop k s'
  | _, _ => s
  end.

End Re.

(** ** Values, records, exceptions *)

(** The scalar a record field holds. *)
Inductive value : Type :=
| VBool (b : bool)
| VInt (n : Z)
| VFloat (x : float)
| VStr (s : string).

(** A metric record: a Python [dict] from field names to scalars. *)
Abbreviation record := (gmap string value).

(** An exception of class [Exception], by its message. *)
Definition exn : Type := string.

Inductive outcome (A : Type) : Type :=
| Returned (a : A)
| Raised (e : exn).
Arguments Returned {A} a.
Arguments Raised {A} e.

(** A computation over a mutable state [S] that returns or raises; the
    state reached when the exception is raised is kept, as the mutations
    of a Python object are when a statement after them raises. *)
Definition Py (S A : Type) : Type := S -> outcome A * S.

Definition py_ret {S A} (a : A) : Py S A := fun s => (Returned a, s).

Definition py_raise {S A} (e : exn) : Py S A := fun s => (Raised e, s).

Definition py_bind {S A B} (m : Py S A) (k : A -> Py S B) : Py S B :=
  fun s =>
    match m s with
    | (Returned a, s') => k a s'
    | (Raised e, s') => (Raised e, s')
    end.

(** [try: m  except Exception as e: h e] *)
Definition try_except {S A} (m : Py S A) (h : exn -> Py S A) : Py S A :=
  fun s =>
    match m s with
    | (Raised e, s') => h e s'
    | r => r
    end.

(** The result of a call that touches no state of the caller. *)
Definition lift {S A} (o : outcome A) : Py S A := fun s => (o, s).

Definition get {S} : Py S S := fun s => (Returned s, s).
Definition put {S} (s : S) : Py S unit := fun _ => (Returned tt, s).
Definition modify {S} (f : S -> S) : Py S unit := fun s => (Returned tt, f s).

(** [if c: m] *)
Definition when {S} (c : bool) (m : Py S unit) : Py S unit :=
  if c then m else py_ret tt.

Declare Scope py_scope.
Delimit Scope py_scope with py.
Notation "x <- m ;; k" := (py_bind m (fun x => k))
  (at level 100, m at next level, right associativity) : py_scope.
Notation "m ;;; k" := (py_bind m (fun _ => k))
  (at level 100, right associativity) : py_scope.

(** [data[k] = v] *)
Definition set_item (k : string) (v : value) : Py record unit :=
  modify (fun d => <[k := v]> d).

(** [d.update(other)]: the keys of [other] win. *)
Definition dict_update (d other : record) : record := other ∪ d.

(** ** External processes *)

(** What [subprocess.run(..., capture_output=True, text=True)] hands back
    when it returns. *)
Record completed : Type := Completed { returncode : Z; stdout : string }.

(** A call of [subprocess.run]: it returns, or raises (program absent,
    not executable, output not decodable). *)
Abbreviation run_result := (outcome completed).

(** The command line [subprocess.run(args, shell=True)] hands to [/bin/sh -c]
    when [args] is a list: its first item; the items after it become the
    shell's own positional parameters and are not part of the command. *)
Definition shell_command (args : list string) : option string := head args.

(** [xs[1]] *)
Definition index1 (xs : list string) : outcome string :=
  match xs with
  | _ :: x :: _ => Returned x
  | _ => Raised "list index out of range"
  end.

Definition nl : ascii := "010".
Definition cr : ascii := "013".

(** ** Bus-error probe ([USBMonitor]) *)

Module USBMonitor.

Import PyStr.
Local Open Scope py_scope.

Definition patterns : list Re.regex :=
  [ Re.lit_i "usb disconnect";
    Re.lit_i "reset high-speed USB device";
    Re.Seq (Re.lit_i "ttyACM") (Re.Seq (Re.plus Re.digit) (Re.lit_i " disconnect"));
    Re.lit_i "xHCI host controller not responding" ].

(** The argument list of the [subprocess.run(..., shell=True)] call. *)
Definition dmesg_args : list string := ["dmesg"; "-k"; "|"; "tail"; "-n"; "20"].

(** [deque(maxlen=20)] *)
Definition maxlen : nat := 20.

(** [d.append(x)] on a bounded deque: a full deque drops its oldest item. *)
Definition deque_append (d : list string) (x : string) : list string :=
  let d' := (d ++ [x])%list in
  if (maxlen <? length d')%nat then tail d' else d'.

(** [d.extend(xs)] *)
Definition deque_extend (d xs : list string) : list string :=
  fold_left deque_append xs d.

(** The inner [for pattern in self.patterns: ... break]. *)
Definition matches_any (line : string) : bool :=
  existsb (fun p => Re.search p line) patterns.

(** The loop over [current_lines] that collects [new_events]. *)
Fixpoint new_events (last_seen_lines current_lines : list string) : list string :=
  match current_lines with
  | [] => []
  | raw :: rest =>
      let line := strip raw in
      if is_empty line then new_events last_seen_lines rest
      else if bool_decide (line ∈ last_seen_lines) then new_events last_seen_lines rest
      else if matches_any line then line :: new_events last_seen_lines rest
      else new_events last_seen_lines rest
  end.

(** The body of the [try]; the state is [self.last_seen_lines]. *)
Definition body (dmesg : run_result) : Py (list string) (option record) :=
  result <- lift dmesg ;;
  let current_lines := split nl (strip (stdout result)) in
  last_seen_lines <- get ;;
  let events := new_events last_seen_lines current_lines in
  put (deque_extend [] current_lines) ;;;
  py_ret (match events with
          | [] => None
          | _ => Some {[ "usb_events" := VStr (join "; " events) ]}
          end).

Definition check (dmesg : run_result) : Py (list string) (option record) :=
  try_except (body dmesg)
    (fun e => py_ret (Some {[ "usb_events" := VStr ("Error: " ++ e) ]})).

End USBMonitor.

(** ** Scheduling-latency probe ([LatencyMonitor]) *)

Module LatencyMonitor.

Import PyStr.
Local Open Scope py_scope.

Definition LATENCY_WARN_US : Z := 3000.

(** [Max:\s*(\d+)] *)
Definition max_re : Re.regex :=
  Re.Seq (Re.lit "Max:") (Re.Seq (Re.Star Re.space) (Re.plus Re.digit)).

(** Group 1 of [re.search(r"Max:\s*(\d+)", text)]: at the leftmost position
    where the pattern matches, the greedy [\s*] takes every blank after the
    colon and the greedy [\d+] the whole run of digits that follows. *)
Fixpoint search_max (text : string) : option string :=
  if Re.match_prefix max_re text
  then Some (Re.take_while is_digit (Re.drop_while is_space (Re.drop 4 text)))
  else match text with
       | EmptyString => None
       | String _ rest => search_max rest
       end.

(** The interpreter's default limit on the digits of an integer's text. *)
Definition MAX_STR_DIGITS : Z := 4300.

(** [int(digits)] for a non-empty run of decimal digits: [ValueError] when
    the run is longer than the limit. *)
Definition py_int (digits : string) : outcome Z :=
  if MAX_STR_DIGITS <? Z.of_nat (String.length digits)
  then Raised "Exceeds the limit (4300 digits) for integer string conversion"
  else Returned (int_of_digits 0 digits).

Definition body (cyclictest : run_result) : Py unit (option record) :=
  result <- lift cyclictest ;;
  if returncode result =? 0 then
    match search_max (stdout result) with
    | Some group1 =>
        max_lat <- lift (py_int group1) ;;
        py_ret (Some (<[ "latency_high" := VBool (LATENCY_WARN_US <? max_lat) ]>
                        {[ "max_latency_us" := VInt max_lat ]}))
    | None => py_ret None
    end
  else py_ret None.

Definition check (cyclictest : run_result) : Py unit (option record) :=
  try_except (body cyclictest) (fun _ => py_ret None).

End LatencyMonitor.

(** ** Firmware-log-tail probe ([LogMonitor]) *)

Module LogMonitor.

Import PyStr.
Local Open Scope py_scope.

(** The log file as the probe meets it in one cycle: [os.path.exists],
    [os.path.getsize], and the bytes of the file, which [open] in text mode
    decodes.  Offsets and sizes count bytes.  The text read is taken with
    one character per byte, which is what the decoder yields for ASCII
    bytes; bytes that [errors='ignore'] would drop, or that decode to one
    character together, are outside the text covered here, and the
    properties of the text read are stated for ASCII bytes.  The two calls
    after [exists] may raise. *)
Record log_file : Type := LogFile {
  log_exists : bool;
  log_getsize : outcome nat;
  log_bytes : outcome (list ascii)
}.

(** A file that is there and readable. *)
Definition present (content : list ascii) : log_file :=
  LogFile true (Returned (length content)) (Returned content).

Definition absent : log_file :=
  LogFile false (Raised "No such file or directory") (Raised "No such file or directory").

Definition patterns : list (string * Re.regex) :=
  [ ("timer_close", Re.lit "Timer too close");
    ("mcu_shutdown", Re.Seq (Re.lit "MCU '") (Re.Seq (Re.Star Re.dot) (Re.lit "' shutdown")));
    ("lost_comm", Re.lit "Timeout on serial communication") ].

(** [f.readlines()] of a text-mode file with universal newlines: a line
    ends at LF, CR LF or a lone CR, and its terminator reads as LF. *)
Fixpoint readlines (bytes : list ascii) : list string :=
  match bytes with
  | [] => []
  | c :: rest =>
      if Ascii.eqb c nl then String nl EmptyString :: readlines rest
      else if Ascii.eqb c cr then
        match rest with
        | c' :: rest' =>
            if Ascii.eqb c' nl then String nl EmptyString :: readlines rest'
            else String nl EmptyString :: readlines rest
        | [] => [String nl EmptyString]
        end
      else
        match readlines rest with
        | line :: lines => String c line :: lines
        | [] => [String c EmptyString]
        end
  end.

(** The inner loop over the patterns for one line. *)
Definition line_errors (line : string) : list string :=
  flat_map (fun kp : string * Re.regex =>
              if Re.search kp.2 line
              then [kp.1 ++ ": " ++ take 60 (strip line)]
              else [])
           patterns.

(** The loop over [new_lines] that collects [errors]. *)
Definition scan (new_lines : list string) : list string :=
  flat_map line_errors new_lines.

(** The state inside [check]: [self.file_pos] and the local [data]. *)
Record locals : Type := Locals { file_pos : nat; data : record }.

Definition set_file_pos (p : nat) : Py locals unit :=
  modify (fun l => Locals p (data l)).

Definition set_data (k : string) (v : value) : Py locals unit :=
  modify (fun l => Locals (file_pos l) (<[k := v]> (data l))).

(** The body of the [try]. *)
Definition body (f : log_file) : Py locals unit :=
  current_size <- lift (log_getsize f) ;;
  l <- get ;;
  when (current_size <? file_pos l)%nat (set_file_pos 0) ;;;
  l <- get ;;
  when (file_pos l <? current_size)%nat (
    content <- lift (log_bytes f) ;;
    (* f.seek(self.file_pos); new_lines = f.readlines(); f.tell() *)
    let new_bytes := drop (file_pos l) content in
    let new_lines := readlines new_bytes in
    set_file_pos (Nat.max (file_pos l) (length content)) ;;;
    let errors := scan new_lines in
    when (negb (bool_decide (errors = [])))
         (set_data "log_errors" (VStr (join "; " errors)))).

(** [data if data else None] *)
Definition nonempty (d : record) : option record :=
  if bool_decide (d = ∅) then None else Some d.

Definition check (f : log_file) : Py nat (option record) :=
  fun pos =>
    if negb (log_exists f) then (Returned None, pos)
    else
      let l := (try_except (body f) (fun _ => py_ret tt) (Locals pos ∅)).2 in
      (Returned (nonempty (data l)), file_pos l).

(** [LogMonitor.__init__]: start at the end of the file that is there. *)
Definition init (f : log_file) : outcome nat :=
  if log_exists f then log_getsize f else Returned 0%nat.

(** The record a check yields for the bytes it has read. *)
Definition report (new_bytes : list ascii) : option record :=
  match scan (readlines new_bytes) with
  | [] => None
  | errors => Some {[ "log_errors" := VStr (join "; " errors) ]}
  end.

End LogMonitor.

(** ** Power/thermal probe ([PowerMonitor]) *)

Module PowerMonitor.

Import PyStr.
Local Open Scope py_scope.

Definition TEMP_WARN_THRESHOLD : float := 75.0%float.

(** [int(s, 16)] as a call that may raise [ValueError]. *)
Definition py_int16 (s : string) : outcome Z :=
  match int16 s with
  | Some n => Returned n
  | None => Raised ("invalid literal for int() with base 16: " ++ s)
  end.

(** [if val_int & mask:] *)
Definition masked (val_int mask : Z) : bool := negb (Z.land val_int mask =? 0).

Section Runtime.

(** [float(s)]; [None] stands for [ValueError]. *)
Variable float_of_str : string -> option float.

Definition py_float (s : string) : outcome float :=
  match float_of_str s with
  | Some x => Returned x
  | None => Raised ("could not convert string to float: " ++ s)
  end.

(** The statements under [# Check Throttled]; the state is [data]. *)
Definition check_throttled (get_throttled : run_result) : Py record unit :=
  res <- lift get_throttled ;;
  when (returncode res =? 0) (
    val_str <- lift (index1 (split "=" (strip (stdout res)))) ;;
    val_int <- lift (py_int16 val_str) ;;
    set_item "throttled_hex" (VStr val_str) ;;;
    when (negb (val_int =? 0)) (
      set_item "throttled_alarm" (VBool true) ;;;
      when (masked val_int 1) (set_item "ue_now" (VBool true)) ;;;
      when (masked val_int 2) (set_item "freq_cap_now" (VBool true)) ;;;
      when (masked val_int 4) (set_item "throt_now" (VBool true)) ;;;
      when (masked val_int 8) (set_item "soft_temp_now" (VBool true)))).

(** The statements under [# Check Voltage]. *)
Definition check_voltage (measure_volts : run_result) : Py record unit :=
  res <- lift measure_volts ;;
  when (returncode res =? 0) (
    volt_str <- lift (index1 (split "=" (strip (stdout res)))) ;;
    volts <- lift (py_float (replace "V" EmptyString volt_str)) ;;
    set_item "core_voltage" (VFloat volts)).

(** The statements under [# Check Temp]. *)
Definition check_temp (measure_temp : run_result) : Py record unit :=
  res <- lift measure_temp ;;
  when (returncode res =? 0) (
    temp_str <- lift (index1 (split "=" (strip (stdout res)))) ;;
    temp_val <- lift (py_float (replace "'C" EmptyString temp_str)) ;;
    set_item "cpu_temp" (VFloat temp_val) ;;;
    when (PrimFloat.ltb TEMP_WARN_THRESHOLD temp_val)
         (set_item "temp_warning" (VBool true))).

(** The body of the one [try] around the three queries. *)
Definition body (get_throttled measure_volts measure_temp : run_result)
  : Py record unit :=
  check_throttled get_throttled ;;;
  check_voltage measure_volts ;;;
  check_temp measure_temp.

(** [check]: [data] starts empty, [except Exception: pass], [return data]. *)
Definition check (get_throttled measure_volts measure_temp : run_result)
  : Py unit (option record) :=
  fun self =>
    let data :=
      (try_except (body get_throttled measure_volts measure_temp)
                  (fun _ => py_ret tt) ∅).2 in
    (Returned (Some data), self).

End Runtime.

End PowerMonitor.

(** ** Resource-usage probe ([SystemMonitor]) *)

Module SystemMonitor.

Local Open Scope py_scope.

Definition CPU_LOAD_WARN_PERCENT : float := 85.0%float.
Definition MEM_SWAP_WARN_MB : float := 100%float.

(** The three calls the probe makes on the metrics library, each of which
    returns the figure the probe reads off its result, or raises. *)
Record psutil_api : Type := Psutil {
  cpu_percent : outcome float;
  virtual_memory : outcome float;  (* [.percent] *)
  swap_memory : outcome Z          (* [.used], bytes *)
}.

Section Runtime.

(** [round(x, ndigits)] and [a / b] on integers. *)
Variable round_ndigits : float -> Z -> float.
Variable int_truediv : Z -> Z -> float.

(** The statements of [check] after [data = {}]; [self_psutil] is the
    attribute [__init__] set, [getloadavg] the outcome of [os.getloadavg()]. *)
Definition body (self_psutil : option psutil_api)
    (getloadavg : outcome (float * float * float)) : Py record unit :=
  match self_psutil with
  | Some psutil =>
      cpu_pct <- lift (cpu_percent psutil) ;;
      set_item "cpu_usage" (VFloat cpu_pct) ;;;
      when (PrimFloat.ltb CPU_LOAD_WARN_PERCENT cpu_pct)
           (set_item "cpu_saturation" (VBool true)) ;;;
      mem <- lift (virtual_memory psutil) ;;
      swap <- lift (swap_memory psutil) ;;
      set_item "ram_used_pct" (VFloat mem) ;;;
      let swap_used_mb := round_ndigits (int_truediv swap (1024 * 1024)) 2 in
      set_item "swap_used_mb" (VFloat swap_used_mb) ;;;
      when (PrimFloat.ltb MEM_SWAP_WARN_MB swap_used_mb)
           (set_item "mem_pressure" (VBool true))
  | None =>
      load <- lift getloadavg ;;
      set_item "load_1min" (VFloat load.1.1) ;;;
      set_item "load_5min" (VFloat load.1.2)
  end.

(** [check] has no handler: what the body raises, [check] raises. *)
Definition check (self_psutil : option psutil_api)
    (getloadavg : outcome (float * float * float)) : Py unit (option record) :=
  fun self =>
    match body self_psutil getloadavg ∅ with
    | (Returned _, data) => (Returned (Some data), self)
    | (Raised e, _) => (Raised e, self)
    end.

End Runtime.

End SystemMonitor.

(** ** The clock *)

(** [datetime.now()]: a naive local date and time. *)
Record datetime : Type := DateTime {
  year : Z; month : Z; day : Z;
  hour : Z; minute : Z; second : Z; microsecond : Z
}.

(** One reading of the system clock, in the two forms the program asks
    for: [time.time()] and [datetime.now()]. *)
Record instant : Type := Instant { unix : float; wall : datetime }.

(** [%0<width>d] for a non-negative number. *)
Definition zero_pad (width : nat) (n : Z) : string :=
  let s := PyStr.str_of_int n in
  String.concat EmptyString (repeat "0" (width - String.length s)) ++ s.

(** [datetime.isoformat()] of a naive datetime. *)
Definition isoformat (t : datetime) : string :=
  zero_pad 4 (year t) ++ "-" ++ zero_pad 2 (month t) ++ "-" ++ zero_pad 2 (day t)
  ++ "T" ++ zero_pad 2 (hour t) ++ ":" ++ zero_pad 2 (minute t) ++ ":"
  ++ zero_pad 2 (second t)
  ++ (if microsecond t =? 0 then EmptyString else "." ++ zero_pad 6 (microsecond t)).

(** ** Recorder ([CSVLogger]) *)

Definition CSV_HEADERS : list string :=
  [ "timestamp"; "check_duration_ms";
    "throttled_hex"; "throttled_alarm"; "ue_now"; "freq_cap_now"; "throt_now"; "soft_temp_now";
    "core_voltage"; "cpu_temp"; "temp_warning";
    "cpu_usage"; "cpu_saturation"; "ram_used_pct"; "swap_used_mb"; "mem_pressure"; "load_1min"; "load_5min";
    "max_latency_us"; "latency_high";
    "usb_events"; "log_errors"; "notes" ].

Module CSVLogger.

Local Open Scope py_scope.

(** The two files and the console.  A file is the list of the rows
    written to it so far, each row the sequence of fields the writer was
    given for it (the header row included); [backup_file] is [None] when
    no backup directory was given. *)
Record io : Type := IO {
  file : list (list string);
  backup_file : option (list (list string));
  console : list string
}.

(** What goes wrong, if anything, in the calls on one file during one
    [log]: [writer.writerow], [file.flush], [os.fsync].  A [writerow] that
    raises is taken to raise before any character of the row is written; a
    write that gets part of a row out and then fails is not among the
    modelled faults, and what the files hold after a run is stated for
    runs in which no [writerow] raises. *)
Record sink_faults : Type := SinkFaults {
  writerow_raises : option exn;
  flush_raises : option exn;
  fsync_raises : option exn
}.

Definition healthy : sink_faults := SinkFaults None None None.

Definition may_raise (fault : option exn) : Py io unit :=
  match fault with
  | Some e => py_raise e
  | None => py_ret tt
  end.

(** [print(line)] *)
Definition print (line : string) : Py io unit :=
  modify (fun w => IO (file w) (backup_file w) (console w ++ [line])%list).

Definition quote : ascii := "034".
Definition comma : ascii := ",".

Fixpoint contains (p : ascii -> bool) (s : string) : bool :=
  match s with
  | EmptyString => false
  | String c s' => p c || contains p s'
  end.

Fixpoint double_quotes (s : string) : string :=
  match s with
  | EmptyString => EmptyString
  | String c s' =>
      if Ascii.eqb c quote then String quote (String quote (double_quotes s'))
      else String c (double_quotes s')
  end.

(** One field under the [excel] dialect with minimal quoting. *)
Definition csv_field (s : string) : string :=
  if contains (fun c => Ascii.eqb c comma || Ascii.eqb c quote
                        || Ascii.eqb c cr || Ascii.eqb c nl) s
  then String quote (double_quotes s ++ String quote EmptyString)
  else s.

(** A row of two or more fields as the writer emits it. *)
Definition csv_line (fields : list string) : string :=
  String.concat "," (map csv_field fields) ++ String cr (String nl EmptyString).

(** The characters of a file, from its rows. *)
Definition file_text (rows : list (list string)) : string :=
  String.concat EmptyString (map csv_line rows).

Section Runtime.

(** [repr(x)] of a float. *)
Variable float_repr : float -> string.

(** The text the writer makes of a field value. *)
Definition cell_of_value (v : value) : string :=
  match v with
  | VBool true => "True"
  | VBool false => "False"
  | VInt n => PyStr.str_of_int n
  | VFloat x => float_repr x
  | VStr s => s
  end.

(** [DictWriter._dict_to_list] with [extrasaction='ignore'] and the
    default [restval='']: [rowdict.get(key, '')] for each field name. *)
Definition dict_to_list (fieldnames : list string) (rowdict : record) : list string :=
  map (fun key => match rowdict !! key with
                  | Some v => cell_of_value v
                  | None => EmptyString
                  end) fieldnames.

(** [self.writer.writerow(row)] *)
Definition writerow (fault : option exn) (row : record) : Py io unit :=
  may_raise fault ;;;
  modify (fun w => IO (file w ++ [dict_to_list CSV_HEADERS row])%list
                      (backup_file w) (console w)).

(** [self.backup_writer.writerow(row)] *)
Definition backup_writerow (fault : option exn) (row : record) : Py io unit :=
  may_raise fault ;;;
  modify (fun w => IO (file w)
                      ((fun rows => rows ++ [dict_to_list CSV_HEADERS row])%list
                         <$> backup_file w)
                      (console w)).

(** [CSVLogger.log]; [now] is what [datetime.now()] returns in it. *)
Definition log (now : datetime) (primary backup : sink_faults) (data : record)
  : Py io unit :=
  let row := dict_update {[ "timestamp" := VStr (isoformat now) ]} data in
  try_except (
    writerow (writerow_raises primary) row ;;;
    may_raise (flush_raises primary) ;;;
    may_raise (fsync_raises primary) ;;;
    w <- get ;;
    match backup_file w with
    | Some _ =>
        backup_writerow (writerow_raises backup) row ;;;
        may_raise (flush_raises backup)
    | None => py_ret tt
    end)
  (fun e => print ("Logging failed: " ++ e)).

End Runtime.

(** What goes wrong, if anything, while [__init__] sets the files up:
    [os.makedirs] for either directory (when it is called) and [open] for
    either file. *)
Record startup_faults : Type := StartupFaults {
  makedirs_raises : option exn;
  backup_makedirs_raises : option exn;
  open_raises : option exn;
  backup_open_raises : option exn
}.

(** [if self.backup_directory]: neither [None] nor the empty text. *)
Definition truthy (backup_directory : option string) : bool :=
  match backup_directory with
  | Some (String _ _) => true
  | _ => false
  end.

(** [CSVLogger.__init__]: make the directories that are missing, open the
    primary file and write the header row, then the same for the backup
    file when a backup directory was given.  [dir_exists] and
    [backup_dir_exists] are what [os.path.exists] answers; an exception
    leaves [__init__]. *)
Definition init (backup_directory : option string)
    (dir_exists backup_dir_exists : bool) (faults : startup_faults) : outcome io :=
  match (if dir_exists then None else makedirs_raises faults) with
  | Some e => Raised e
  | None =>
      match (if truthy backup_directory && negb backup_dir_exists
             then backup_makedirs_raises faults else None) with
      | Some e => Raised e
      | None =>
          match open_raises faults with
          | Some e => Raised e
          | None =>
              if truthy backup_directory then
                match backup_open_raises faults with
                | Some e => Raised e
                | None => Returned (IO [CSV_HEADERS] (Some [CSV_HEADERS]) [])
                end
              else Returned (IO [CSV_HEADERS] None [])
          end
      end
  end.

End CSVLogger.

(** ** The sampling cycle ([main]) *)

Module Main.

(** The state that outlives a cycle: the bus-error probe's window, the
    log probe's offset, the files and the console. *)
Record state : Type := State {
  last_seen_lines : list string;
  file_pos : nat;
  out : CSVLogger.io
}.

(** What the collaborators do during one cycle, in the order the cycle
    meets them. *)
Record cycle_env : Type := CycleEnv {
  at_start : instant;                (* [start_time = time.time()] *)
  dmesg : run_result;
  get_throttled : run_result;
  measure_volts : run_result;
  measure_temp : run_result;
  self_psutil : option SystemMonitor.psutil_api;
  getloadavg : outcome (float * float * float);
  cyclictest : run_result;
  klippy_log : LogMonitor.log_file;
  at_probed : instant;               (* [time.time()] after the probes *)
  at_log : instant;                  (* [datetime.now()] in [logger.log] *)
  primary_faults : CSVLogger.sink_faults;
  backup_faults : CSVLogger.sink_faults
}.

(** The body of [for m in monitors] for one probe: [current_data] and the
    console go in and come out. *)
Definition merge (name : string) (res : outcome (option record))
    (acc : record * list string) : record * list string :=
  match res with
  | Returned (Some d) =>
      if bool_decide (d = ∅) then acc else (dict_update acc.1 d, acc.2)
  | Returned None => acc
  | Raised e =>
      let line := "Monitor " ++ name ++ " error: " ++ e in
      (acc.1, (acc.2 ++ [line])%list)
  end.

Section Runtime.

Variable float_of_str : string -> option float.
Variable round_ndigits : float -> Z -> float.
Variable int_truediv : Z -> Z -> float.
Variable float_repr : float -> string.

(** The five probes in the order of [monitors]; returns [current_data]
    before the duration is added, the console and the probes' states. *)
Definition run_monitors (env : cycle_env) (st : state)
  : record * list string * list string * nat :=
  let acc := (∅ : record, CSVLogger.console (out st)) in
  let '(r_usb, seen') := USBMonitor.check (dmesg env) (last_seen_lines st) in
  let acc := merge "USB" r_usb acc in
  let '(r_power, _) :=
    PowerMonitor.check float_of_str
      (get_throttled env) (measure_volts env) (measure_temp env) tt in
  let acc := merge "Power" r_power acc in
  let '(r_system, _) :=
    SystemMonitor.check round_ndigits int_truediv
      (self_psutil env) (getloadavg env) tt in
  let acc := merge "System" r_system acc in
  let '(r_latency, _) := LatencyMonitor.check (cyclictest env) tt in
  let acc := merge "Latency" r_latency acc in
  let '(r_log, pos') := LogMonitor.check (klippy_log env) (file_pos st) in
  let acc := merge "KlipperLog" r_log acc in
  (acc.1, acc.2, seen', pos').

(** [current_data] as it is handed to [logger.log]. *)
Definition current_data (env : cycle_env) (st : state) : record :=
  let duration :=
    PrimFloat.mul (PrimFloat.sub (unix (at_probed env)) (unix (at_start env)))
                  1000%float in
  <[ "check_duration_ms" := VFloat (round_ndigits duration 2) ]>
    (run_monitors env st).1.1.1.

(** One pass through the body of [while True], up to and including
    [logger.log(current_data)], without the verbose echo. *)
Definition cycle (env : cycle_env) (st : state) : state :=
  let '(_, console', seen', pos') := run_monitors env st in
  let w := CSVLogger.IO (CSVLogger.file (out st))
                        (CSVLogger.backup_file (out st)) console' in
  let w' := (CSVLogger.log float_repr (wall (at_log env))
               (primary_faults env) (backup_faults env)
               (current_data env st) w).2 in
  State seen' pos' w'.

(** The first cycles of the loop, one environment per cycle. *)
Definition run (envs : list cycle_env) (st : state) : state :=
  fold_left (fun s env => cycle env s) envs st.

End Runtime.

End Main.

(** ** Vocabulary of the properties *)

(** A property of [data] that a statement keeps. *)
Definition preserves (P : record -> Prop) (m : Py record unit) : Prop :=
  forall d, P d -> P (m d).2.

(** A statement that only ever writes keys of [keys]. *)
Definition writes_only (keys : list string) (m : Py record unit) : Prop :=
  forall k o, k ∉ keys -> preserves (fun d => d !! k = o) m.

(** A statement that reads nothing of [data]: run on any [data] it ends
    as it does on the empty record, and adds the same fields. *)
Definition framed (m : Py record unit) : Prop :=
  forall d, m d = ((m ∅).1, (m ∅).2 ∪ d).

(** Every boolean field that is present holds [True]. *)
Definition flags_true (d : record) : Prop :=
  forall k b, d !! k = Some (VBool b) -> b = true.

Definition throttle_keys : list string :=
  ["throttled_hex"; "throttled_alarm"; "ue_now"; "freq_cap_now"; "throt_now"; "soft_temp_now"].
Definition voltage_keys : list string := ["core_voltage"].
Definition temp_keys : list string := ["cpu_temp"; "temp_warning"].
Definition system_keys : list string :=
  ["cpu_usage"; "cpu_saturation"; "ram_used_pct"; "swap_used_mb"; "mem_pressure";
   "load_1min"; "load_5min"].

(** Whether a computation ended by raising. *)
Definition raised {S A} (r : outcome A * S) : bool :=
  match r.1 with
  | Raised _ => true
  | Returned _ => false
  end.

(** The record the power/thermal probe returns. *)
Definition power_data (float_of_str : string -> option float)
    (get_throttled measure_volts measure_temp : run_result) : record :=
  (try_except (PowerMonitor.body float_of_str get_throttled measure_volts measure_temp)
              (fun _ => py_ret tt) ∅).2.

(** A flag that is not raised: the field is missing or holds [False]. *)
Definition absent_or_false (d : record) (k : string) : Prop :=
  d !! k = None \/ d !! k = Some (VBool false).

(** The text [vcgencmd get_throttled] prints for the mask [0x50005]. *)
Definition throttled_0x50005 : run_result :=
  Returned (Completed 0 ("throttled=0x50005" ++ String nl EmptyString)).

(** Sample outputs of the other two queries, and [float(s)] on the two
    numerals that occur in them. *)
Definition volts_ok : run_result :=
  Returned (Completed 0 ("volt=1.2500V" ++ String nl EmptyString)).
Definition temp_ok : run_result :=
  Returned (Completed 0 ("temp=47.5'C" ++ String nl EmptyString)).
Definition float_stub (s : string) : option float :=
  if String.eqb s "1.2500" then Some 1.25%float
  else if String.eqb s "47.5" then Some 47.5%float
  else None.

(** Output of [get_throttled] with no [=] in it. *)
Definition throttled_malformed : run_result :=
  Returned (Completed 0 "VCHI initialization failed").

(** What one query of the power/thermal probe yields when run on its own:
    the fields it sets, and whether it raised. *)
Definition alone (m : Py record unit) : record := (m ∅).2.
Definition fails (m : Py record unit) : bool := raised (m ∅).

(** The first exception met by the calls on the primary file. *)
Definition primary_fault (primary : CSVLogger.sink_faults) : option exn :=
  match CSVLogger.writerow_raises primary with
  | Some e => Some e
  | None =>
      match CSVLogger.flush_raises primary with
      | Some e => Some e
      | None => CSVLogger.fsync_raises primary
      end
  end.

(** The first exception met by the calls on the backup file. *)
Definition backup_fault (backup : CSVLogger.sink_faults) : option exn :=
  match CSVLogger.writerow_raises backup with
  | Some e => Some e
  | None => CSVLogger.flush_raises backup
  end.

(** The first exception met by [log] when both files are configured. *)
Definition first_fault (primary backup : CSVLogger.sink_faults) : option exn :=
  match primary_fault primary with
  | Some e => Some e
  | None => backup_fault backup
  end.

(** A full disk under the primary file. *)
Definition disk_full : CSVLogger.sink_faults :=
  CSVLogger.SinkFaults (Some "[Errno 28] No space left on device") None None.

(** Both files just after start-up: the header row only. *)
Definition fresh_files : CSVLogger.io :=
  CSVLogger.IO [CSV_HEADERS] (Some [CSV_HEADERS]) [].

Definition noon : datetime := DateTime 2024 5 17 12 0 0 0.
Definition one_past_noon : datetime := DateTime 2024 5 17 12 0 1 250000.

(** [repr(x)] on the floats that occur in the samples. *)
Definition repr_stub (x : float) : string :=
  if PrimFloat.eqb x 1250%float then "1250.0"
  else if PrimFloat.eqb x 0.5%float then "0.5"
  else if PrimFloat.eqb x 0.25%float then "0.25"
  else "0.0".

(** The field names the five probes can contribute. *)
Definition probe_keys : list string :=
  ("usb_events" :: throttle_keys ++ voltage_keys ++ temp_keys ++ system_keys
   ++ ["max_latency_us"; "latency_high"; "log_errors"])%list.

(** The row [CSVLogger.log] hands to the writers. *)
Definition logged_row (now : datetime) (data : record) : record :=
  dict_update {[ "timestamp" := VStr (isoformat now) ]} data.

(** A cycle on a host without the external tools: the shell finds no
    [dmesg] and exits with 127, starting [vcgencmd] or [cyclictest] raises,
    the metrics library is absent, the firmware log does not exist, and
    both files take the row; [start], [probed] and [logged] are the three
    clock readings. *)
Definition no_vcgencmd : run_result :=
  Raised "[Errno 2] No such file or directory: '/usr/bin/vcgencmd'".
Definition no_cyclictest : run_result :=
  Raised "[Errno 2] No such file or directory: 'cyclictest'".
Definition quiet_cycle (start probed logged : instant) : Main.cycle_env :=
  Main.CycleEnv start
    (Returned (Completed 127 EmptyString)) no_vcgencmd no_vcgencmd no_vcgencmd
    None (Returned (0.5%float, 0.25%float, 0.125%float))
    no_cyclictest LogMonitor.absent
    probed logged CSVLogger.healthy CSVLogger.healthy.

Definition start_state : Main.state := Main.State [] 0%nat fresh_files.

(** [round(x, 2)] on floats that have at most two decimals, and a
    division that the samples never reach. *)
Definition round_stub (x : float) (ndigits : Z) : float := x.
Definition truediv_stub (a b : Z) : float := 0%float.

(** A probe result without the field [k]. *)
Definition lacks (k : string) (res : outcome (option record)) : Prop :=
  forall r, res = Returned (Some r) -> r !! k = None.

(** The lines the bus-error probe makes of the output of [dmesg]. *)
Definition kernel_lines (out : string) : list string :=
  PyStr.split nl (PyStr.strip out).

(** Sample kernel output: a disconnect followed by twenty other lines, and
    the same with one more disconnect at the end. *)
Definition dmesg_old : list string :=
  "usb 1-1.2: USB disconnect, device number 4" :: repeat "eth0: link is up" 20.
Definition dmesg_new_line : string := "usb 1-1.3: USB disconnect, device number 5".
Definition dmesg_text (lines : list string) : string :=
  PyStr.join (String nl EmptyString) lines.

(** Consecutive checks of the log probe, one view of the file per cycle:
    the results and the final offset. *)
Fixpoint run_checks (files : list LogMonitor.log_file) (pos : nat)
  : list (outcome (option record)) * nat :=
  match files with
  | [] => ([], pos)
  | f :: rest =>
      let '(r, pos') := LogMonitor.check f pos in
      let '(rs, final) := run_checks rest pos' in
      (r :: rs, final)
  end.

(** Successive contents of a file that is only ever appended to, starting
    from [prev]. *)
Fixpoint append_only (prev : list ascii) (snapshots : list (list ascii)) : Prop :=
  match snapshots with
  | [] => True
  | c :: rest => prev `prefix_of` c /\ append_only c rest
  end.

(** What was appended between consecutive snapshots. *)
Fixpoint appended (prev : list ascii) (snapshots : list (list ascii))
  : list (list ascii) :=
  match snapshots with
  | [] => []
  | c :: rest => drop (length prev) c :: appended c rest
  end.

(** Sample contents of the firmware log. *)
Definition klippy_before : list ascii :=
  list_ascii_of_string ("Stats 101.2: gcodein=0" ++ String nl "Stats 102.2: gcodein=0").
Definition klippy_grown : list ascii :=
  (klippy_before ++ nl :: list_ascii_of_string "Stats 103.2: gcodein=0")%list.
Definition klippy_rotated : list ascii :=
  list_ascii_of_string ("Timer too close" ++ String nl EmptyString).

(** What [cyclictest] prints in quiet mode, with a maximum of 57 us. *)
Definition cyclictest_quiet : run_result :=
  Returned (Completed 0
    ("# /dev/cpu_dma_latency set to 0us" ++ String nl
     "T: 0 ( 1234) P:90 I:200 C:   1000 Min:      5 Act:   12 Avg:   10 Max:      57")).

(** ** Vocabulary of the further properties *)

(** Whether a character occurs in a text. *)
Fixpoint occurs (c : ascii) (s : string) : bool :=
  match s with
  | EmptyString => false
  | String x s' => Ascii.eqb x c || occurs c s'
  end.

(** The retained window of the bus-error probe after a run of cycles,
    one outcome of [dmesg] per cycle. *)
Definition usb_window_after (outcomes : list run_result) (seen : list string)
  : list string :=
  fold_left (fun s dmesg => (USBMonitor.check dmesg s).2) outcomes seen.

(** The language of a pattern: the texts it matches in full. *)
Inductive lang : Re.regex -> string -> Prop :=
| lang_eps : lang Re.Eps EmptyString
| lang_cls p c : p c = true -> lang (Re.Cls p) (String c EmptyString)
| lang_seq a b s1 s2 :
    lang a s1 -> lang b s2 -> lang (Re.Seq a b) (s1 ++ s2)%string
| lang_alt_l a b s : lang a s -> lang (Re.Alt a b) s
| lang_alt_r a b s : lang b s -> lang (Re.Alt a b) s
| lang_star_nil a : lang (Re.Star a) EmptyString
| lang_star_app a s1 s2 :
    lang a s1 -> lang (Re.Star a) s2 -> lang (Re.Star a) (s1 ++ s2)%string.

(** [needle in text] *)
Definition substring_of (needle text : string) : Prop :=
  exists before after, text = (before ++ needle ++ after)%string.

(** [s.lower()] on the ASCII range. *)
Fixpoint lower_str (s : string) : string :=
  match s with
  | EmptyString => EmptyString
  | String c s' => String (PyStr.lower c) (lower_str s')
  end.

(** Every character of a text satisfies [p]. *)
Fixpoint all_chars (p : ascii -> bool) (s : string) : bool :=
  match s with
  | EmptyString => true
  | String c s' => p c && all_chars p s'
  end.

(** Any character but the line feed. *)
Definition not_nl (c : ascii) : bool := negb (Ascii.eqb c nl).

(** The four condition flags of the throttle mask, with their bits. *)
Definition throttle_flags : list (Z * string) :=
  [(0, "ue_now"); (1, "freq_cap_now"); (2, "throt_now"); (3, "soft_temp_now")].

(** The field names of each probe. *)
Definition usb_keys : list string := ["usb_events"].
Definition power_keys : list string :=
  (throttle_keys ++ voltage_keys ++ temp_keys)%list.
Definition latency_keys : list string := ["max_latency_us"; "latency_high"].
Definition log_keys : list string := ["log_errors"].

(** A probe result whose fields are all among [keys]. *)
Definition only_keys (keys : list string) (res : outcome (option record)) : Prop :=
  forall r k, res = Returned (Some r) -> is_Some (r !! k) -> k ∈ keys.

(** The line [main] prints for a probe that raised. *)
Definition probe_error_lines (name : string) (res : outcome (option record))
  : list string :=
  match res with
  | Raised e => [("Monitor " ++ name ++ " error: " ++ e)%string]
  | Returned _ => []
  end.

(** The rows of both files are well formed: every row of the primary file
    has one cell per column and the first row is the header; the rows of
    the backup file, which also starts with the header, all occur in the
    primary file in the same order. *)
Definition files_ok (w : CSVLogger.io) : Prop :=
  Forall (fun row => length row = length CSV_HEADERS) (CSVLogger.file w) /\
  head (CSVLogger.file w) = Some CSV_HEADERS /\
  forall b, CSVLogger.backup_file w = Some b ->
            b `sublist_of` CSVLogger.file w /\ head b = Some CSV_HEADERS.

(** A run of [n] digits. *)
Definition digit_run (n : nat) : string := string_of_list_ascii (repeat "7"%char n).

(** A character of the ASCII range. *)
Definition is_ascii (c : ascii) : bool := (nat_of_ascii c <? 128)%nat.

(** Bytes that are all of the ASCII range: what such a file holds is read
    as it is, whatever the encoding of the locale. *)
Definition ascii_bytes (bytes : list ascii) : Prop :=
  Forall (fun b => is_ascii b = true) bytes.

(** A line that holds one of the three messages the firmware-log probe
    watches for. *)
Definition watched_message (line : string) : Prop :=
  substring_of "Timer too close" line \/
  (exists name, all_chars not_nl name = true /\
                substring_of ("MCU '" ++ name ++ "' shutdown") line) \/
  substring_of "Timeout on serial communication" line.



(** Every cycle of a run finds both files writable. *)
Definition all_healthy (envs : list Main.cycle_env) : Prop :=
  Forall (fun env => Main.primary_faults env = CSVLogger.healthy /\
                     Main.backup_faults env = CSVLogger.healthy) envs.

(* ================================================================== *)
(** * Properties *)

(** ** Sanity checks of the Python primitives *)

Example split_empty : PyStr.split "=" EmptyString = [EmptyString].
Proof. reflexivity. Qed.

Example split_throttled : PyStr.split "=" "throttled=0x50005" = ["throttled"; "0x50005"].
Proof. reflexivity. Qed.

Example replace_temp : PyStr.replace "'C" EmptyString "47.2'C" = "47.2".
Proof. reflexivity. Qed.

Example int16_prefixed : PyStr.int16 "0x50005" = Some 327685.
Proof. reflexivity. Qed.

Example int16_bare : PyStr.int16 " -5_0 " = Some (-80).
Proof. reflexivity. Qed.

Example int16_blanks :
  PyStr.int16 (String "009" "0x5 ") = Some 5 /\ PyStr.int16 (String "028" "0x5") = None.
Proof. by split. Qed.

Example int16_bad : PyStr.int16 "0x" = None /\ PyStr.int16 "1__2" = None /\ PyStr.int16 "zz" = None.
Proof. repeat split; reflexivity. Qed.

Example str_of_int_ex : PyStr.str_of_int 3050 = "3050" /\ PyStr.str_of_int 0 = "0" /\ PyStr.str_of_int (-12) = "-12".
Proof. repeat split; reflexivity. Qed.

Example search_tty : Re.search (Re.Seq (Re.lit_i "ttyACM") (Re.Seq (Re.plus Re.digit) (Re.lit_i " disconnect")))
                       "[ 12.5] cdc_acm 1-1.2: TTYacm01 Disconnect" = true.
Proof. reflexivity. Qed.

Example search_tty_nodigit : Re.search (Re.Seq (Re.lit_i "ttyACM") (Re.Seq (Re.plus Re.digit) (Re.lit_i " disconnect")))
                       "ttyACM disconnect" = false.
Proof. reflexivity. Qed.

(** ** Reasoning about the exception-and-state computations *)

Section Preserves.

Variable P : record -> Prop.

Lemma preserves_ret : preserves P (py_ret tt).
Proof. by intros d Hd. Qed.

Lemma preserves_raise e : preserves P (py_raise e).
Proof. by intros d Hd. Qed.

Lemma preserves_lift {A} (o : outcome A) (k : A -> Py record unit) :
  (forall a, preserves P (k a)) -> preserves P (py_bind (lift o) k).
Proof.
  intros Hk d Hd. unfold py_bind, lift.
  destruct o as [a|e]; [by apply Hk | done].
Qed.

Lemma preserves_seq (m : Py record unit) (k : unit -> Py record unit) :
  preserves P m -> (forall u, preserves P (k u)) -> preserves P (py_bind m k).
Proof.
  intros Hm Hk d Hd. unfold py_bind.
  specialize (Hm d Hd).
  destruct (m d) as [[u|e] d']; cbn [snd] in *; [by apply Hk | done].
Qed.

Lemma preserves_when c m : preserves P m -> preserves P (when c m).
Proof. destruct c; [done | intros _; apply preserves_ret]. Qed.

Lemma preserves_set_item key v :
  (forall d, P d -> P (<[key := v]> d)) -> preserves P (set_item key v).
Proof. intros H d Hd. by apply H. Qed.

Lemma preserves_try (m : Py record unit) :
  preserves P m -> preserves P (try_except m (fun _ => py_ret tt)).
Proof.
  intros Hm d Hd. unfold try_except. specialize (Hm d Hd).
  by destruct (m d) as [[u|e] d'].
Qed.

End Preserves.

(** Break a statement down to its assignments. *)
Ltac preserves_steps :=
  repeat first
    [ apply preserves_ret
    | apply preserves_raise
    | apply preserves_when
    | apply preserves_lift; intros ?
    | apply preserves_seq; [| intros ?] ].

Lemma lookup_kept_by_insert (keys : list string) key (v : value) k o (d : record) :
  key ∈ keys -> k ∉ keys -> d !! k = o -> <[key := v]> d !! k = o.
Proof.
  intros Hin Hk Hd. rewrite lookup_insert_ne; [done |]. by intros ->.
Qed.

Ltac in_keys := repeat first [ apply list_elem_of_here | apply list_elem_of_further ].

Ltac writes_only_assignment Hk :=
  apply preserves_set_item;
  let d := fresh "d" in
  let Hd := fresh "Hd" in
  intros d Hd;
  eapply lookup_kept_by_insert; [| exact Hk | exact Hd]; in_keys.

Ltac writes_only_tac :=
  let Hk := fresh "Hk" in
  intros ? ? Hk; preserves_steps; writes_only_assignment Hk.

Lemma writes_only_weaken keys keys' m :
  keys ⊆ keys' -> writes_only keys m -> writes_only keys' m.
Proof. intros Hsub Hm k o Hk. apply Hm. intros Hin. by apply Hk, Hsub. Qed.

Lemma writes_only_lookup keys m d k :
  writes_only keys m -> k ∉ keys -> (m d).2 !! k = d !! k.
Proof. intros Hm Hk. by apply (Hm k (d !! k) Hk d). Qed.

Lemma flags_true_insert key v (d : record) :
  v <> VBool false -> flags_true d -> flags_true (<[key := v]> d).
Proof.
  intros Hv Hd k b. destruct (decide (key = k)) as [->|Hne].
  - rewrite lookup_insert_eq. intros [= ->]. by destruct b.
  - rewrite lookup_insert_ne by done. apply Hd.
Qed.

Lemma flags_true_empty : flags_true ∅.
Proof. intros k b. by rewrite lookup_empty. Qed.

Ltac flags_true_assignment :=
  apply preserves_set_item;
  let d := fresh "d" in
  let Hd := fresh "Hd" in
  intros d Hd;
  apply flags_true_insert; [discriminate | exact Hd].

Ltac flags_true_tac := preserves_steps; flags_true_assignment.

(** *** Statements that do not read [data] *)

Lemma framed_ret : framed (py_ret tt).
Proof. intros d. unfold py_ret. cbn. by rewrite (left_id_L ∅ (∪)). Qed.

Lemma framed_raise e : framed (py_raise e).
Proof. intros d. unfold py_raise. cbn. by rewrite (left_id_L ∅ (∪)). Qed.

Lemma framed_set_item key v : framed (set_item key v).
Proof.
  intros d. unfold set_item, modify. cbn.
  by rewrite <- insert_union_l, (left_id_L ∅ (∪)).
Qed.

Lemma framed_lift {A} (o : outcome A) (k : A -> Py record unit) :
  (forall a, framed (k a)) -> framed (py_bind (lift o) k).
Proof.
  intros Hk d. unfold py_bind, lift.
  destruct o as [a|e]; [apply Hk |]. cbn. by rewrite (left_id_L ∅ (∪)).
Qed.

Lemma framed_seq (m : Py record unit) (k : unit -> Py record unit) :
  framed m -> (forall u, framed (k u)) -> framed (py_bind m k).
Proof.
  intros Hm Hk d. unfold py_bind. rewrite (Hm d).
  destruct (m ∅) as [[u|e] a]; cbn [fst snd]; [| done].
  rewrite (Hk u (a ∪ d)), (Hk u a). cbn [fst snd].
  by rewrite (assoc_L (∪)).
Qed.

Lemma framed_when c m : framed m -> framed (when c m).
Proof. destruct c; [done | intros _; apply framed_ret]. Qed.

Ltac framed_tac :=
  repeat first
    [ apply framed_ret
    | apply framed_raise
    | apply framed_set_item
    | apply framed_when
    | apply framed_lift; intros ?
    | apply framed_seq; [| intros ?] ].

(** ** Power/thermal probe *)

Lemma check_throttled_writes res :
  writes_only throttle_keys (PowerMonitor.check_throttled res).
Proof. unfold PowerMonitor.check_throttled. writes_only_tac. Qed.

Lemma check_voltage_writes f res :
  writes_only voltage_keys (PowerMonitor.check_voltage f res).
Proof. unfold PowerMonitor.check_voltage. writes_only_tac. Qed.

Lemma check_temp_writes f res :
  writes_only temp_keys (PowerMonitor.check_temp f res).
Proof. unfold PowerMonitor.check_temp. writes_only_tac. Qed.

Lemma check_throttled_framed res : framed (PowerMonitor.check_throttled res).
Proof. unfold PowerMonitor.check_throttled. framed_tac. Qed.

Lemma check_voltage_framed f res : framed (PowerMonitor.check_voltage f res).
Proof. unfold PowerMonitor.check_voltage. framed_tac. Qed.

Lemma check_temp_framed f res : framed (PowerMonitor.check_temp f res).
Proof. unfold PowerMonitor.check_temp. framed_tac. Qed.

(** [check] always returns the [data] the body leaves behind. *)
Lemma power_check_returns f gt mv mt :
  PowerMonitor.check f gt mv mt tt = (Returned (Some (power_data f gt mv mt)), tt).
Proof. reflexivity. Qed.

(** The record of one cycle, from what the three queries do on their own:
    the fields of a query are there when no earlier query raised. *)
Lemma power_data_by_query f gt mv mt :
  power_data f gt mv mt =
    let q1 := PowerMonitor.check_throttled gt in
    let q2 := PowerMonitor.check_voltage f mv in
    let q3 := PowerMonitor.check_temp f mt in
    if fails q1 then alone q1
    else if fails q2 then alone q2 ∪ alone q1
    else alone q3 ∪ (alone q2 ∪ alone q1).
Proof.
  unfold power_data, PowerMonitor.body, try_except, fails, alone, raised.
  cbv zeta. unfold py_bind.
  destruct (PowerMonitor.check_throttled gt ∅) as [[[]|e1] d1] eqn:E1; cbn [fst snd];
    [| done].
  rewrite (check_voltage_framed f mv d1).
  destruct (PowerMonitor.check_voltage f mv ∅) as [[[]|e2] d2] eqn:E2; cbn [fst snd];
    [| done].
  rewrite (check_temp_framed f mt (d2 ∪ d1)).
  by destruct (PowerMonitor.check_temp f mt ∅) as [[[]|e3] d3] eqn:E3.
Qed.

Lemma alone_none_outside keys m k :
  writes_only keys m -> k ∉ keys -> alone m !! k = None.
Proof.
  intros Hm Hk. unfold alone. rewrite (writes_only_lookup keys m ∅ k Hm Hk).
  apply lookup_empty.
Qed.

(** The later two queries leave the throttle fields as the first query
    set them. *)
Lemma power_data_throttle_fields f gt mv mt key :
  key ∉ (voltage_keys ++ temp_keys)%list ->
  power_data f gt mv mt !! key = alone (PowerMonitor.check_throttled gt) !! key.
Proof.
  intros Hkey. rewrite power_data_by_query. cbv zeta.
  assert (Hv : alone (PowerMonitor.check_voltage f mv) !! key = None).
  { eapply alone_none_outside; [apply check_voltage_writes |].
    intros Hin. apply Hkey. apply elem_of_app. by left. }
  assert (Ht : alone (PowerMonitor.check_temp f mt) !! key = None).
  { eapply alone_none_outside; [apply check_temp_writes |].
    intros Hin. apply Hkey. apply elem_of_app. by right. }
  destruct (fails _); [done |].
  destruct (fails _).
  - by rewrite lookup_union_r.
  - by rewrite !lookup_union_r.
Qed.

(** What the first query leaves in [data] when the tool exits with 0 and
    its output parses to the mask [0x50005]. *)
Lemma check_throttled_0x50005 out val_str d :
  index1 (PyStr.split "=" (PyStr.strip out)) = Returned val_str ->
  PyStr.int16 val_str = Some 0x50005 ->
  PowerMonitor.check_throttled (Returned (Completed 0 out)) d =
    (Returned tt,
     <["throt_now" := VBool true]>
       (<["ue_now" := VBool true]>
          (<["throttled_alarm" := VBool true]>
             (<["throttled_hex" := VStr val_str]> d)))).
Proof.
  intros Hsplit Hint.
  unfold PowerMonitor.check_throttled, py_bind, lift, when, PowerMonitor.py_int16.
  cbn [returncode stdout]. rewrite Hsplit, Hint. reflexivity.
Qed.

Lemma land_pow2 v n :
  0 <= n -> Z.land v (2 ^ n) = if Z.testbit v n then 2 ^ n else 0.
Proof.
  intros Hn. apply Z.bits_inj'. intros m Hm.
  rewrite Z.land_spec, Z.pow2_bits_eqb by done.
  destruct (Z.eqb_spec n m) as [->|Hne].
  - destruct (Z.testbit v m) eqn:Hb.
    + by rewrite Z.pow2_bits_eqb, Z.eqb_refl by done.
    + by rewrite Z.bits_0.
  - rewrite andb_false_r. destruct (Z.testbit v n).
    + rewrite Z.pow2_bits_eqb by done. symmetry. by apply Z.eqb_neq.
    + by rewrite Z.bits_0.
Qed.

(** [val_int & (1 << n)] is truthy exactly when bit [n] is set. *)
Lemma masked_testbit v n :
  0 <= n -> PowerMonitor.masked v (2 ^ n) = Z.testbit v n.
Proof.
  intros Hn. unfold PowerMonitor.masked. rewrite land_pow2 by done.
  destruct (Z.testbit v n); [| done].
  apply negb_true_iff, Z.eqb_neq. pose proof (Z.pow_pos_nonneg 2 n). lia.
Qed.

(** The bit layout of the mask, for any mask: a field per set bit among
    bits 0 to 3, and no field for a clear bit. *)
Lemma check_throttled_decodes out val_str val_int :
  index1 (PyStr.split "=" (PyStr.strip out)) = Returned val_str ->
  PyStr.int16 val_str = Some val_int ->
  let data := alone (PowerMonitor.check_throttled (Returned (Completed 0 out))) in
  let flag (bit : Z) := if Z.testbit val_int bit then Some (VBool true) else None in
  data !! "throttled_hex" = Some (VStr val_str) /\
  data !! "throttled_alarm" = (if val_int =? 0 then None else Some (VBool true)) /\
  (val_int <> 0 ->
   data !! "ue_now" = flag 0 /\ data !! "freq_cap_now" = flag 1 /\
   data !! "throt_now" = flag 2 /\ data !! "soft_temp_now" = flag 3).
Proof.
  intros Hsplit Hint data flag. subst data flag.
  pose proof (masked_testbit val_int 0 ltac:(lia)) as H0.
  pose proof (masked_testbit val_int 1 ltac:(lia)) as H1.
  pose proof (masked_testbit val_int 2 ltac:(lia)) as H2.
  pose proof (masked_testbit val_int 3 ltac:(lia)) as H3.
  change (2 ^ 0) with 1 in H0. change (2 ^ 1) with 2 in H1.
  change (2 ^ 2) with 4 in H2. change (2 ^ 3) with 8 in H3.
  unfold alone, PowerMonitor.check_throttled, py_bind, lift, PowerMonitor.py_int16.
  cbn [returncode stdout]. rewrite Hsplit, Hint, H0, H1, H2, H3.
  unfold when, set_item, modify, py_ret.
  destruct (val_int =? 0) eqn:Ez; cbv beta iota zeta; cbn [negb fst snd].
  - apply Z.eqb_eq in Ez. repeat split; try (by simplify_map_eq); by intros.
  - destruct (Z.testbit val_int 0), (Z.testbit val_int 1),
             (Z.testbit val_int 2), (Z.testbit val_int 3);
      cbv beta iota zeta; cbn [fst snd]; repeat split; intros; by simplify_map_eq.
Qed.

(** C1 (as stated) fails: for the mask [0x50005] the probe does not set
    [soft_temp_now] and does set [throt_now]. *)
Lemma C1_counterexample :
  ~ (forall data,
       (PowerMonitor.check float_stub throttled_0x50005 volts_ok temp_ok tt).1
         = Returned (Some data) ->
       data !! "throttled_alarm" = Some (VBool true) /\
       data !! "ue_now" = Some (VBool true) /\
       data !! "soft_temp_now" = Some (VBool true) /\
       absent_or_false data "freq_cap_now" /\
       absent_or_false data "throt_now").
Proof.
  intros H. destruct (H _ eq_refl) as (_ & _ & Hsoft & _ & _).
  vm_compute in Hsoft. discriminate Hsoft.
Qed.

(** C1 (amended): when [get_throttled] exits with 0 and its output parses
    to the mask [0x50005], the returned record has [throttled_alarm],
    [ue_now] (bit 0) and [throt_now] (bit 2) set to [True], and neither
    [freq_cap_now] (bit 1) nor [soft_temp_now] (bit 3) present, whatever
    the other two queries do. *)
Theorem C1_throttle_0x50005 (float_of_str : string -> option float)
    (out val_str : string) (measure_volts measure_temp : run_result) :
  index1 (PyStr.split "=" (PyStr.strip out)) = Returned val_str ->
  PyStr.int16 val_str = Some 0x50005 ->
  exists data,
    PowerMonitor.check float_of_str (Returned (Completed 0 out))
      measure_volts measure_temp tt = (Returned (Some data), tt) /\
    data !! "throttled_alarm" = Some (VBool true) /\
    data !! "ue_now" = Some (VBool true) /\
    data !! "throt_now" = Some (VBool true) /\
    data !! "freq_cap_now" = None /\
    data !! "soft_temp_now" = None.
Proof.
  intros Hsplit Hint. eexists. split; [apply power_check_returns |].
  assert (Hk : forall key, key ∈ throttle_keys ->
                 key ∉ (voltage_keys ++ temp_keys)%list).
  { intros key Hin Hin'. unfold throttle_keys, voltage_keys, temp_keys in *.
    cbn in Hin'. repeat (apply elem_of_cons in Hin' as [-> | Hin']);
      try (by apply elem_of_nil in Hin');
      repeat (apply elem_of_cons in Hin as [Hin | Hin]); try discriminate;
      by apply elem_of_nil in Hin. }
  rewrite !power_data_throttle_fields by (apply Hk; unfold throttle_keys; in_keys).
  unfold alone. rewrite (check_throttled_0x50005 _ _ _ Hsplit Hint). cbn [snd].
  repeat split; by simplify_map_eq.
Qed.

Lemma C1_throttle_0x50005_witness :
  exists data,
    PowerMonitor.check float_stub throttled_0x50005 volts_ok temp_ok tt
      = (Returned (Some data), tt) /\
    data !! "throttled_alarm" = Some (VBool true) /\
    data !! "ue_now" = Some (VBool true) /\
    data !! "throt_now" = Some (VBool true) /\
    data !! "freq_cap_now" = None /\
    data !! "soft_temp_now" = None.
Proof.
  apply (C1_throttle_0x50005 float_stub _ "0x50005"); reflexivity.
Defined.

(** *** Independence of the three queries *)

Ltac key_notin :=
  let H := fresh "H" in
  intros H; cbn in H;
  repeat (apply elem_of_cons in H as [H|H]; [discriminate H |]);
  by apply elem_of_nil in H.

Ltac key_cases Hk :=
  repeat (apply elem_of_cons in Hk as [->|Hk]);
  [.. | by apply elem_of_nil in Hk].

(** A query whose tool exits with a non-zero code writes nothing and does
    not raise. *)
Lemma nonzero_exit_is_quiet f code out d :
  code <> 0 ->
  PowerMonitor.check_throttled (Returned (Completed code out)) d = (Returned tt, d) /\
  PowerMonitor.check_voltage f (Returned (Completed code out)) d = (Returned tt, d) /\
  PowerMonitor.check_temp f (Returned (Completed code out)) d = (Returned tt, d).
Proof.
  intros Hcode. apply Z.eqb_neq in Hcode.
  unfold PowerMonitor.check_throttled, PowerMonitor.check_voltage,
         PowerMonitor.check_temp, py_bind, lift.
  cbn [returncode]. by rewrite Hcode.
Qed.

(** C4 (as stated) fails: output of the throttle query without [=] raises
    inside the one [try], and the voltage the second query would have
    reported is missing from the record. *)
Lemma C4_counterexample :
  ~ (forall k v,
       alone (PowerMonitor.check_voltage float_stub volts_ok) !! k = Some v ->
       power_data float_stub throttled_malformed volts_ok temp_ok !! k = Some v).
Proof.
  intros H. specialize (H "core_voltage" (VFloat 1.25%float) eq_refl).
  vm_compute in H. discriminate H.
Qed.

(** C4 (amended): a query whose tool exits with a non-zero code neither
    raises nor writes, so it suppresses nothing; the fields of the throttle
    query are always those it set; the field of the voltage query is
    present unless the throttle query raised; the fields of the
    temperature query are present unless the throttle or the voltage query
    raised. *)
Theorem C4_failure_propagation (float_of_str : string -> option float)
    (get_throttled measure_volts measure_temp : run_result) :
  let q1 := PowerMonitor.check_throttled get_throttled in
  let q2 := PowerMonitor.check_voltage float_of_str measure_volts in
  let q3 := PowerMonitor.check_temp float_of_str measure_temp in
  let data := power_data float_of_str get_throttled measure_volts measure_temp in
  (PowerMonitor.check float_of_str get_throttled measure_volts measure_temp tt).1
    = Returned (Some data) /\
  (forall code out, code <> 0 ->
     fails (PowerMonitor.check_throttled (Returned (Completed code out))) = false /\
     fails (PowerMonitor.check_voltage float_of_str (Returned (Completed code out))) = false /\
     fails (PowerMonitor.check_temp float_of_str (Returned (Completed code out))) = false) /\
  (forall k, k ∈ throttle_keys -> data !! k = alone q1 !! k) /\
  (forall k, k ∈ voltage_keys ->
     data !! k = if fails q1 then None else alone q2 !! k) /\
  (forall k, k ∈ temp_keys ->
     data !! k = if fails q1 || fails q2 then None else alone q3 !! k).
Proof.
  intros q1 q2 q3 data. split; [reflexivity |]. split.
  { intros code out Hcode. unfold fails, raised.
    destruct (nonzero_exit_is_quiet float_of_str code out ∅ Hcode) as (-> & -> & ->).
    done. }
  assert (H1 : forall k, k ∉ throttle_keys -> alone q1 !! k = None).
  { intros k. apply alone_none_outside, check_throttled_writes. }
  assert (H2 : forall k, k ∉ voltage_keys -> alone q2 !! k = None).
  { intros k. apply alone_none_outside, check_voltage_writes. }
  assert (H3 : forall k, k ∉ temp_keys -> alone q3 !! k = None).
  { intros k. apply alone_none_outside, check_temp_writes. }
  subst data. rewrite power_data_by_query. cbv zeta. fold q1 q2 q3.
  split; [| split].
  - intros k Hk.
    assert (alone q2 !! k = None) as E2 by (apply H2; key_cases Hk; key_notin).
    assert (alone q3 !! k = None) as E3 by (apply H3; key_cases Hk; key_notin).
    destruct (fails q1); [done |].
    destruct (fails q2); by rewrite !lookup_union_r.
  - intros k Hk.
    assert (alone q1 !! k = None) as E1 by (apply H1; key_cases Hk; key_notin).
    assert (alone q3 !! k = None) as E3 by (apply H3; key_cases Hk; key_notin).
    destruct (fails q1); [done |].
    destruct (fails q2).
    + by rewrite lookup_union_l.
    + by rewrite lookup_union_r, lookup_union_l.
  - intros k Hk.
    assert (alone q1 !! k = None) as E1 by (apply H1; key_cases Hk; key_notin).
    assert (alone q2 !! k = None) as E2 by (apply H2; key_cases Hk; key_notin).
    destruct (fails q1); [done |].
    destruct (fails q2); cbn [orb].
    + by rewrite lookup_union_r.
    + rewrite lookup_union_l; [done | by rewrite lookup_union_r].
Qed.

(** The theorem at the sample outputs: the throttle query raises, and the
    healthy voltage and temperature queries leave no field. *)
Lemma C4_failure_propagation_witness :
  fails (PowerMonitor.check_throttled throttled_malformed) = true /\
  power_data float_stub throttled_malformed volts_ok temp_ok !! "core_voltage" = None /\
  power_data float_stub throttled_0x50005 (Returned (Completed 1 EmptyString)) temp_ok
    !! "cpu_temp" = Some (VFloat 47.5%float).
Proof.
  pose proof (C4_failure_propagation float_stub throttled_malformed volts_ok temp_ok)
    as (_ & _ & _ & Hv & _).
  pose proof (C4_failure_propagation float_stub throttled_0x50005
                (Returned (Completed 1 EmptyString)) temp_ok) as (_ & _ & _ & _ & Ht).
  split; [reflexivity |]. split.
  - rewrite (Hv "core_voltage") by (unfold voltage_keys; in_keys). reflexivity.
  - rewrite (Ht "cpu_temp") by (unfold temp_keys; in_keys). reflexivity.
Defined.

(** ** Which probes can raise *)

(** The bus-error probe always returns. *)
Lemma usb_check_returns dmesg seen :
  exists r seen', USBMonitor.check dmesg seen = (Returned r, seen').
Proof.
  unfold USBMonitor.check, try_except, USBMonitor.body, py_bind, lift.
  destruct dmesg as [res|e]; cbn; eauto.
Qed.

(** The scheduling-latency probe always returns. *)
Lemma latency_check_returns cyclictest :
  exists r, LatencyMonitor.check cyclictest tt = (Returned r, tt).
Proof.
  unfold LatencyMonitor.check, try_except, LatencyMonitor.body, py_bind, lift.
  destruct cyclictest as [res|e]; [| by eexists].
  destruct (returncode res =? 0); [| by eexists].
  destruct (LatencyMonitor.search_max (stdout res)) as [g|]; [| by eexists].
  destruct (LatencyMonitor.py_int g); by eexists.
Qed.

(** The firmware-log-tail probe always returns. *)
Lemma log_check_returns f pos :
  exists r pos', LogMonitor.check f pos = (Returned r, pos').
Proof.
  unfold LogMonitor.check. destruct (negb (LogMonitor.log_exists f)); eauto.
Qed.

(** The resource-usage probe returns when none of the calls it makes
    raises. *)
Lemma system_check_returns round_ndigits int_truediv psutil load :
  (forall ps, psutil = Some ps ->
     exists c m s, SystemMonitor.cpu_percent ps = Returned c /\
                   SystemMonitor.virtual_memory ps = Returned m /\
                   SystemMonitor.swap_memory ps = Returned s) ->
  (psutil = None -> exists l, load = Returned l) ->
  exists data,
    SystemMonitor.check round_ndigits int_truediv psutil load tt
      = (Returned (Some data), tt).
Proof.
  intros Hps Hload. unfold SystemMonitor.check, SystemMonitor.body.
  destruct psutil as [ps|].
  - destruct (Hps ps eq_refl) as (c & m & s & Hc & Hm & Hs).
    unfold py_bind, lift. rewrite Hc, Hm, Hs. unfold set_item, modify, when.
    cbn. destruct (PrimFloat.ltb _ c); cbn;
      destruct (PrimFloat.ltb _ _); cbn; eauto.
  - destruct (Hload eq_refl) as (l & ->). cbn. eauto.
Qed.

(** C2 (the code falls short of the claim): [SystemMonitor.check] has no
    handler, so in the load-average mode an [OSError] of [os.getloadavg()]
    leaves [check] as an exception, and in the psutil mode so does an
    exception of [cpu_percent]. *)
Theorem C2_system_check_raises
    (round_ndigits : float -> Z -> float) (int_truediv : Z -> Z -> float)
    (e : exn) (m : outcome float) (s : outcome Z)
    (load : outcome (float * float * float)) :
  SystemMonitor.check round_ndigits int_truediv None (Raised e) tt = (Raised e, tt) /\
  SystemMonitor.check round_ndigits int_truediv
    (Some (SystemMonitor.Psutil (Raised e) m s)) load tt = (Raised e, tt).
Proof. split; reflexivity. Qed.

(** The cycle contains such an exception: it prints a line for the probe
    and goes on with the record as it was. *)
Lemma merge_catches name e (current : record) (console : list string) :
  Main.merge name (Raised e) (current, console)
    = (current, console ++ [("Monitor " ++ name ++ " error: " ++ e)%string])%list.
Proof. reflexivity. Qed.

(** ** Recorder: failures of the files *)

(** [log] on two files, case by case. *)
Lemma log_two_files repr now primary backup data w b :
  CSVLogger.backup_file w = Some b ->
  let row :=
    CSVLogger.dict_to_list repr CSV_HEADERS
      (dict_update {[ "timestamp" := VStr (isoformat now) ]} data) in
  CSVLogger.log repr now primary backup data w =
    (Returned tt,
     CSVLogger.IO
       (match CSVLogger.writerow_raises primary with
        | None => CSVLogger.file w ++ [row]
        | Some _ => CSVLogger.file w
        end)
       (Some (match primary_fault primary, CSVLogger.writerow_raises backup with
              | None, None => b ++ [row]
              | _, _ => b
              end))
       (match first_fault primary backup with
        | Some e => CSVLogger.console w ++ [("Logging failed: " ++ e)%string]
        | None => CSVLogger.console w
        end))%list.
Proof.
  intros Hb row. destruct w as [f bf c]. cbn in Hb. subst bf.
  destruct primary as [[e1|] [e2|] [e3|]], backup as [[e4|] [e5|] x]; reflexivity.
Qed.

(** C3 (as stated) fails: when the write to the primary file raises, the
    backup file does not receive the row. *)
Lemma C3_counterexample :
  ~ (exists row,
       CSVLogger.backup_file
         (CSVLogger.log repr_stub noon disk_full CSVLogger.healthy ∅ fresh_files).2
       = Some [CSV_HEADERS; row]).
Proof. intros [row H]. vm_compute in H. discriminate H. Qed.

(** C3 (amended): with a primary and a backup file, [log] never raises and
    prints the first failure as [Logging failed: ...]; the primary file
    takes the row unless its own [writerow] raises, whatever happens to the
    backup file afterwards; the backup file takes the row only when no call
    on the primary file raised (and its own [writerow] does not raise), so
    a failure of the primary file leaves the backup file without the row. *)
Theorem C3_log_failures (float_repr : float -> string) (now : datetime)
    (primary backup : CSVLogger.sink_faults) (data : record)
    (w : CSVLogger.io) (b : list (list string)) :
  CSVLogger.backup_file w = Some b ->
  let row :=
    CSVLogger.dict_to_list float_repr CSV_HEADERS
      (dict_update {[ "timestamp" := VStr (isoformat now) ]} data) in
  let r := CSVLogger.log float_repr now primary backup data w in
  r.1 = Returned tt /\
  (CSVLogger.console r.2 =
     match first_fault primary backup with
     | Some e => CSVLogger.console w ++ [("Logging failed: " ++ e)%string]
     | None => CSVLogger.console w
     end)%list /\
  (CSVLogger.writerow_raises primary = None ->
   CSVLogger.file r.2 = CSVLogger.file w ++ [row])%list /\
  (primary_fault primary = None -> CSVLogger.writerow_raises backup = None ->
   CSVLogger.backup_file r.2 = Some (b ++ [row]))%list /\
  (primary_fault primary <> None -> CSVLogger.backup_file r.2 = Some b).
Proof.
  intros Hb row r. subst r row. rewrite (log_two_files _ _ _ _ _ _ _ Hb).
  cbn [fst snd CSVLogger.console CSVLogger.file CSVLogger.backup_file].
  repeat split.
  - by intros ->.
  - by intros -> ->.
  - intros Hp. by destruct (primary_fault primary).
Qed.

Lemma C3_log_failures_witness :
  let r := CSVLogger.log repr_stub noon disk_full CSVLogger.healthy ∅ fresh_files in
  r.1 = Returned tt /\
  CSVLogger.console r.2 = ["Logging failed: [Errno 28] No space left on device"] /\
  CSVLogger.backup_file r.2 = Some [CSV_HEADERS].
Proof.
  pose proof (C3_log_failures repr_stub noon disk_full CSVLogger.healthy ∅
                fresh_files [CSV_HEADERS] eq_refl) as (H1 & H2 & _ & _ & H5).
  split; [exact H1 |]. split; [exact H2 |]. apply H5. discriminate.
Defined.

(** ** Recorder: the row that is written *)

Section Rows.

Variable float_repr : float -> string.

Lemma dict_to_list_length fieldnames (row : record) :
  length (CSVLogger.dict_to_list float_repr fieldnames row) = length fieldnames.
Proof. unfold CSVLogger.dict_to_list. apply length_map. Qed.

Lemma dict_to_list_lookup fieldnames (row : record) i k :
  fieldnames !! i = Some k ->
  CSVLogger.dict_to_list float_repr fieldnames row !! i
    = Some (match row !! k with
            | Some v => CSVLogger.cell_of_value float_repr v
            | None => EmptyString
            end).
Proof.
  intros Hi. unfold CSVLogger.dict_to_list. by rewrite list_lookup_fmap, Hi.
Qed.

(** Only the fields named in the schema matter. *)
Lemma dict_to_list_ext fieldnames (row row' : record) :
  (forall k, k ∈ fieldnames -> row !! k = row' !! k) ->
  CSVLogger.dict_to_list float_repr fieldnames row
    = CSVLogger.dict_to_list float_repr fieldnames row'.
Proof.
  intros H. unfold CSVLogger.dict_to_list. apply map_ext_in.
  intros k Hk. rewrite H; [done |]. by apply list_elem_of_In.
Qed.

Lemma logged_row_lookup now (data : record) k :
  logged_row now data !! k =
    match data !! k with
    | Some v => Some v
    | None => if decide (k = "timestamp") then Some (VStr (isoformat now)) else None
    end.
Proof.
  unfold logged_row, dict_update. rewrite lookup_union.
  destruct (data !! k) as [v|] eqn:E.
  - by destruct ({[ "timestamp" := VStr (isoformat now) ]} !! k).
  - rewrite (left_id_L None _). case_decide as Hk.
    + subst k. apply lookup_singleton_eq.
    + by apply lookup_singleton_ne.
Qed.

(** What [log] does to the primary file, with or without a backup file:
    it returns, and the row is appended unless [writerow] raises. *)
Lemma log_primary_file now primary backup data w :
  let r := CSVLogger.log float_repr now primary backup data w in
  r.1 = Returned tt /\
  CSVLogger.file r.2 =
    match CSVLogger.writerow_raises primary with
    | None => (CSVLogger.file w
                ++ [CSVLogger.dict_to_list float_repr CSV_HEADERS (logged_row now data)])%list
    | Some _ => CSVLogger.file w
    end.
Proof.
  destruct w as [f [b|] c];
    destruct primary as [[e1|] [e2|] [e3|]], backup as [[e4|] [e5|] x];
    by split.
Qed.

(** C8 (as stated) fails for one field: a record without [timestamp] is
    written with a timestamp cell that is not empty. *)
Lemma C8_counterexample :
  ~ (forall cells i k,
       last (CSVLogger.file
               (CSVLogger.log repr_stub noon CSVLogger.healthy CSVLogger.healthy
                  ∅ fresh_files).2) = Some cells ->
       CSV_HEADERS !! i = Some k ->
       (∅ : record) !! k = None ->
       cells !! i = Some EmptyString).
Proof.
  intros H. specialize (H _ 0%nat "timestamp" eq_refl eq_refl eq_refl).
  vm_compute in H. discriminate H.
Qed.

(** C8 (amended): [log] never raises; when the writer takes the row, the
    row has one cell per schema column, in the order of the schema; the
    cell of a column is the text of the record's value for it, and is empty
    when the record has no such field, except for [timestamp], which [log]
    fills in with the time it reads when the record has none; fields of
    the record outside the schema change nothing. *)
Theorem C8_row_follows_schema (now : datetime)
    (primary backup : CSVLogger.sink_faults) (data : record) (w : CSVLogger.io) :
  CSVLogger.writerow_raises primary = None ->
  let r := CSVLogger.log float_repr now primary backup data w in
  r.1 = Returned tt /\
  exists cells,
    CSVLogger.file r.2 = (CSVLogger.file w ++ [cells])%list /\
    length cells = length CSV_HEADERS /\
    (forall i k, CSV_HEADERS !! i = Some k ->
       cells !! i = Some (match data !! k with
                          | Some v => CSVLogger.cell_of_value float_repr v
                          | None => if decide (k = "timestamp") then isoformat now else EmptyString
                          end)) /\
    (forall data' : record,
       (forall k, k ∈ CSV_HEADERS -> data' !! k = data !! k) ->
       CSVLogger.file (CSVLogger.log float_repr now primary backup data' w).2
         = (CSVLogger.file w ++ [cells])%list).
Proof.
  intros Hw r. subst r.
  destruct (log_primary_file now primary backup data w) as [Hret Hfile].
  split; [exact Hret |]. rewrite Hw in Hfile.
  eexists. split; [exact Hfile |]. split; [apply dict_to_list_length |]. split.
  - intros i k Hi. rewrite (dict_to_list_lookup _ _ _ _ Hi), logged_row_lookup.
    destruct (data !! k); [done |]. by case_decide.
  - intros data' Hsame.
    destruct (log_primary_file now primary backup data' w) as [_ Hfile'].
    rewrite Hw in Hfile'. rewrite Hfile'. do 2 f_equal.
    apply dict_to_list_ext. intros k Hk.
    rewrite !logged_row_lookup. by rewrite (Hsame k Hk).
Qed.

End Rows.

Lemma C8_row_follows_schema_witness :
  exists cells,
    CSVLogger.file
      (CSVLogger.log repr_stub noon CSVLogger.healthy CSVLogger.healthy
         {[ "unknown_field" := VInt 7 ]} fresh_files).2
      = [CSV_HEADERS; cells] /\
    length cells = 23%nat /\ cells !! 22%nat = Some EmptyString.
Proof.
  destruct (C8_row_follows_schema repr_stub noon CSVLogger.healthy CSVLogger.healthy
              {[ "unknown_field" := VInt 7 ]} fresh_files eq_refl)
    as (_ & cells & Hfile & Hlen & Hcell & _).
  exists cells. split; [exact Hfile |]. split; [exact Hlen |].
  exact (Hcell 22%nat "notes" eq_refl).
Defined.

(** ** The cycle: which fields the probes write, and the timestamp *)

Lemma system_body_writes r t psutil load :
  writes_only system_keys (SystemMonitor.body r t psutil load).
Proof.
  unfold SystemMonitor.body. destruct psutil as [ps|]; writes_only_tac.
Qed.

Lemma merge_lacks k name res (acc : record * list string) :
  acc.1 !! k = None -> lacks k res -> (Main.merge name res acc).1 !! k = None.
Proof.
  intros Hacc Hres. unfold Main.merge.
  destruct res as [[d|]|e]; [| done | done].
  case_bool_decide; [done |]. cbn [fst]. unfold dict_update.
  rewrite lookup_union, Hacc, (Hres d eq_refl). done.
Qed.

Lemma usb_lacks k dmesg seen :
  k <> "usb_events" -> lacks k (USBMonitor.check dmesg seen).1.
Proof.
  intros Hk r. unfold USBMonitor.check, try_except, USBMonitor.body, py_bind, lift, get, put, py_ret.
  destruct dmesg as [res|e]; cbn [fst].
  - destruct (USBMonitor.new_events _ _); intros [= <-].
    by apply lookup_singleton_ne.
  - intros [= <-]. by apply lookup_singleton_ne.
Qed.

Lemma power_lacks k f gt mv mt :
  k ∉ throttle_keys -> k ∉ voltage_keys -> k ∉ temp_keys ->
  lacks k (PowerMonitor.check f gt mv mt tt).1.
Proof.
  intros H1 H2 H3 r. rewrite power_check_returns. intros [= <-].
  rewrite power_data_by_query. cbv zeta.
  pose proof (alone_none_outside _ _ k (check_throttled_writes gt) H1) as E1.
  pose proof (alone_none_outside _ _ k (check_voltage_writes f mv) H2) as E2.
  pose proof (alone_none_outside _ _ k (check_temp_writes f mt) H3) as E3.
  destruct (fails _); [done |].
  destruct (fails _); rewrite !lookup_union, ?E1, ?E2, ?E3; done.
Qed.

Lemma system_lacks k r t psutil load :
  k ∉ system_keys -> lacks k (SystemMonitor.check r t psutil load tt).1.
Proof.
  intros Hk d. unfold SystemMonitor.check.
  pose proof (writes_only_lookup _ _ ∅ k (system_body_writes r t psutil load) Hk) as E.
  destruct (SystemMonitor.body r t psutil load ∅) as [[u|e] d']; cbn [fst snd] in *.
  - intros [= <-]. by rewrite E, lookup_empty.
  - discriminate.
Qed.

Lemma latency_lacks k cyclictest :
  k <> "max_latency_us" -> k <> "latency_high" ->
  lacks k (LatencyMonitor.check cyclictest tt).1.
Proof.
  intros H1 H2 r.
  unfold LatencyMonitor.check, try_except, LatencyMonitor.body, py_bind, lift, py_ret.
  destruct cyclictest as [res|e]; [| discriminate].
  destruct (returncode res =? 0); [| discriminate].
  destruct (LatencyMonitor.search_max (stdout res)) as [g|]; [| discriminate].
  destruct (LatencyMonitor.py_int g); [| discriminate].
  cbn [fst]. intros [= <-].
  rewrite lookup_insert_ne by done. by apply lookup_singleton_ne.
Qed.

(** [data] in [LogMonitor.check] is empty or holds [log_errors] only. *)
Lemma log_body_data f l k :
  k <> "log_errors" ->
  LogMonitor.data l !! k = None ->
  LogMonitor.data (try_except (LogMonitor.body f) (fun _ => py_ret tt) l).2 !! k = None.
Proof.
  intros Hk Hl. unfold try_except, LogMonitor.body, py_bind, lift, get, when,
    LogMonitor.set_file_pos, LogMonitor.set_data, modify, py_ret.
  destruct (LogMonitor.log_getsize f) as [size|e]; [| done].
  destruct (size <? LogMonitor.file_pos l)%nat; cbn [fst snd LogMonitor.file_pos LogMonitor.data].
  - destruct (0 <? size)%nat; [| done].
    destruct (LogMonitor.log_bytes f) as [content|e]; [| done].
    cbn [fst snd LogMonitor.file_pos LogMonitor.data].
    destruct (negb _); cbn; [by rewrite lookup_insert_ne | done].
  - destruct (LogMonitor.file_pos l <? size)%nat; [| done].
    destruct (LogMonitor.log_bytes f) as [content|e]; [| done].
    cbn [fst snd LogMonitor.file_pos LogMonitor.data].
    destruct (negb _); cbn; [by rewrite lookup_insert_ne | done].
Qed.

Lemma log_lacks k f pos :
  k <> "log_errors" -> lacks k (LogMonitor.check f pos).1.
Proof.
  intros Hk r. unfold LogMonitor.check.
  destruct (negb (LogMonitor.log_exists f)); [discriminate |].
  cbn [fst]. unfold LogMonitor.nonempty.
  case_bool_decide; [discriminate |]. intros [= <-].
  apply log_body_data; [done |]. apply lookup_empty.
Qed.

Section Cycle.

Variable float_of_str : string -> option float.
Variable round_ndigits : float -> Z -> float.
Variable int_truediv : Z -> Z -> float.
Variable float_repr : float -> string.

(** No probe contributes a field outside [probe_keys]. *)
Lemma run_monitors_keys env st k :
  k ∉ probe_keys ->
  (Main.run_monitors float_of_str round_ndigits int_truediv env st).1.1.1 !! k = None.
Proof.
  intros Hk. unfold probe_keys in Hk.
  apply not_elem_of_cons in Hk as [Husb Hk].
  apply not_elem_of_app in Hk as [Hthr Hk].
  apply not_elem_of_app in Hk as [Hvolt Hk].
  apply not_elem_of_app in Hk as [Htemp Hk].
  apply not_elem_of_app in Hk as [Hsys Hk].
  apply not_elem_of_cons in Hk as [Hmax Hk].
  apply not_elem_of_cons in Hk as [Hhigh Hk].
  apply not_elem_of_cons in Hk as [Hlog _].
  unfold Main.run_monitors.
  pose proof (usb_lacks k (Main.dmesg env) (Main.last_seen_lines st) Husb) as L1.
  destruct (USBMonitor.check _ _) as [r1 seen'].
  pose proof (power_lacks k float_of_str (Main.get_throttled env)
                (Main.measure_volts env) (Main.measure_temp env) Hthr Hvolt Htemp) as L2.
  destruct (PowerMonitor.check _ _ _ _ _) as [r2 u2].
  pose proof (system_lacks k round_ndigits int_truediv (Main.self_psutil env)
                (Main.getloadavg env) Hsys) as L3.
  destruct (SystemMonitor.check _ _ _ _ _) as [r3 u3].
  pose proof (latency_lacks k (Main.cyclictest env) Hmax Hhigh) as L4.
  destruct (LatencyMonitor.check _ _) as [r4 u4].
  pose proof (log_lacks k (Main.klippy_log env) (Main.file_pos st) Hlog) as L5.
  destruct (LogMonitor.check _ _) as [r5 pos'].
  cbn [fst snd] in *.
  repeat apply merge_lacks; try done.
Qed.

(** The primary file after a cycle. *)
Lemma cycle_primary_file env st :
  CSVLogger.file (Main.out (Main.cycle float_of_str round_ndigits int_truediv float_repr env st)) =
    match CSVLogger.writerow_raises (Main.primary_faults env) with
    | None =>
        (CSVLogger.file (Main.out st)
           ++ [CSVLogger.dict_to_list float_repr CSV_HEADERS
                 (logged_row (wall (Main.at_log env))
                    (Main.current_data float_of_str round_ndigits int_truediv env st))])%list
    | Some _ => CSVLogger.file (Main.out st)
    end.
Proof.
  unfold Main.cycle, Main.current_data.
  destruct (Main.run_monitors _ _ _ env st) as [[[d c] s] p]. cbn [fst snd Main.out].
  match goal with
  | |- context [CSVLogger.log ?r ?n ?pf ?bf ?dt ?w] =>
      destruct (log_primary_file r n pf bf dt w) as [_ ->]
  end.
  reflexivity.
Qed.

(** C5 (amended): when the writer takes the row of a cycle, its
    [timestamp] cell is the ISO text of the clock reading [log] takes, the
    one after the probes have run, and its [check_duration_ms] cell is the
    rounded span between the two readings around the probes; when the
    writer raises no row is written. *)
Theorem C5_timestamp_at_log (env : Main.cycle_env) (st : Main.state) :
  let st' := Main.cycle float_of_str round_ndigits int_truediv float_repr env st in
  let duration :=
    PrimFloat.mul (PrimFloat.sub (unix (Main.at_probed env)) (unix (Main.at_start env)))
                  1000%float in
  match CSVLogger.writerow_raises (Main.primary_faults env) with
  | None =>
      exists cells,
        CSVLogger.file (Main.out st') = (CSVLogger.file (Main.out st) ++ [cells])%list /\
        length cells = length CSV_HEADERS /\
        cells !! 0%nat = Some (isoformat (wall (Main.at_log env))) /\
        cells !! 1%nat = Some (float_repr (round_ndigits duration 2))
  | Some _ => CSVLogger.file (Main.out st') = CSVLogger.file (Main.out st)
  end.
Proof.
  intros st' duration. subst st'. rewrite cycle_primary_file.
  destruct (CSVLogger.writerow_raises _); [done |].
  eexists. split; [reflexivity |]. split; [apply dict_to_list_length |]. split.
  - rewrite (dict_to_list_lookup _ CSV_HEADERS _ 0%nat "timestamp" eq_refl), logged_row_lookup.
    unfold Main.current_data. rewrite lookup_insert_ne by done.
    rewrite run_monitors_keys by (unfold probe_keys; key_notin).
    done.
  - rewrite (dict_to_list_lookup _ CSV_HEADERS _ 1%nat "check_duration_ms" eq_refl), logged_row_lookup.
    unfold Main.current_data. by rewrite lookup_insert_eq.
Qed.

End Cycle.

(** C5 (as stated) fails: in a cycle that starts at noon and reaches [log]
    a second later, the row carries the later time. *)
Lemma C5_counterexample :
  let env := quiet_cycle (Instant 0%float noon) (Instant 1.25%float noon)
                         (Instant 1.25%float one_past_noon) in
  ~ (forall cells,
       last (CSVLogger.file
               (Main.out (Main.cycle float_stub round_stub truediv_stub repr_stub
                            env start_state))) = Some cells ->
       cells !! 0%nat = Some (isoformat (wall (Main.at_start env)))).
Proof.
  cbv zeta. intros H. specialize (H _ eq_refl). vm_compute in H. discriminate H.
Qed.

Lemma C5_timestamp_at_log_witness :
  let env := quiet_cycle (Instant 0%float noon) (Instant 1.25%float noon)
                         (Instant 1.25%float one_past_noon) in
  exists cells,
    CSVLogger.file
      (Main.out (Main.cycle float_stub round_stub truediv_stub repr_stub env start_state))
      = [CSV_HEADERS; cells] /\
    length cells = 23%nat /\
    cells !! 0%nat = Some "2024-05-17T12:00:01.250000" /\
    cells !! 1%nat = Some "1250.0".
Proof.
  exact (C5_timestamp_at_log float_stub round_stub truediv_stub repr_stub
           (quiet_cycle (Instant 0%float noon) (Instant 1.25%float noon)
                        (Instant 1.25%float one_past_noon)) start_state).
Defined.

(** The characters that cycle adds to the primary file. *)
Example quiet_cycle_row_text :
  let env := quiet_cycle (Instant 0%float noon) (Instant 1.25%float noon)
                         (Instant 1.25%float one_past_noon) in
  CSVLogger.csv_line <$>
    last (CSVLogger.file
            (Main.out (Main.cycle float_stub round_stub truediv_stub repr_stub
                         env start_state)))
  = Some ("2024-05-17T12:00:01.250000,1250.0,,,,,,,,,,,,,,,0.5,0.25,,,,,"
          ++ String cr (String nl EmptyString))%string.
Proof. reflexivity. Qed.

(** A field with a comma or a quote in it is quoted, and its quotes are
    doubled. *)
Example csv_line_quoting :
  CSVLogger.csv_line ["a,b"; "c"; String CSVLogger.quote "d"]
  = (String CSVLogger.quote "a,b" ++ String CSVLogger.quote ",c,"
     ++ String CSVLogger.quote (String CSVLogger.quote (String CSVLogger.quote "d"))
     ++ String CSVLogger.quote (String cr (String nl EmptyString)))%string.
Proof. reflexivity. Qed.

(** ** Bus-error probe: the retained window and the lines reported *)

Lemma deque_append_spec d x :
  (length d <= USBMonitor.maxlen)%nat ->
  USBMonitor.deque_append d x
    = drop (length (d ++ [x])%list - USBMonitor.maxlen) (d ++ [x])%list.
Proof.
  intros Hd. unfold USBMonitor.deque_append. cbv zeta.
  rewrite length_app. cbn [length].
  destruct (Nat.ltb_spec USBMonitor.maxlen (length d + 1)) as [Hlt|Hge].
  - replace (length d + 1 - USBMonitor.maxlen)%nat with 1%nat by lia.
    by destruct (d ++ [x])%list.
  - by replace (length d + 1 - USBMonitor.maxlen)%nat with 0%nat by lia.
Qed.

(** [extend] on a bounded deque keeps the last [maxlen] items. *)
Lemma deque_extend_spec xs : forall d,
  (length d <= USBMonitor.maxlen)%nat ->
  USBMonitor.deque_extend d xs
    = drop (length (d ++ xs)%list - USBMonitor.maxlen) (d ++ xs)%list.
Proof.
  unfold USBMonitor.deque_extend.
  induction xs as [|x xs IH]; intros d Hd; cbn [fold_left].
  - rewrite app_nil_r. by replace (length d - USBMonitor.maxlen)%nat with 0%nat by lia.
  - rewrite (deque_append_spec d x Hd).
    set (k := (length (d ++ [x])%list - USBMonitor.maxlen)%nat).
    assert (Hk : (k <= length (d ++ [x])%list)%nat) by (subst k; lia).
    rewrite IH by (rewrite length_drop; subst k; lia).
    rewrite <- drop_app_le by exact Hk.
    rewrite <- (assoc_L (++)). cbn [app].
    rewrite drop_drop. f_equal.
    clear Hk IH. subst k. rewrite length_drop, !length_app. cbn [length]. lia.
Qed.

Lemma window_after_cycle lines :
  USBMonitor.deque_extend [] lines = drop (length lines - USBMonitor.maxlen) lines.
Proof. apply (deque_extend_spec lines []). cbn. lia. Qed.

Lemma is_empty_true s : PyStr.is_empty s = true <-> s = EmptyString.
Proof. by destruct s. Qed.

Lemma new_events_app seen l1 l2 :
  USBMonitor.new_events seen (l1 ++ l2)%list
    = (USBMonitor.new_events seen l1 ++ USBMonitor.new_events seen l2)%list.
Proof.
  induction l1 as [|x l1 IH]; [done |]. cbn [app USBMonitor.new_events].
  destruct (PyStr.is_empty _); [done |].
  destruct (bool_decide _); [done |].
  destruct (USBMonitor.matches_any _); [| done].
  by rewrite IH.
Qed.

(** Lines that are in the window as they stand are not reported again. *)
Lemma new_events_seen seen lines :
  Forall (fun x => PyStr.strip x = x) lines ->
  lines ⊆ seen ->
  USBMonitor.new_events seen lines = [].
Proof.
  induction lines as [|x lines IH]; intros Hstrip Hsub; [done |].
  inversion Hstrip as [|? ? Hx Hrest]; subst.
  cbn [USBMonitor.new_events]. rewrite Hx.
  destruct (PyStr.is_empty x); [apply IH; set_solver |].
  rewrite bool_decide_eq_true_2 by set_solver.
  apply IH; [done | set_solver].
Qed.

Lemma new_events_fresh seen l :
  PyStr.strip l <> EmptyString -> PyStr.strip l ∉ seen ->
  USBMonitor.matches_any (PyStr.strip l) = true ->
  USBMonitor.new_events seen [l] = [PyStr.strip l].
Proof.
  intros Hne Hnew Hmatch. cbn [USBMonitor.new_events].
  destruct (PyStr.is_empty (PyStr.strip l)) eqn:E.
  { by apply is_empty_true in E. }
  by rewrite bool_decide_eq_false_2, Hmatch.
Qed.

(** A check whose [dmesg] call returns. *)
Lemma usb_check_completed code out seen :
  USBMonitor.check (Returned (Completed code out)) seen =
    (Returned (match USBMonitor.new_events seen (kernel_lines out) with
               | [] => None
               | events => Some {[ "usb_events" := VStr (PyStr.join "; " events) ]}
               end),
     USBMonitor.deque_extend [] (kernel_lines out)).
Proof.
  unfold USBMonitor.check, try_except, USBMonitor.body, py_bind, lift, get, put, py_ret.
  cbn [stdout]. by destruct (USBMonitor.new_events _ _).
Qed.

(** C6: the code falls short of the claim in two ways.
    The call that fetches the kernel log hands a list of arguments to the
    shell, so the command the shell runs is [dmesg] alone, without the
    [tail -n 20] spelled out after it, and the output is not held to
    twenty lines, while the window is.  With a disconnect line followed by
    twenty other lines in the first cycle, and the same lines plus one new
    disconnect line in the second, the window after the first cycle is not
    the cycle's twenty-one lines but the last twenty, and the second check
    reports the old disconnect line again next to the new one.
    And a line is compared in its stripped form with a window of lines
    that are not stripped: a disconnect line followed by a blank before its
    line feed, present in both cycles, is reported by both. *)
Theorem C6_old_line_reported_again :
  let old_line := "usb 1-1.2: USB disconnect, device number 4" in
  let c1 := USBMonitor.check (Returned (Completed 0 (dmesg_text dmesg_old))) [] in
  let c2 := USBMonitor.check
              (Returned (Completed 0 (dmesg_text (dmesg_old ++ [dmesg_new_line])%list)))
              c1.2 in
  let padded := (old_line ++ " " ++ String nl "eth0: link is up")%string in
  let p1 := USBMonitor.check (Returned (Completed 0 padded)) [] in
  let p2 := USBMonitor.check (Returned (Completed 0 padded)) p1.2 in
  shell_command USBMonitor.dmesg_args = Some "dmesg" /\
  kernel_lines (dmesg_text dmesg_old) = dmesg_old /\
  length dmesg_old = 21%nat /\
  c1.2 = repeat "eth0: link is up" 20 /\
  c2.1 = Returned (Some {[ "usb_events" :=
                             VStr (old_line ++ "; " ++ dmesg_new_line) ]}) /\
  p1.2 = [(old_line ++ " ")%string; "eth0: link is up"] /\
  p2.1 = Returned (Some {[ "usb_events" := VStr old_line ]}).
Proof. cbv zeta. repeat split; reflexivity. Qed.

(** X22: within the window the probe reports what is new and nothing
    else.  Take two consecutive cycles whose [dmesg] calls return, the
    first with at most twenty lines, each free of leading and trailing
    blanks, the second with the same lines and one more line, which is not
    blank, is not among the old ones once stripped, and matches a watched
    pattern.  Then the second check reports exactly that line, stripped.
    After every cycle whose [dmesg] call returns, the window holds the last
    twenty lines of that cycle's line list (all of them when there are at
    most twenty). *)
Theorem X22_new_line_within_window (seen0 : list string) (codeA codeB : Z)
    (outA outB : string) (A1 A2 : list string) (l : string) :
  kernel_lines outA = (A1 ++ A2)%list ->
  kernel_lines outB = (A1 ++ l :: A2)%list ->
  (length (A1 ++ A2)%list <= 20)%nat ->
  Forall (fun x => PyStr.strip x = x) (A1 ++ A2)%list ->
  PyStr.strip l <> EmptyString ->
  PyStr.strip l ∉ (A1 ++ A2)%list ->
  USBMonitor.matches_any (PyStr.strip l) = true ->
  let c1 := USBMonitor.check (Returned (Completed codeA outA)) seen0 in
  let c2 := USBMonitor.check (Returned (Completed codeB outB)) c1.2 in
  c1.2 = (A1 ++ A2)%list /\
  c2.1 = Returned (Some {[ "usb_events" := VStr (PyStr.strip l) ]}) /\
  (forall seen code out,
     (USBMonitor.check (Returned (Completed code out)) seen).2
       = drop (length (kernel_lines out) - 20) (kernel_lines out)).
Proof.
  intros HA HB Hlen Hstrip Hne Hnew Hmatch c1 c2.
  assert (Hwin : forall seen code out,
            (USBMonitor.check (Returned (Completed code out)) seen).2
              = drop (length (kernel_lines out) - 20) (kernel_lines out)).
  { intros seen code out. rewrite usb_check_completed. cbn [snd].
    apply window_after_cycle. }
  assert (H1 : c1.2 = (A1 ++ A2)%list).
  { subst c1. rewrite Hwin, HA.
    by replace (length (A1 ++ A2)%list - 20)%nat with 0%nat by lia. }
  split; [exact H1 |]. split; [| exact Hwin].
  subst c2. rewrite H1, usb_check_completed, HB. cbn [fst].
  apply Forall_app in Hstrip as [Hs1 Hs2].
  change (A1 ++ l :: A2)%list with (A1 ++ [l] ++ A2)%list.
  rewrite !new_events_app.
  rewrite (new_events_seen _ A1 Hs1) by set_solver.
  rewrite (new_events_seen _ A2 Hs2) by set_solver.
  rewrite (new_events_fresh _ l Hne Hnew Hmatch).
  reflexivity.
Qed.

Lemma X22_new_line_within_window_witness :
  let outA := dmesg_text ["eth0: link is up"; "usb 1-1.2: USB disconnect, device number 4"] in
  let outB := dmesg_text ["eth0: link is up"; "usb 1-1.2: USB disconnect, device number 4";
                          dmesg_new_line] in
  let c1 := USBMonitor.check (Returned (Completed 0 outA)) [] in
  let c2 := USBMonitor.check (Returned (Completed 0 outB)) c1.2 in
  c1.2 = ["eth0: link is up"; "usb 1-1.2: USB disconnect, device number 4"] /\
  c2.1 = Returned (Some {[ "usb_events" := VStr dmesg_new_line ]}).
Proof.
  cbv zeta.
  destruct (X22_new_line_within_window [] 0 0
              (dmesg_text ["eth0: link is up"; "usb 1-1.2: USB disconnect, device number 4"])
              (dmesg_text ["eth0: link is up"; "usb 1-1.2: USB disconnect, device number 4";
                           dmesg_new_line])
              ["eth0: link is up"; "usb 1-1.2: USB disconnect, device number 4"] []
              dmesg_new_line)
    as (H1 & H2 & _).
  - reflexivity.
  - reflexivity.
  - cbn. lia.
  - repeat constructor.
  - discriminate.
  - vm_compute. intros H. repeat (apply elem_of_cons in H as [H|H]; [discriminate H |]).
    by apply elem_of_nil in H.
  - reflexivity.
  - split; [exact H1 | exact H2].
Defined.

(** ** Firmware-log-tail probe: the offset *)

Lemma nonempty_empty : LogMonitor.nonempty ∅ = None.
Proof. reflexivity. Qed.

Lemma nonempty_insert k v (d : record) :
  LogMonitor.nonempty (<[k := v]> d) = Some (<[k := v]> d).
Proof.
  unfold LogMonitor.nonempty. rewrite bool_decide_eq_false_2; [done |].
  apply insert_non_empty.
Qed.

(** [check] on a file that exists and whose size can be read: the offset
    falls back to zero when the file is shorter than it, and the bytes from
    the offset on are read and scanned when the file is longer. *)
Lemma log_check_eval f pos size :
  LogMonitor.log_exists f = true ->
  LogMonitor.log_getsize f = Returned size ->
  LogMonitor.check f pos =
    let pos1 := if (size <? pos)%nat then 0%nat else pos in
    if (pos1 <? size)%nat then
      match LogMonitor.log_bytes f with
      | Returned content =>
          (Returned (LogMonitor.report (drop pos1 content)),
           Nat.max pos1 (length content))
      | Raised _ => (Returned None, pos1)
      end
    else (Returned None, pos1).
Proof.
  intros Hex Hsize. unfold LogMonitor.check. rewrite Hex. cbn [negb].
  unfold try_except, LogMonitor.body, py_bind, lift, get. rewrite Hsize.
  cbv zeta.
  set (pos1 := if (size <? pos)%nat then 0%nat else pos).
  assert (Hreset :
    when (size <? LogMonitor.file_pos (LogMonitor.Locals pos ∅))%nat
         (LogMonitor.set_file_pos 0) (LogMonitor.Locals pos ∅)
    = (Returned tt, LogMonitor.Locals pos1 ∅)).
  { subst pos1. cbn [LogMonitor.file_pos]. by destruct (size <? pos)%nat. }
  rewrite Hreset. cbn [LogMonitor.file_pos].
  destruct (pos1 <? size)%nat; cbn [when]; [| done].
  destruct (LogMonitor.log_bytes f) as [content|e]; [| done].
  unfold LogMonitor.set_file_pos, LogMonitor.set_data, modify, py_ret, LogMonitor.report.
  cbn [LogMonitor.file_pos LogMonitor.data fst snd].
  destruct (LogMonitor.scan _) as [|e es]; [done |].
  rewrite bool_decide_eq_false_2 by done. cbn [negb when fst snd LogMonitor.data LogMonitor.file_pos].
  by rewrite nonempty_insert, insert_empty.
Qed.

(** C7: when the file exists and its size is below the retained offset,
    the check goes on exactly as a check whose offset is zero: a file that
    is not empty is read and scanned from its first byte, and the offset
    ends at zero when nothing is read.  When the file is absent the check
    yields nothing and leaves the offset alone. *)
Theorem C7_rotation_and_absence :
  (forall f pos size,
     LogMonitor.log_exists f = true ->
     LogMonitor.log_getsize f = Returned size ->
     (size < pos)%nat ->
     LogMonitor.check f pos = LogMonitor.check f 0%nat /\
     match LogMonitor.log_bytes f with
     | Returned content =>
         LogMonitor.check f pos =
           if (0 <? size)%nat
           then (Returned (LogMonitor.report content), length content)
           else (Returned None, 0%nat)
     | Raised _ => LogMonitor.check f pos = (Returned None, 0%nat)
     end) /\
  (forall f pos,
     LogMonitor.log_exists f = false ->
     LogMonitor.check f pos = (Returned None, pos)).
Proof.
  split.
  - intros f pos size Hex Hsize Hlt.
    rewrite !(log_check_eval f _ size Hex Hsize). cbv zeta.
    destruct (Nat.ltb_spec size pos) as [_|Hge]; [| lia].
    replace (size <? 0)%nat with false by (symmetry; apply Nat.ltb_ge; lia).
    split; [reflexivity |].
    destruct (LogMonitor.log_bytes f) as [content|e].
    + by destruct (0 <? size)%nat.
    + by destruct (0 <? size)%nat.
  - intros f pos Hex. unfold LogMonitor.check. by rewrite Hex.
Qed.

Lemma C7_rotation_and_absence_witness :
  LogMonitor.check (LogMonitor.present klippy_rotated) 45%nat
    = (Returned (Some {[ "log_errors" := VStr "timer_close: Timer too close" ]}), 16%nat) /\
  LogMonitor.check LogMonitor.absent 45%nat = (Returned None, 45%nat).
Proof.
  destruct C7_rotation_and_absence as [Hrot Habs]. split.
  - destruct (Hrot (LogMonitor.present klippy_rotated) 45%nat 16%nat eq_refl eq_refl
                ltac:(lia)) as [_ H].
    exact H.
  - exact (Habs LogMonitor.absent 45%nat eq_refl).
Defined.

(** One check of a readable file that only grew. *)
Lemma log_check_appended prev c :
  prev `prefix_of` c ->
  LogMonitor.check (LogMonitor.present c) (length prev)
    = (Returned (LogMonitor.report (drop (length prev) c)), length c).
Proof.
  intros Hpre. pose proof (prefix_length _ _ Hpre) as Hlen.
  rewrite (log_check_eval (LogMonitor.present c) _ (length c) eq_refl eq_refl).
  cbv zeta.
  replace (length c <? length prev)%nat with false
    by (symmetry; apply Nat.ltb_ge; lia).
  cbn [LogMonitor.present LogMonitor.log_bytes].
  destruct (Nat.ltb_spec (length prev) (length c)) as [Hlt|Hge].
  - f_equal. lia.
  - assert (length prev = length c) as E by lia.
    rewrite E, drop_all. reflexivity.
Qed.

Lemma last_cons_default {A} (rest : list A) : forall c d,
  List.last (c :: rest) d = List.last rest c.
Proof.
  induction rest as [|r rest IH]; intros c d; [done |].
  change (List.last (c :: r :: rest) d) with (List.last (r :: rest) d).
  by rewrite !IH.
Qed.

(** C9: when the file exists, its size [size] is above the retained offset
    and it can be read, the check scans the bytes from the offset on and
    moves the offset to their end, whether or not any line matched.  Hence
    over a run of cycles on a file that is only appended to, the check of
    each cycle scans exactly what was appended since the cycle before, and
    these pieces, put end to end after the initial content, are the final
    content: no byte is scanned twice. *)
Theorem C9_offset_advances :
  (forall f pos size content,
     LogMonitor.log_exists f = true ->
     LogMonitor.log_getsize f = Returned size ->
     LogMonitor.log_bytes f = Returned content ->
     (pos < size)%nat ->
     LogMonitor.check f pos
       = (Returned (LogMonitor.report (drop pos content)),
          Nat.max pos (length content))) /\
  (forall snapshots initial,
     append_only initial snapshots ->
     run_checks (map LogMonitor.present snapshots) (length initial)
       = (map (fun piece => Returned (LogMonitor.report piece))
              (appended initial snapshots),
          length (List.last snapshots initial)) /\
     (initial ++ concat (appended initial snapshots))%list
       = List.last snapshots initial).
Proof.
  split.
  - intros f pos size content Hex Hsize Hbytes Hlt.
    rewrite (log_check_eval f pos size Hex Hsize). cbv zeta.
    replace (size <? pos)%nat with false by (symmetry; apply Nat.ltb_ge; lia).
    replace (pos <? size)%nat with true by (symmetry; apply Nat.ltb_lt; lia).
    by rewrite Hbytes.
  - intros snapshots. induction snapshots as [|c rest IH]; intros initial Happ.
    + cbn. by rewrite app_nil_r.
    + destruct Happ as [Hpre Hrest]. destruct (IH c Hrest) as [IHrun IHcat].
      split.
      * cbn [map run_checks appended]. rewrite (log_check_appended _ _ Hpre), IHrun.
        by rewrite last_cons_default.
      * cbn [appended concat]. rewrite (assoc_L (++)).
        destruct Hpre as [extra ->]. rewrite drop_app_length.
        by rewrite IHcat, last_cons_default.
Qed.

Lemma C9_offset_advances_witness :
  LogMonitor.check (LogMonitor.present klippy_grown) (length klippy_before)
    = (Returned None, length klippy_grown) /\
  run_checks [LogMonitor.present klippy_before; LogMonitor.present klippy_grown] 0%nat
    = ([Returned None; Returned None], length klippy_grown).
Proof.
  destruct C9_offset_advances as [Hone Hrun]. split.
  - exact (Hone (LogMonitor.present klippy_grown) (length klippy_before)
                (length klippy_grown) klippy_grown eq_refl eq_refl eq_refl
                ltac:(vm_compute; lia)).
  - assert (Happ : append_only [] [klippy_before; klippy_grown]).
    { cbn. split; [by exists klippy_before |]. split; [| done].
      by eexists. }
    destruct (Hrun [klippy_before; klippy_grown] [] Happ) as [H _].
    exact H.
Defined.

(** ** Scheduling-latency probe and the flag fields *)

Lemma power_data_flags f gt mv mt : flags_true (power_data f gt mv mt).
Proof.
  unfold power_data. apply preserves_try; [| apply flags_true_empty].
  unfold PowerMonitor.body, PowerMonitor.check_throttled,
         PowerMonitor.check_voltage, PowerMonitor.check_temp.
  flags_true_tac.
Qed.

Lemma system_data_flags r t psutil load data :
  (SystemMonitor.check r t psutil load tt).1 = Returned (Some data) ->
  flags_true data.
Proof.
  unfold SystemMonitor.check.
  assert (Hp : preserves flags_true (SystemMonitor.body r t psutil load)).
  { unfold SystemMonitor.body. destruct psutil as [ps|]; flags_true_tac. }
  specialize (Hp ∅ flags_true_empty).
  destruct (SystemMonitor.body r t psutil load ∅) as [[u|e] d]; cbn [fst snd] in *.
  - by intros [= <-].
  - discriminate.
Qed.

(** C10: a result of the scheduling-latency probe comes from a run that
    exited with 0 and printed a [Max:] figure; it holds that figure as
    [max_latency_us] and the boolean [max_latency_us > 3000] as
    [latency_high], which is therefore present and [False] at or below the
    threshold.  The flags of the power/thermal and resource-usage probes
    are never [False]: they are [True] or absent. *)
Theorem C10_latency_fields :
  (forall cyclictest r,
     (LatencyMonitor.check cyclictest tt).1 = Returned (Some r) ->
     exists res group1 max_lat,
       cyclictest = Returned res /\ returncode res = 0 /\
       LatencyMonitor.search_max (stdout res) = Some group1 /\
       max_lat = PyStr.int_of_digits 0 group1 /\
       r !! "max_latency_us" = Some (VInt max_lat) /\
       r !! "latency_high" = Some (VBool (3000 <? max_lat)) /\
       (max_lat <= 3000 -> r !! "latency_high" = Some (VBool false))) /\
  (forall f gt mv mt, flags_true (power_data f gt mv mt)) /\
  (forall r t psutil load data,
     (SystemMonitor.check r t psutil load tt).1 = Returned (Some data) ->
     flags_true data).
Proof.
  split; [| split; [apply power_data_flags | apply system_data_flags]].
  intros cyclictest r.
  unfold LatencyMonitor.check, try_except, LatencyMonitor.body, py_bind, lift, py_ret.
  destruct cyclictest as [res|e]; [| discriminate].
  destruct (returncode res =? 0) eqn:Hcode; [| discriminate].
  destruct (LatencyMonitor.search_max (stdout res)) as [group1|] eqn:Hmax;
    [| discriminate].
  unfold LatencyMonitor.py_int.
  destruct (LatencyMonitor.MAX_STR_DIGITS <? Z.of_nat (String.length group1));
    [discriminate |].
  cbn [fst]. intros [= <-].
  exists res, group1, (PyStr.int_of_digits 0 group1).
  apply Z.eqb_eq in Hcode.
  repeat split; try done; try (by simplify_map_eq).
  intros Hle. rewrite lookup_insert_eq. do 2 f_equal.
  apply Z.ltb_ge. exact Hle.
Qed.

Lemma C10_latency_fields_witness :
  exists r,
    (LatencyMonitor.check cyclictest_quiet tt).1 = Returned (Some r) /\
    r !! "max_latency_us" = Some (VInt 57) /\
    r !! "latency_high" = Some (VBool false).
Proof.
  destruct C10_latency_fields as [H _].
  assert (E : (LatencyMonitor.check cyclictest_quiet tt).1 =
              Returned (Some (<[ "latency_high" := VBool false ]>
                                {[ "max_latency_us" := VInt 57 ]})))
    by (vm_compute; reflexivity).
  destruct (H cyclictest_quiet _ E)
    as (res & g & m & Hres & _ & Hg & Hm & Hmax & Hhigh & _).
  eexists. split; [exact E |].
  injection Hres as <-. vm_compute in Hg. injection Hg as <-.
  vm_compute in Hm. subst m. split; [exact Hmax | exact Hhigh].
Defined.

(** * Further properties of the probes and the recorder *)

(** ** Python string primitives *)

Lemma string_app_cons c (a b : string) :
  (String c a ++ b)%string = String c (a ++ b)%string.
Proof. reflexivity. Qed.

Lemma string_app_nil_r (s : string) : (s ++ EmptyString)%string = s.
Proof. induction s as [|c s IH]; [done |]. by rewrite string_app_cons, IH. Qed.

Lemma string_app_assoc (a b c : string) :
  ((a ++ b) ++ c)%string = (a ++ (b ++ c))%string.
Proof. induction a as [|x a IH]; [done |]. by rewrite !string_app_cons, IH. Qed.

Lemma string_app_nil_inv (a b : string) :
  (a ++ b)%string = EmptyString -> a = EmptyString /\ b = EmptyString.
Proof. destruct a; [done | discriminate]. Qed.

Lemma rstrip_idemp s : PyStr.rstrip (PyStr.rstrip s) = PyStr.rstrip s.
Proof.
  induction s as [|c s IH]; [done |]. cbn [PyStr.rstrip].
  destruct (PyStr.is_space c && PyStr.is_empty (PyStr.rstrip s)) eqn:E; [done |].
  cbn [PyStr.rstrip]. by rewrite IH, E.
Qed.

(** A text that does not start with a blank still does not after
    [rstrip]. *)
Lemma lstrip_rstrip_fixed t :
  PyStr.lstrip t = t -> PyStr.lstrip (PyStr.rstrip t) = PyStr.rstrip t.
Proof.
  destruct t as [|c t]; [done |]. cbn [PyStr.lstrip PyStr.rstrip].
  destruct (PyStr.is_space c) eqn:Ec.
  - intros H. exfalso.
    assert (Hlen : forall s, (String.length (PyStr.lstrip s) <= String.length s)%nat).
    { induction s as [|x s IH]; [done |]. cbn [PyStr.lstrip].
      destruct (PyStr.is_space x); cbn [String.length]; lia. }
    specialize (Hlen t). rewrite H in Hlen. cbn [String.length] in Hlen. lia.
  - intros _. cbn [andb PyStr.lstrip]. by rewrite Ec.
Qed.

Lemma lstrip_idemp s : PyStr.lstrip (PyStr.lstrip s) = PyStr.lstrip s.
Proof.
  induction s as [|c s IH]; [done |]. cbn [PyStr.lstrip].
  destruct (PyStr.is_space c) eqn:Ec; [done |]. cbn [PyStr.lstrip]. by rewrite Ec.
Qed.

(** [strip] leaves a stripped text alone. *)
Lemma strip_idemp s : PyStr.strip (PyStr.strip s) = PyStr.strip s.
Proof.
  unfold PyStr.strip.
  rewrite (lstrip_rstrip_fixed _ (lstrip_idemp s)). apply rstrip_idemp.
Qed.

Lemma split_nonempty sep s : PyStr.split sep s <> [].
Proof.
  destruct s as [|c s]; [done |]. cbn [PyStr.split].
  destruct (Ascii.eqb c sep); [done |].
  by destruct (PyStr.split sep s).
Qed.

Lemma concat_cons_nonempty sep x (l : list string) :
  l <> [] ->
  String.concat sep (x :: l) = (x ++ sep ++ String.concat sep l)%string.
Proof. by destruct l. Qed.

(** Joining the pieces of a split with the separator gives the text
    back. *)
Lemma join_split sep s :
  PyStr.join (String sep EmptyString) (PyStr.split sep s) = s.
Proof.
  unfold PyStr.join. induction s as [|c s IH]; [done |]. cbn [PyStr.split].
  destruct (Ascii.eqb_spec c sep) as [->|Hne].
  - rewrite concat_cons_nonempty by apply split_nonempty.
    change (String sep (String.concat (String sep EmptyString) (PyStr.split sep s))
            = String sep s).
    by rewrite IH.
  - pose proof (split_nonempty sep s) as Hs.
    destruct (PyStr.split sep s) as [|h t]; [done |].
    destruct t as [|h' t].
    + cbn [String.concat] in *. by rewrite IH.
    + rewrite concat_cons_nonempty by done.
      rewrite concat_cons_nonempty in IH by done.
      by rewrite string_app_cons, IH.
Qed.

(** No piece of a split holds the separator. *)
Lemma split_pieces sep s :
  Forall (fun piece => occurs sep piece = false) (PyStr.split sep s).
Proof.
  induction s as [|c s IH]; [by repeat constructor |]. cbn [PyStr.split].
  destruct (Ascii.eqb c sep) eqn:E; [by constructor |].
  destruct (PyStr.split sep s) as [|h t]; [by repeat constructor; cbn; rewrite E |].
  inversion IH as [|? ? Hh Ht]; subst.
  constructor; [| done]. cbn. by rewrite E, Hh.
Qed.

(** ** Bus-error probe: what is reported and what is retained *)

Lemma new_events_sound seen lines :
  Forall (fun e => e <> EmptyString /\ (e ∉ seen) /\
                   USBMonitor.matches_any e = true /\ PyStr.strip e = e /\
                   exists raw, raw ∈ lines /\ e = PyStr.strip raw)
         (USBMonitor.new_events seen lines).
Proof.
  induction lines as [|raw lines IH]; [constructor |].
  assert (IH' : Forall (fun e => e <> EmptyString /\ (e ∉ seen) /\
                   USBMonitor.matches_any e = true /\ PyStr.strip e = e /\
                   exists raw', raw' ∈ raw :: lines /\ e = PyStr.strip raw')
                  (USBMonitor.new_events seen lines)).
  { eapply Forall_impl; [exact IH |]. cbn beta.
    intros e (H1 & H2 & H3 & H4 & raw' & Hin & Heq).
    repeat split; try done. exists raw'. split; [by apply elem_of_cons; right | done]. }
  cbn [USBMonitor.new_events].
  destruct (PyStr.is_empty (PyStr.strip raw)) eqn:Eempty; [done |].
  case_bool_decide as Hseen; [done |].
  destruct (USBMonitor.matches_any (PyStr.strip raw)) eqn:Ematch; [| done].
  constructor; [| done].
  repeat split; try done.
  - intros Hnil. by rewrite Hnil in Eempty.
  - apply strip_idemp.
  - exists raw. split; [apply list_elem_of_here | done].
Qed.

(** X1: when the bus-error probe reports, the report is the [; ]-joined
    list of one or more lines, each of which is a stripped line of this
    cycle's output, is not blank, matches a watched pattern, and was not in
    the window retained from the cycle before. *)
Theorem X1_usb_report_sound (code : Z) (out : string) (seen : list string)
    (r : record) :
  (USBMonitor.check (Returned (Completed code out)) seen).1 = Returned (Some r) ->
  exists events,
    events <> [] /\
    r = {[ "usb_events" := VStr (PyStr.join "; " events) ]} /\
    Forall (fun e => e <> EmptyString /\ (e ∉ seen) /\
                     USBMonitor.matches_any e = true /\ PyStr.strip e = e /\
                     exists raw, raw ∈ kernel_lines out /\ e = PyStr.strip raw)
           events.
Proof.
  rewrite usb_check_completed. cbn [fst].
  pose proof (new_events_sound seen (kernel_lines out)) as Hs.
  destruct (USBMonitor.new_events seen (kernel_lines out)) as [|e es]; [discriminate |].
  intros [= <-]. by exists (e :: es).
Qed.

Lemma X1_usb_report_sound_witness :
  exists events,
    events <> [] /\
    ({[ "usb_events" := VStr dmesg_new_line ]} : record)
      = {[ "usb_events" := VStr (PyStr.join "; " events) ]} /\
    Forall (fun e => e <> EmptyString /\ (e ∉ ["eth0: link is up"]) /\
                     USBMonitor.matches_any e = true /\ PyStr.strip e = e /\
                     exists raw,
                       raw ∈ kernel_lines (dmesg_text ["eth0: link is up"; dmesg_new_line])
                       /\ e = PyStr.strip raw)
           events.
Proof.
  exact (X1_usb_report_sound 0 (dmesg_text ["eth0: link is up"; dmesg_new_line])
           ["eth0: link is up"] _ eq_refl).
Defined.

Lemma usb_check_keeps_bound dmesg seen :
  (length seen <= USBMonitor.maxlen)%nat ->
  (length (USBMonitor.check dmesg seen).2 <= USBMonitor.maxlen)%nat.
Proof.
  intros Hseen. destruct dmesg as [[code out]|e]; [| exact Hseen].
  rewrite usb_check_completed. cbn [snd].
  rewrite window_after_cycle, length_drop. lia.
Qed.

(** X2: over any run of cycles, whatever [dmesg] does in each, the window
    the bus-error probe retains never holds more than twenty lines. *)
Theorem X2_usb_window_bounded (outcomes : list run_result) :
  (length (usb_window_after outcomes []) <= 20)%nat.
Proof.
  unfold usb_window_after.
  assert (H : forall seen, (length seen <= USBMonitor.maxlen)%nat ->
            (length (fold_left (fun s dmesg => (USBMonitor.check dmesg s).2)
                               outcomes seen) <= USBMonitor.maxlen)%nat).
  { induction outcomes as [|d ds IH]; intros seen Hseen; [exact Hseen |].
    cbn [fold_left]. apply IH. by apply usb_check_keeps_bound. }
  apply H. cbn. lia.
Qed.

(** X3: when [dmesg] prints the same text in two consecutive cycles, with
    at most twenty lines and no line carrying leading or trailing blanks,
    the second cycle reports nothing. *)
Theorem X3_usb_repeat_is_silent (code1 code2 : Z) (out : string)
    (seen : list string) :
  (length (kernel_lines out) <= 20)%nat ->
  Forall (fun x => PyStr.strip x = x) (kernel_lines out) ->
  let c1 := USBMonitor.check (Returned (Completed code1 out)) seen in
  (USBMonitor.check (Returned (Completed code2 out)) c1.2).1 = Returned None.
Proof.
  intros Hlen Hstrip c1. subst c1. rewrite !usb_check_completed. cbn [fst snd].
  rewrite window_after_cycle.
  replace (length (kernel_lines out) - USBMonitor.maxlen)%nat with 0%nat
    by (unfold USBMonitor.maxlen; lia).
  cbn [drop]. by rewrite (new_events_seen _ _ Hstrip).
Qed.

Lemma X3_usb_repeat_is_silent_witness :
  let out := dmesg_text ["eth0: link is up"; dmesg_new_line] in
  (USBMonitor.check (Returned (Completed 0 out))
     (USBMonitor.check (Returned (Completed 0 out)) []).2).1 = Returned None.
Proof.
  apply (X3_usb_repeat_is_silent 0 0 (dmesg_text ["eth0: link is up"; dmesg_new_line]) []).
  - vm_compute. lia.
  - repeat constructor.
Defined.

(** X4: the lines the bus-error probe works on are never an empty list,
    none of them holds a line feed, and joined by line feeds they are the
    stripped output of [dmesg]. *)
Theorem X4_kernel_lines_roundtrip (out : string) :
  kernel_lines out <> [] /\
  Forall (fun line => occurs nl line = false) (kernel_lines out) /\
  PyStr.join (String nl EmptyString) (kernel_lines out) = PyStr.strip out.
Proof.
  unfold kernel_lines. split; [apply split_nonempty |].
  split; [apply split_pieces | apply join_split].
Qed.

(** ** Pattern matching: the matcher against the language of a pattern *)

Lemma nullable_spec r : Re.nullable r = true <-> lang r EmptyString.
Proof.
  split.
  - induction r as [| |p|a IHa b IHb|a IHa b IHb|a IHa]; cbn [Re.nullable];
      intros H; try discriminate.
    + constructor.
    + apply andb_true_iff in H as [Ha Hb].
      change EmptyString with (EmptyString ++ EmptyString)%string.
      constructor; auto.
    + apply orb_true_iff in H as [Ha|Hb]; [apply lang_alt_l | apply lang_alt_r]; auto.
    + constructor.
  - intros H. remember EmptyString as s eqn:Es.
    induction H as [|p c Hp|a b s1 s2 Ha IHa Hb IHb|a b s Ha IHa|a b s Hb IHb
                   |a|a s1 s2 Ha IHa Hs IHs]; cbn [Re.nullable]; try done.
    + apply string_app_nil_inv in Es as [-> ->]. by rewrite IHa, IHb.
    + by rewrite IHa.
    + rewrite IHb by done. apply orb_true_r.
Qed.

Lemma deriv_sound c r : forall s, lang (Re.deriv c r) s -> lang r (String c s).
Proof.
  induction r as [| |p|a IHa b IHb|a IHa b IHb|a IHa]; cbn [Re.deriv]; intros s H.
  - inversion H.
  - inversion H.
  - destruct (p c) eqn:Hp; inversion H; subst. by constructor.
  - destruct (Re.nullable a) eqn:Hn.
    + inversion H as [| | | ? ? ? Hl | ? ? ? Hr | |]; subst.
      * inversion Hl as [| |? ? s1 s2 H1 H2| | | |]; subst.
        rewrite <- string_app_cons. constructor; auto.
      * change (String c s) with (EmptyString ++ String c s)%string.
        constructor; [by apply nullable_spec | auto].
    + inversion H as [| |? ? s1 s2 H1 H2| | | |]; subst.
      rewrite <- string_app_cons. constructor; auto.
  - inversion H; subst; [apply lang_alt_l | apply lang_alt_r]; auto.
  - inversion H as [| |? ? s1 s2 H1 H2| | | |]; subst.
    rewrite <- string_app_cons. apply lang_star_app; auto.
Qed.

Lemma deriv_complete c r t :
  lang r t -> forall s, t = String c s -> lang (Re.deriv c r) s.
Proof.
  intros H.
  induction H as [|p x Hp|a b s1 s2 Ha IHa Hb IHb|a b t Ha IHa|a b t Hb IHb
                 |a|a s1 s2 Ha IHa Hs IHs]; intros s Et; cbn [Re.deriv].
  - discriminate.
  - injection Et as -> <-. rewrite Hp. constructor.
  - destruct s1 as [|x s1'].
    + change (s2 = String c s) in Et. subst s2.
      assert (Re.nullable a = true) as -> by by apply nullable_spec.
      apply lang_alt_r. by apply IHb.
    + rewrite string_app_cons in Et. injection Et as -> <-.
      assert (Hl : lang (Re.Seq (Re.deriv c a) b) (s1' ++ s2)%string)
        by (constructor; [by apply IHa | done]).
      destruct (Re.nullable a); [by apply lang_alt_l | done].
  - apply lang_alt_l. by apply IHa.
  - apply lang_alt_r. by apply IHb.
  - discriminate.
  - destruct s1 as [|x s1'].
    + change (s2 = String c s) in Et. by apply IHs.
    + rewrite string_app_cons in Et. injection Et as -> <-.
      constructor; [by apply IHa | done].
Qed.

Lemma deriv_spec c r s : lang (Re.deriv c r) s <-> lang r (String c s).
Proof. split; [apply deriv_sound | intros H; by eapply deriv_complete]. Qed.

(** [pattern.match]: some prefix of the text is in the language. *)
Lemma match_prefix_spec s : forall r,
  Re.match_prefix r s = true <->
  exists m rest, s = (m ++ rest)%string /\ lang r m.
Proof.
  induction s as [|c s IH]; intros r; cbn [Re.match_prefix].
  - rewrite orb_false_r, nullable_spec. split.
    + intros H. by exists EmptyString, EmptyString.
    + intros (m & rest & E & H). symmetry in E.
      apply string_app_nil_inv in E as [-> _]. done.
  - rewrite orb_true_iff, nullable_spec, IH. split.
    + intros [H | (m & rest & -> & H)].
      * by exists EmptyString, (String c s).
      * exists (String c m), rest. split; [done | by apply deriv_spec].
    + intros (m & rest & E & H). destruct m as [|x m]; [by left |].
      rewrite string_app_cons in E. injection E as <- ->.
      right. exists m, rest. split; [done | by apply deriv_spec].
Qed.

(** [pattern.search]: some piece of the text is in the language. *)
Lemma search_spec r s :
  Re.search r s = true <->
  exists m, substring_of m s /\ lang r m.
Proof.
  induction s as [|c s IH]; cbn [Re.search].
  - rewrite orb_false_r, match_prefix_spec. split.
    + intros (m & rest & E & H). exists m. split; [| done].
      by exists EmptyString, rest.
    + intros (m & (before & after & E) & H). symmetry in E.
      apply string_app_nil_inv in E as [-> E].
      apply string_app_nil_inv in E as [-> ->].
      by exists EmptyString, EmptyString.
  - rewrite orb_true_iff, match_prefix_spec, IH. split.
    + intros [(m & rest & E & H) | (m & (before & after & E) & H)].
      * exists m. split; [| done]. by exists EmptyString, rest.
      * exists m. split; [| done]. exists (String c before), after.
        by rewrite string_app_cons, E.
    + intros (m & (before & after & E) & H). destruct before as [|x before].
      * left. by exists m, after.
      * rewrite string_app_cons in E. injection E as <- ->.
        right. exists m. split; [| done]. by exists before, after.
Qed.

(** A literal matches itself only. *)
Lemma lang_lit p m : lang (Re.lit p) m <-> m = p.
Proof.
  revert m. induction p as [|c p IH]; intros m; cbn [Re.lit].
  - split; [by inversion 1 | intros ->; constructor].
  - split.
    + inversion 1 as [| |? ? s1 s2 H1 H2| | | |]; subst.
      inversion H1 as [|? x Hx| | | | |]; subst.
      apply Ascii.eqb_eq in Hx as <-. apply IH in H2 as ->. done.
    + intros ->. change (String c p) with (String c EmptyString ++ p)%string.
      constructor; [constructor; apply Ascii.eqb_refl | by apply IH].
Qed.

(** A literal under [re.IGNORECASE] matches the texts that are equal to it
    once both are lowered. *)
Lemma lang_lit_i p m : lang (Re.lit_i p) m <-> lower_str m = lower_str p.
Proof.
  revert m. induction p as [|c p IH]; intros m; cbn [Re.lit_i].
  - split; [by inversion 1 | by destruct m; [constructor | discriminate]].
  - split.
    + inversion 1 as [| |? ? s1 s2 H1 H2| | | |]; subst.
      inversion H1 as [|? x Hx| | | | |]; subst.
      apply Ascii.eqb_eq in Hx. apply IH in H2.
      change (String x EmptyString ++ s2)%string with (String x s2).
      cbn [lower_str]. by rewrite Hx, H2.
    + destruct m as [|x m]; [discriminate |]. cbn [lower_str].
      intros [= Hx Hm].
      change (String x m) with (String x EmptyString ++ m)%string.
      constructor; [constructor; by apply Ascii.eqb_eq | by apply IH].
Qed.

(** Searching for a literal is the substring test. *)
Lemma search_lit p s : Re.search (Re.lit p) s = true <-> substring_of p s.
Proof.
  rewrite search_spec. split.
  - intros (m & Hsub & ->%lang_lit). done.
  - intros H. exists p. split; [done | by apply lang_lit].
Qed.

(** ** The watched patterns, in terms of substrings *)

Lemma lang_seq_inv a b m :
  lang (Re.Seq a b) m <->
  exists s1 s2, m = (s1 ++ s2)%string /\ lang a s1 /\ lang b s2.
Proof.
  split.
  - inversion 1 as [| |? ? s1 s2 H1 H2| | | |]; subst. by exists s1, s2.
  - intros (s1 & s2 & -> & H1 & H2). by constructor.
Qed.

Lemma lang_star_cls p s : lang (Re.Star (Re.Cls p)) s <-> all_chars p s = true.
Proof.
  split.
  - intros H. remember (Re.Star (Re.Cls p)) as r eqn:Er.
    induction H as [|q c Hq|a b s1 s2 Ha IHa Hb IHb|a b t Ha IHa|a b t Hb IHb
                   |a|a s1 s2 Ha IHa Hs IHs]; try discriminate; [done |].
    injection Er as ->. inversion Ha as [|? c Hc| | | | |]; subst.
    change (String c EmptyString ++ s2)%string with (String c s2).
    cbn [all_chars]. rewrite Hc. by apply IHs.
  - induction s as [|c s IH]; [constructor |]. cbn [all_chars].
    intros [Hc Hs]%andb_true_iff.
    change (String c s) with (String c EmptyString ++ s)%string.
    apply lang_star_app; [by constructor | by apply IH].
Qed.

Lemma lang_plus_cls p s :
  lang (Re.plus (Re.Cls p)) s <-> s <> EmptyString /\ all_chars p s = true.
Proof.
  unfold Re.plus. rewrite lang_seq_inv. split.
  - intros (s1 & s2 & -> & H1 & H2%lang_star_cls).
    inversion H1 as [|? c Hc| | | | |]; subst.
    change (String c EmptyString ++ s2)%string with (String c s2).
    split; [done |]. cbn [all_chars]. by rewrite Hc.
  - intros [Hne Hall]. destruct s as [|c s]; [done |].
    cbn [all_chars] in Hall. apply andb_true_iff in Hall as [Hc Hs].
    exists (String c EmptyString), s. split; [done |].
    split; [by constructor | by apply lang_star_cls].
Qed.

(** The three patterns of the firmware-log probe. *)
Lemma search_timer_close line :
  Re.search (Re.lit "Timer too close") line = true
  <-> substring_of "Timer too close" line.
Proof. apply search_lit. Qed.

Lemma search_lost_comm line :
  Re.search (Re.lit "Timeout on serial communication") line = true
  <-> substring_of "Timeout on serial communication" line.
Proof. apply search_lit. Qed.

Lemma search_mcu_shutdown line :
  Re.search (Re.Seq (Re.lit "MCU '") (Re.Seq (Re.Star Re.dot) (Re.lit "' shutdown"))) line
    = true
  <-> exists name, all_chars not_nl name = true /\
                   substring_of ("MCU '" ++ name ++ "' shutdown") line.
Proof.
  rewrite search_spec. split.
  - intros (m & Hsub & H). apply lang_seq_inv in H as (s1 & s2 & -> & H1 & H2).
    apply lang_lit in H1 as ->.
    apply lang_seq_inv in H2 as (name & s3 & -> & Hname & H3).
    apply lang_lit in H3 as ->. apply lang_star_cls in Hname.
    by exists name.
  - intros (name & Hname & Hsub). eexists. split; [exact Hsub |].
    constructor; [by apply lang_lit |].
    constructor; [by apply lang_star_cls | by apply lang_lit].
Qed.

Lemma take_length n s : (String.length (PyStr.take n s) <= n)%nat.
Proof.
  revert s. induction n as [|n IH]; intros s; [by destruct s |].
  destruct s as [|c s]; cbn; [lia |]. specialize (IH s). lia.
Qed.

(** X5: what the firmware-log probe makes of one line.  The entries are,
    in this order, [timer_close] when the line contains [Timer too close],
    [mcu_shutdown] when it contains [MCU '<name>' shutdown] for some name
    without a line feed, and [lost_comm] when it contains
    [Timeout on serial communication]; each entry is the key, a colon and
    the first sixty characters of the stripped line.  The line is ASCII
    text. *)
Theorem X5_log_line_errors (line : string) :
  all_chars is_ascii line = true ->
  let excerpt := PyStr.take 60 (PyStr.strip line) in
  exists b1 b2 b3 : bool,
    LogMonitor.line_errors line =
      ((if b1 then ["timer_close: " ++ excerpt]%string else []) ++
       (if b2 then ["mcu_shutdown: " ++ excerpt]%string else []) ++
       (if b3 then ["lost_comm: " ++ excerpt]%string else []))%list /\
    (String.length excerpt <= 60)%nat /\
    (b1 = true <-> substring_of "Timer too close" line) /\
    (b2 = true <->
       exists name, all_chars not_nl name = true /\
                    substring_of ("MCU '" ++ name ++ "' shutdown") line) /\
    (b3 = true <-> substring_of "Timeout on serial communication" line).
Proof.
  intros _ excerpt.
  exists (Re.search (Re.lit "Timer too close") line),
         (Re.search (Re.Seq (Re.lit "MCU '")
                            (Re.Seq (Re.Star Re.dot) (Re.lit "' shutdown"))) line),
         (Re.search (Re.lit "Timeout on serial communication") line).
  split; [| split; [apply take_length |
            split; [apply search_timer_close |
            split; [apply search_mcu_shutdown | apply search_lost_comm]]]].
  unfold LogMonitor.line_errors, LogMonitor.patterns. cbn [flat_map fst snd].
  fold excerpt. by destruct (Re.search _ _), (Re.search _ _), (Re.search _ _).
Qed.

Lemma X5_log_line_errors_witness :
  let line := ("  MCU 'mcu' shutdown: Timer too close" ++ String nl EmptyString)%string in
  exists b1 b2 b3 : bool,
    LogMonitor.line_errors line =
      ((if b1 then ["timer_close: MCU 'mcu' shutdown: Timer too close"] else []) ++
       (if b2 then ["mcu_shutdown: MCU 'mcu' shutdown: Timer too close"] else []) ++
       (if b3 then ["lost_comm: MCU 'mcu' shutdown: Timer too close"] else []))%list.
Proof.
  cbv zeta.
  destruct (X5_log_line_errors
              ("  MCU 'mcu' shutdown: Timer too close" ++ String nl EmptyString)%string
              eq_refl)
    as (b1 & b2 & b3 & H & _).
  exists b1, b2, b3. exact H.
Defined.

(** X6: a line matches the watched patterns of the bus-error probe exactly
    when some piece of it is, letter case aside, [usb disconnect],
    [reset high-speed USB device], [xHCI host controller not responding],
    or [ttyACM], one or more decimal digits and [ disconnect]. *)
Theorem X6_usb_patterns (line : string) :
  USBMonitor.matches_any line = true <->
  exists m,
    substring_of m line /\
    (lower_str m = "usb disconnect" \/
     lower_str m = "reset high-speed usb device" \/
     (exists a d b,
        m = (a ++ d ++ b)%string /\ lower_str a = "ttyacm" /\
        d <> EmptyString /\ all_chars PyStr.is_digit d = true /\
        lower_str b = " disconnect") \/
     lower_str m = "xhci host controller not responding").
Proof.
  unfold USBMonitor.matches_any, USBMonitor.patterns. cbn [existsb].
  rewrite orb_false_r, !orb_true_iff, !search_spec. split.
  - intros [(m & Hs & H) | [(m & Hs & H) | [(m & Hs & H) | (m & Hs & H)]]];
      exists m; (split; [exact Hs |]).
    + left. by apply lang_lit_i in H.
    + right; left. by apply lang_lit_i in H.
    + right; right; left.
      apply lang_seq_inv in H as (a & s2 & -> & Ha & H2).
      apply lang_seq_inv in H2 as (d & b & -> & Hd & Hb).
      apply lang_lit_i in Ha, Hb. apply lang_plus_cls in Hd as [Hne Hd].
      by exists a, d, b.
    + right; right; right. by apply lang_lit_i in H.
  - intros (m & Hs & [H | [H | [(a & d & b & -> & Ha & Hne & Hd & Hb) | H]]]).
    + left. exists m. split; [done | by apply lang_lit_i].
    + right; left. exists m. split; [done | by apply lang_lit_i].
    + right; right; left. eexists. split; [exact Hs |].
      constructor; [by apply lang_lit_i |].
      constructor; [by apply lang_plus_cls | by apply lang_lit_i].
    + right; right; right. exists m. split; [done | by apply lang_lit_i].
Qed.

Lemma search_max_none text :
  LatencyMonitor.search_max text = None <->
  Re.search LatencyMonitor.max_re text = false.
Proof.
  induction text as [|c text IH]; cbn [LatencyMonitor.search_max Re.search].
  - destruct (Re.match_prefix _ _); [by split | by rewrite orb_false_r].
  - destruct (Re.match_prefix _ _); cbn [orb]; [by split | exact IH].
Qed.

Lemma lang_max_re m :
  lang LatencyMonitor.max_re m <->
  exists blanks digits,
    m = ("Max:" ++ blanks ++ digits)%string /\
    all_chars PyStr.is_space blanks = true /\
    digits <> EmptyString /\ all_chars PyStr.is_digit digits = true.
Proof.
  unfold LatencyMonitor.max_re. rewrite lang_seq_inv. split.
  - intros (s1 & s2 & -> & ->%lang_lit & H2).
    apply lang_seq_inv in H2 as (blanks & digits & -> & Hb%lang_star_cls & Hd%lang_plus_cls).
    destruct Hd. by exists blanks, digits.
  - intros (blanks & digits & -> & Hb & Hne & Hd).
    exists "Max:", (blanks ++ digits)%string. split; [done |].
    split; [by apply lang_lit |].
    constructor; [by apply lang_star_cls | by apply lang_plus_cls].
Qed.

Lemma take_while_all p s : all_chars p (Re.take_while p s) = true.
Proof.
  induction s as [|c s IH]; [done |]. cbn [Re.take_while].
  destruct (p c) eqn:E; [| done]. cbn [all_chars]. by rewrite E, IH.
Qed.

Lemma digit_val_nonneg c : PyStr.is_digit c = true -> 0 <= PyStr.digit_val c <= 9.
Proof.
  unfold PyStr.is_digit, PyStr.digit_val.
  intros [H1 H2]%andb_true_iff.
  apply Nat.leb_le in H1, H2. lia.
Qed.

Lemma int_of_digits_nonneg s : forall acc,
  0 <= acc -> all_chars PyStr.is_digit s = true -> 0 <= PyStr.int_of_digits acc s.
Proof.
  induction s as [|c s IH]; intros acc Hacc Hs; [done |].
  cbn [all_chars] in Hs. apply andb_true_iff in Hs as [Hc Hs].
  cbn [PyStr.int_of_digits]. apply IH; [| done].
  pose proof (digit_val_nonneg c Hc). lia.
Qed.

Lemma search_max_digits text g :
  LatencyMonitor.search_max text = Some g -> all_chars PyStr.is_digit g = true.
Proof.
  induction text as [|c text IH].
  - unfold LatencyMonitor.search_max.
    destruct (Re.match_prefix _ _); [| discriminate].
    by intros [= <-].
  - change (LatencyMonitor.search_max (String c text)) with
      (if Re.match_prefix LatencyMonitor.max_re (String c text)
       then Some (Re.take_while PyStr.is_digit
                    (Re.drop_while PyStr.is_space (Re.drop 4 (String c text))))
       else LatencyMonitor.search_max text).
    destruct (Re.match_prefix _ _); [| exact IH].
    intros [= <-]. apply take_while_all.
Qed.

(** A figure of 4301 digits is beyond what [int] accepts, and the handler
    turns the [ValueError] into no result; one of 4300 digits is read. *)
Example figure_too_long :
  (LatencyMonitor.check (Returned (Completed 0 ("Max: " ++ digit_run 4301))) tt).1
    = Returned None /\
  (LatencyMonitor.check (Returned (Completed 0 ("Max: " ++ digit_run 4300))) tt).1
    <> Returned None.
Proof. split; [vm_compute; reflexivity | vm_compute; discriminate]. Qed.

(** X7: the scheduling-latency probe yields nothing exactly when the tool
    cannot be run, exits with a non-zero code, prints no [Max:] followed by
    optional blanks and a decimal digit, or prints a first such figure of
    more digits than [int] accepts (4300); and a latency it does report is
    never negative. *)
Theorem X7_latency_outcome (cyclictest : run_result) :
  ((LatencyMonitor.check cyclictest tt).1 = Returned None <->
   match cyclictest with
   | Raised _ => True
   | Returned res =>
       returncode res <> 0 \/
       (~ exists blanks digits,
            all_chars PyStr.is_space blanks = true /\
            digits <> EmptyString /\ all_chars PyStr.is_digit digits = true /\
            substring_of ("Max:" ++ blanks ++ digits) (stdout res)) \/
       (exists group1,
          LatencyMonitor.search_max (stdout res) = Some group1 /\
          LatencyMonitor.MAX_STR_DIGITS < Z.of_nat (String.length group1))
   end) /\
  (forall r max_lat,
     (LatencyMonitor.check cyclictest tt).1 = Returned (Some r) ->
     r !! "max_latency_us" = Some (VInt max_lat) -> 0 <= max_lat).
Proof.
  unfold LatencyMonitor.check, try_except, LatencyMonitor.body, py_bind, lift, py_ret.
  destruct cyclictest as [res|e]; [| by split].
  destruct (Z.eqb_spec (returncode res) 0) as [Hcode|Hcode].
  - destruct (LatencyMonitor.search_max (stdout res)) as [g|] eqn:Hmax; cbn [fst].
    + unfold LatencyMonitor.py_int.
      destruct (Z.ltb_spec LatencyMonitor.MAX_STR_DIGITS (Z.of_nat (String.length g)))
        as [Hlong|Hshort]; cbn [fst].
      * split; [| discriminate]. split; [| done]. intros _.
        right; right. by exists g.
      * split.
        -- split; [discriminate |].
           intros [Hc | [Hno | (g' & [= <-] & Hlong)]]; [done | | lia]. exfalso.
           assert (Re.search LatencyMonitor.max_re (stdout res) = true) as Hs.
           { destruct (Re.search _ _) eqn:E; [done |].
             apply search_max_none in E. congruence. }
           apply search_spec in Hs as (m & Hsub & Hm).
           apply lang_max_re in Hm as (blanks & digits & -> & Hb & Hne & Hd).
           apply Hno. by exists blanks, digits.
        -- intros r max_lat [= <-]. rewrite lookup_insert_ne by done.
           rewrite lookup_singleton_eq. intros [= <-].
           apply int_of_digits_nonneg; [done | by eapply search_max_digits].
    + split; [| discriminate]. split; [| done]. intros _. right; left.
      intros (blanks & digits & Hb & Hne & Hd & Hsub).
      apply search_max_none in Hmax.
      assert (Re.search LatencyMonitor.max_re (stdout res) = true) as Hs.
      { apply search_spec. eexists. split; [exact Hsub |].
        apply lang_max_re. by exists blanks, digits. }
      congruence.
  - cbn [fst]. split; [| discriminate]. split; [by left | done].
Qed.

(** ** Power/thermal probe: the fields of a cycle *)

Lemma power_data_temp_fields f gt mv mt k :
  k ∉ throttle_keys -> k ∉ voltage_keys ->
  power_data f gt mv mt !! k =
    if fails (PowerMonitor.check_throttled gt) || fails (PowerMonitor.check_voltage f mv)
    then None
    else alone (PowerMonitor.check_temp f mt) !! k.
Proof.
  intros H1 H2. rewrite power_data_by_query. cbv zeta.
  pose proof (alone_none_outside _ _ k (check_throttled_writes gt) H1) as E1.
  pose proof (alone_none_outside _ _ k (check_voltage_writes f mv) H2) as E2.
  destruct (fails _); [done |].
  destruct (fails _); cbn [orb].
  - by rewrite lookup_union_r.
  - rewrite lookup_union_l; [done | by rewrite lookup_union_r].
Qed.

(** The fields the throttle query sets, for every mask. *)
Lemma check_throttled_fields out val_str val_int :
  index1 (PyStr.split "=" (PyStr.strip out)) = Returned val_str ->
  PyStr.int16 val_str = Some val_int ->
  let d := alone (PowerMonitor.check_throttled (Returned (Completed 0 out))) in
  d !! "throttled_hex" = Some (VStr val_str) /\
  d !! "throttled_alarm" = (if val_int =? 0 then None else Some (VBool true)) /\
  Forall (fun bk : Z * string =>
            d !! bk.2 = if Z.testbit val_int bk.1 then Some (VBool true) else None)
         throttle_flags.
Proof.
  intros Hsplit Hint d.
  destruct (check_throttled_decodes out val_str val_int Hsplit Hint) as (Hhex & Halarm & Hflags).
  split; [exact Hhex |]. split; [exact Halarm |].
  destruct (Z.eqb_spec val_int 0) as [->|Hne].
  - assert (Hd : d = {[ "throttled_hex" := VStr val_str ]}).
    { subst d. unfold alone, PowerMonitor.check_throttled, py_bind, lift,
        PowerMonitor.py_int16.
      cbn [returncode stdout]. rewrite Hsplit, Hint. reflexivity. }
    rewrite Hd. unfold throttle_flags.
    repeat constructor; cbn [fst snd]; by rewrite Z.bits_0.
  - destruct (Hflags Hne) as (H0 & H1 & H2 & H3).
    unfold throttle_flags. by repeat constructor.
Qed.

(** X8: when [get_throttled] exits with 0 and its value parses to a mask,
    the record of the cycle holds the value text as [throttled_hex], holds
    [throttled_alarm] exactly when the mask is not zero, and for each of
    bits 0 to 3 holds the flag of that bit ([ue_now], [freq_cap_now],
    [throt_now], [soft_temp_now]) exactly when the bit is set; the other
    two queries change none of this. *)
Theorem X8_throttle_decoding (float_of_str : string -> option float)
    (out val_str : string) (val_int : Z) (measure_volts measure_temp : run_result) :
  index1 (PyStr.split "=" (PyStr.strip out)) = Returned val_str ->
  PyStr.int16 val_str = Some val_int ->
  let data := power_data float_of_str (Returned (Completed 0 out))
                measure_volts measure_temp in
  data !! "throttled_hex" = Some (VStr val_str) /\
  data !! "throttled_alarm" = (if val_int =? 0 then None else Some (VBool true)) /\
  Forall (fun bk : Z * string =>
            data !! bk.2 = if Z.testbit val_int bk.1 then Some (VBool true) else None)
         throttle_flags.
Proof.
  intros Hsplit Hint data. subst data.
  destruct (check_throttled_fields out val_str val_int Hsplit Hint) as (Hhex & Halarm & Hflags).
  rewrite !power_data_throttle_fields by (unfold voltage_keys, temp_keys; key_notin).
  split; [exact Hhex |]. split; [exact Halarm |].
  unfold throttle_flags in *.
  repeat (apply Forall_cons in Hflags as [? Hflags]).
  repeat constructor; cbn [fst snd] in *;
    by rewrite power_data_throttle_fields by (unfold voltage_keys, temp_keys; key_notin).
Qed.

Lemma X8_throttle_decoding_witness :
  let data := power_data float_stub
                (Returned (Completed 0 "throttled=0xA")) volts_ok temp_ok in
  data !! "throttled_hex" = Some (VStr "0xA") /\
  data !! "throttled_alarm" = Some (VBool true) /\
  Forall (fun bk : Z * string =>
            data !! bk.2 = if Z.testbit 10 bk.1 then Some (VBool true) else None)
         throttle_flags.
Proof.
  exact (X8_throttle_decoding float_stub "throttled=0xA" "0xA" 10 volts_ok temp_ok
           eq_refl eq_refl).
Defined.

Ltac each_flag :=
  unfold throttle_flags;
  repeat (apply Forall_cons; split); [.. | by apply Forall_nil]; cbn [fst snd].

Lemma alone_throttled_flags gt :
  let d := alone (PowerMonitor.check_throttled gt) in
  (is_Some (d !! "throttled_alarm") -> is_Some (d !! "throttled_hex")) /\
  Forall (fun bk : Z * string =>
            is_Some (d !! bk.2) -> d !! "throttled_alarm" = Some (VBool true))
         throttle_flags.
Proof.
  cbv zeta.
  assert (Hempty :
    (is_Some ((∅ : record) !! "throttled_alarm") ->
     is_Some ((∅ : record) !! "throttled_hex")) /\
    Forall (fun bk : Z * string =>
              is_Some ((∅ : record) !! bk.2) ->
              (∅ : record) !! "throttled_alarm" = Some (VBool true))
           throttle_flags).
  { split; [intros [v Hv]; by rewrite lookup_empty in Hv |].
    each_flag; intros [v Hv]; by rewrite lookup_empty in Hv. }
  unfold alone, PowerMonitor.check_throttled, py_bind, lift, PowerMonitor.py_int16.
  destruct gt as [[code out]|e]; cbn [returncode stdout fst snd]; [| exact Hempty].
  destruct (code =? 0); cbn [when]; [| exact Hempty].
  destruct (index1 _) as [val_str|e]; cbn [fst snd]; [| exact Hempty].
  destruct (PyStr.int16 val_str) as [val_int|]; cbn [fst snd]; [| exact Hempty].
  unfold when, set_item, modify, py_ret.
  destruct (val_int =? 0); cbv beta iota zeta; cbn [negb fst snd].
  - split; [intros _; by simplify_map_eq |].
    each_flag; intros [v Hv]; by simplify_map_eq.
  - destruct (PowerMonitor.masked val_int 1), (PowerMonitor.masked val_int 2),
             (PowerMonitor.masked val_int 4), (PowerMonitor.masked val_int 8);
      cbv beta iota zeta; cbn [fst snd];
      (split; [intros _; by simplify_map_eq |]);
      each_flag; intros _; by simplify_map_eq.
Qed.

Lemma alone_temp_flags f mt :
  let d := alone (PowerMonitor.check_temp f mt) in
  is_Some (d !! "temp_warning") -> is_Some (d !! "cpu_temp").
Proof.
  cbv zeta. unfold alone, PowerMonitor.check_temp, py_bind, lift, PowerMonitor.py_float.
  assert (Hnone : forall k, is_Some ((∅ : record) !! k) -> False).
  { intros k [v Hv]. by rewrite lookup_empty in Hv. }
  destruct mt as [[code out]|e]; cbn [returncode stdout fst snd];
    [| intros H; by apply Hnone in H].
  destruct (code =? 0); cbn [when]; [| intros H; by apply Hnone in H].
  destruct (index1 _) as [temp_str|e]; cbn [fst snd]; [| intros H; by apply Hnone in H].
  destruct (f _) as [t|]; cbn [fst snd]; [| intros H; by apply Hnone in H].
  unfold when, set_item, modify, py_ret.
  destruct (PrimFloat.ltb _ _); cbv beta iota zeta; cbn [fst snd];
    intros _; by simplify_map_eq.
Qed.

(** X9: in the record of the power/thermal probe a flag never stands
    without the reading it was derived from: [temp_warning] comes with
    [cpu_temp], [throttled_alarm] with [throttled_hex], and each of the four
    condition flags with [throttled_alarm]. *)
Theorem X9_flags_with_readings (float_of_str : string -> option float)
    (get_throttled measure_volts measure_temp : run_result) :
  let data := power_data float_of_str get_throttled measure_volts measure_temp in
  (is_Some (data !! "temp_warning") -> is_Some (data !! "cpu_temp")) /\
  (is_Some (data !! "throttled_alarm") -> is_Some (data !! "throttled_hex")) /\
  Forall (fun bk : Z * string =>
            is_Some (data !! bk.2) -> data !! "throttled_alarm" = Some (VBool true))
         throttle_flags.
Proof.
  intros data. subst data. split; [| split].
  - rewrite !power_data_temp_fields
      by (unfold throttle_keys, voltage_keys; key_notin).
    destruct (fails _ || fails _); [by intros [v Hv] |].
    apply alone_temp_flags.
  - rewrite !power_data_throttle_fields by (unfold voltage_keys, temp_keys; key_notin).
    apply (alone_throttled_flags get_throttled).
  - destruct (alone_throttled_flags get_throttled) as [_ Hflags].
    unfold throttle_flags in *.
    repeat (apply Forall_cons in Hflags as [? Hflags]).
    repeat constructor; cbn [fst snd] in *;
      rewrite !power_data_throttle_fields
        by (unfold voltage_keys, temp_keys; key_notin);
      done.
Qed.

(** X10: when the first two queries do not raise and [measure_temp] exits
    with 0 with a value that, [C] suffix removed, parses to the float [t],
    the record holds [t] as [cpu_temp], and holds [temp_warning] exactly
    when [t > 75.0]. *)
Theorem X10_temp_warning (float_of_str : string -> option float)
    (get_throttled measure_volts : run_result) (out temp_str : string) (t : float) :
  fails (PowerMonitor.check_throttled get_throttled) = false ->
  fails (PowerMonitor.check_voltage float_of_str measure_volts) = false ->
  index1 (PyStr.split "=" (PyStr.strip out)) = Returned temp_str ->
  float_of_str (PyStr.replace "'C" EmptyString temp_str) = Some t ->
  let data := power_data float_of_str get_throttled measure_volts
                (Returned (Completed 0 out)) in
  data !! "cpu_temp" = Some (VFloat t) /\
  data !! "temp_warning" =
    (if PrimFloat.ltb 75%float t then Some (VBool true) else None).
Proof.
  intros H1 H2 Hsplit Hfloat data. subst data.
  rewrite !power_data_temp_fields by (unfold throttle_keys, voltage_keys; key_notin).
  rewrite H1, H2. cbn [orb].
  unfold alone, PowerMonitor.check_temp, py_bind, lift, PowerMonitor.py_float.
  cbn [returncode stdout]. rewrite Hsplit, Hfloat.
  unfold when, set_item, modify, py_ret, PowerMonitor.TEMP_WARN_THRESHOLD.
  cbn [Z.eqb fst snd].
  destruct (PrimFloat.ltb 75 t); cbv beta iota zeta; cbn [fst snd];
    split; by simplify_map_eq.
Qed.

Lemma X10_temp_warning_witness :
  let data := power_data float_stub throttled_0x50005 volts_ok temp_ok in
  data !! "cpu_temp" = Some (VFloat 47.5%float) /\
  data !! "temp_warning" = None.
Proof.
  exact (X10_temp_warning float_stub throttled_0x50005 volts_ok
           ("temp=47.5'C" ++ String nl EmptyString) "47.5'C" 47.5%float
           eq_refl eq_refl eq_refl eq_refl).
Defined.

(** ** Resource-usage probe: the two field sets *)

(** X11: a result of the resource-usage probe has one of two shapes.  With
    the metrics library it holds [cpu_usage], [ram_used_pct] and
    [swap_used_mb] (the swap in use divided by 1024 * 1024, rounded to two
    places), [cpu_saturation] exactly when the CPU figure is above 85 and
    [mem_pressure] exactly when the swap figure is above 100, and no load
    average.  Without it, it holds the first two load averages as
    [load_1min] and [load_5min] and none of the other fields. *)
Theorem X11_system_field_sets
    (round_ndigits : float -> Z -> float) (int_truediv : Z -> Z -> float)
    (psutil : option SystemMonitor.psutil_api)
    (load : outcome (float * float * float)) (data : record) :
  (SystemMonitor.check round_ndigits int_truediv psutil load tt).1
    = Returned (Some data) ->
  match psutil with
  | Some ps =>
      exists c m s,
        SystemMonitor.cpu_percent ps = Returned c /\
        SystemMonitor.virtual_memory ps = Returned m /\
        SystemMonitor.swap_memory ps = Returned s /\
        let mb := round_ndigits (int_truediv s (1024 * 1024)) 2 in
        data !! "cpu_usage" = Some (VFloat c) /\
        data !! "ram_used_pct" = Some (VFloat m) /\
        data !! "swap_used_mb" = Some (VFloat mb) /\
        data !! "cpu_saturation" =
          (if PrimFloat.ltb 85%float c then Some (VBool true) else None) /\
        data !! "mem_pressure" =
          (if PrimFloat.ltb 100%float mb then Some (VBool true) else None) /\
        data !! "load_1min" = None /\ data !! "load_5min" = None
  | None =>
      exists l,
        load = Returned l /\
        data !! "load_1min" = Some (VFloat l.1.1) /\
        data !! "load_5min" = Some (VFloat l.1.2) /\
        data !! "cpu_usage" = None /\ data !! "cpu_saturation" = None /\
        data !! "ram_used_pct" = None /\ data !! "swap_used_mb" = None /\
        data !! "mem_pressure" = None
  end.
Proof.
  unfold SystemMonitor.check, SystemMonitor.body, py_bind, lift.
  destruct psutil as [[[c|e1] [m|e2] [s|e3]]|]; cbn [SystemMonitor.cpu_percent
    SystemMonitor.virtual_memory SystemMonitor.swap_memory];
    unfold when, set_item, modify, py_ret,
      SystemMonitor.CPU_LOAD_WARN_PERCENT, SystemMonitor.MEM_SWAP_WARN_MB;
    cbv beta iota zeta; cbn [fst snd]; try discriminate.
  - destruct (PrimFloat.ltb 85 c) eqn:Ec; cbv beta iota zeta; cbn [fst snd];
      destruct (PrimFloat.ltb 100 _) eqn:E; cbv beta iota zeta; cbn [fst snd];
      intros [= <-]; exists c, m, s; cbv zeta; rewrite ?Ec, ?E;
      repeat split; by simplify_map_eq.
  - destruct (PrimFloat.ltb 85 c); cbv beta iota zeta; cbn [fst snd]; discriminate.
  - destruct (PrimFloat.ltb 85 c); cbv beta iota zeta; cbn [fst snd]; discriminate.
  - destruct (PrimFloat.ltb 85 c); cbv beta iota zeta; cbn [fst snd]; discriminate.
  - destruct load as [l|e]; cbv beta iota zeta; cbn [fst snd]; [| discriminate].
    intros [= <-]. exists l. repeat split; by simplify_map_eq.
Qed.

Lemma X11_system_field_sets_witness :
  exists l,
    (Returned (0.5%float, 0.25%float, 0.125%float)
       : outcome (float * float * float)) = Returned l /\
    ({[ "load_5min" := VFloat 0.25%float; "load_1min" := VFloat 0.5%float ]} : record)
      !! "load_1min" = Some (VFloat l.1.1).
Proof.
  destruct (X11_system_field_sets round_stub truediv_stub None
              (Returned (0.5%float, 0.25%float, 0.125%float))
              {[ "load_5min" := VFloat 0.25%float; "load_1min" := VFloat 0.5%float ]}
              eq_refl) as (l & Hl & H1 & _).
  by exists l.
Defined.

(** ** The cycle: how the probes' records are merged *)

Lemma only_keys_of_lacks keys res :
  (forall k, k ∉ keys -> lacks k res) -> only_keys keys res.
Proof.
  intros H r k Hr [v Hv]. destruct (decide (k ∈ keys)) as [|Hk]; [done |].
  rewrite (H k Hk r Hr) in Hv. discriminate.
Qed.

Lemma usb_lacks_keys dmesg seen k :
  k ∉ usb_keys -> lacks k (USBMonitor.check dmesg seen).1.
Proof.
  intros Hk. apply usb_lacks. intros ->. apply Hk. unfold usb_keys. in_keys.
Qed.

Lemma power_lacks_keys f gt mv mt k :
  k ∉ power_keys -> lacks k (PowerMonitor.check f gt mv mt tt).1.
Proof.
  unfold power_keys. intros Hk.
  apply not_elem_of_app in Hk as [H1 Hk]. apply not_elem_of_app in Hk as [H2 H3].
  by apply power_lacks.
Qed.

Lemma latency_lacks_keys cyclictest k :
  k ∉ latency_keys -> lacks k (LatencyMonitor.check cyclictest tt).1.
Proof.
  unfold latency_keys. intros Hk.
  apply not_elem_of_cons in Hk as [H1 Hk]. apply not_elem_of_cons in Hk as [H2 _].
  by apply latency_lacks.
Qed.

Lemma log_lacks_keys f pos k :
  k ∉ log_keys -> lacks k (LogMonitor.check f pos).1.
Proof.
  unfold log_keys. intros Hk. apply not_elem_of_cons in Hk as [H1 _].
  by apply log_lacks.
Qed.

Lemma merge_adds name r (acc : record * list string) :
  r ⊆ (Main.merge name (Returned (Some r)) acc).1.
Proof.
  unfold Main.merge. case_bool_decide as Hr.
  - subst r. apply map_empty_subseteq.
  - cbn [fst]. unfold dict_update. apply map_union_subseteq_l.
Qed.

Lemma merge_keeps name res (acc : record * list string) (r0 : record) :
  r0 ⊆ acc.1 ->
  (forall k, is_Some (r0 !! k) -> lacks k res) ->
  r0 ⊆ (Main.merge name res acc).1.
Proof.
  intros Hsub Hlacks. unfold Main.merge.
  destruct res as [[d|]|e]; [| done | done].
  case_bool_decide; [done |]. cbn [fst]. unfold dict_update.
  apply map_subseteq_spec. intros k v Hk.
  rewrite lookup_union_r by (by apply (Hlacks k (mk_is_Some _ _ Hk) d)).
  by eapply lookup_weaken.
Qed.

Lemma merge_console name res (acc : record * list string) :
  (Main.merge name res acc).2 = (acc.2 ++ probe_error_lines name res)%list.
Proof.
  unfold Main.merge, probe_error_lines.
  destruct res as [[d|]|e]; [| by rewrite app_nil_r | done].
  case_bool_decide; by rewrite app_nil_r.
Qed.

(** Keys of one probe are not keys of another. *)
Ltac other_probe Hk :=
  unfold usb_keys, power_keys, system_keys, latency_keys, log_keys,
         throttle_keys, voltage_keys, temp_keys in *;
  cbn [app] in Hk;
  repeat (apply elem_of_cons in Hk as [->|Hk]);
  [.. | by apply elem_of_nil in Hk]; key_notin.

Section Merge.

Variable float_of_str : string -> option float.
Variable round_ndigits : float -> Z -> float.
Variable int_truediv : Z -> Z -> float.

(** X12: every field of the record a cycle hands to the recorder is a
    column of the schema, and is neither [timestamp] nor [notes]: the
    writer never has a field to drop, and no probe fills those two. *)
Theorem X12_fields_in_schema (env : Main.cycle_env) (st : Main.state) (k : string) :
  is_Some (Main.current_data float_of_str round_ndigits int_truediv env st !! k) ->
  k ∈ CSV_HEADERS /\ k <> "timestamp" /\ k <> "notes".
Proof.
  unfold Main.current_data. intros [v Hv].
  destruct (decide (k = "check_duration_ms")) as [->|Hne].
  { split; [unfold CSV_HEADERS; in_keys | done]. }
  rewrite lookup_insert_ne in Hv by done.
  destruct (decide (k ∈ probe_keys)) as [Hk|Hk].
  - unfold probe_keys, throttle_keys, voltage_keys, temp_keys, system_keys in Hk.
    cbn [app] in Hk.
    repeat (apply elem_of_cons in Hk as [->|Hk]);
      [.. | by apply elem_of_nil in Hk];
      (split; [unfold CSV_HEADERS; in_keys | done]).
  - rewrite run_monitors_keys in Hv by done. discriminate.
Qed.

(** X13: the fields a probe returns reach the merged record of the cycle
    as the probe returned them: no later probe overwrites them. *)
Theorem X13_probe_fields_kept (env : Main.cycle_env) (st : Main.state) :
  let d := (Main.run_monitors float_of_str round_ndigits int_truediv env st).1.1.1 in
  (forall r, (USBMonitor.check (Main.dmesg env) (Main.last_seen_lines st)).1
             = Returned (Some r) -> r ⊆ d) /\
  (forall r, (PowerMonitor.check float_of_str (Main.get_throttled env)
                (Main.measure_volts env) (Main.measure_temp env) tt).1
             = Returned (Some r) -> r ⊆ d) /\
  (forall r, (SystemMonitor.check round_ndigits int_truediv (Main.self_psutil env)
                (Main.getloadavg env) tt).1
             = Returned (Some r) -> r ⊆ d) /\
  (forall r, (LatencyMonitor.check (Main.cyclictest env) tt).1
             = Returned (Some r) -> r ⊆ d) /\
  (forall r, (LogMonitor.check (Main.klippy_log env) (Main.file_pos st)).1
             = Returned (Some r) -> r ⊆ d).
Proof.
  cbv zeta. unfold Main.run_monitors.
  pose proof (usb_lacks_keys (Main.dmesg env) (Main.last_seen_lines st)) as L1.
  pose proof (power_lacks_keys float_of_str (Main.get_throttled env)
                (Main.measure_volts env) (Main.measure_temp env)) as L2.
  pose proof (fun k => system_lacks k round_ndigits int_truediv
                (Main.self_psutil env) (Main.getloadavg env)) as L3.
  pose proof (latency_lacks_keys (Main.cyclictest env)) as L4.
  pose proof (log_lacks_keys (Main.klippy_log env) (Main.file_pos st)) as L5.
  pose proof (only_keys_of_lacks _ _ L1) as O1.
  pose proof (only_keys_of_lacks _ _ L2) as O2.
  pose proof (only_keys_of_lacks _ _ L3) as O3.
  pose proof (only_keys_of_lacks _ _ L4) as O4.
  pose proof (only_keys_of_lacks _ _ L5) as O5.
  destruct (USBMonitor.check _ _) as [r1 seen'].
  destruct (PowerMonitor.check _ _ _ _ _) as [r2 u2].
  destruct (SystemMonitor.check _ _ _ _ _) as [r3 u3].
  destruct (LatencyMonitor.check _ _) as [r4 u4].
  destruct (LogMonitor.check _ _) as [r5 pos'].
  cbn [fst snd] in *.
  repeat split; intros r ->.
  - do 4 (apply merge_keeps; [| intros k Hk;
            pose proof (O1 r k eq_refl Hk) as Hin;
            first [apply L2 | apply L3 | apply L4 | apply L5]; other_probe Hin]).
    apply merge_adds.
  - do 3 (apply merge_keeps; [| intros k Hk;
            pose proof (O2 r k eq_refl Hk) as Hin;
            first [apply L3 | apply L4 | apply L5]; other_probe Hin]).
    apply merge_adds.
  - do 2 (apply merge_keeps; [| intros k Hk;
            pose proof (O3 r k eq_refl Hk) as Hin;
            first [apply L4 | apply L5]; other_probe Hin]).
    apply merge_adds.
  - apply merge_keeps; [| intros k Hk;
            pose proof (O4 r k eq_refl Hk) as Hin;
            apply L5; other_probe Hin].
    apply merge_adds.
  - apply merge_adds.
Qed.

(** X14: the only line the probes of a cycle can add to the console is the
    error line of the resource-usage probe; the other four probes never
    reach the handler of the loop. *)
Theorem X14_only_system_errors (env : Main.cycle_env) (st : Main.state) :
  (Main.run_monitors float_of_str round_ndigits int_truediv env st).1.1.2 =
    (CSVLogger.console (Main.out st) ++
     probe_error_lines "System"
       (SystemMonitor.check round_ndigits int_truediv (Main.self_psutil env)
          (Main.getloadavg env) tt).1)%list.
Proof.
  unfold Main.run_monitors.
  destruct (usb_check_returns (Main.dmesg env) (Main.last_seen_lines st))
    as (r1 & seen' & ->).
  rewrite power_check_returns.
  destruct (SystemMonitor.check _ _ _ _ _) as [r3 u3].
  destruct (latency_check_returns (Main.cyclictest env)) as (r4 & ->).
  destruct (log_check_returns (Main.klippy_log env) (Main.file_pos st))
    as (r5 & pos' & ->).
  cbn [fst snd]. rewrite !merge_console. cbn [fst snd probe_error_lines].
  by rewrite !app_nil_r.
Qed.

End Merge.

Lemma X12_fields_in_schema_witness :
  "load_1min" ∈ CSV_HEADERS /\ "load_1min" <> "timestamp" /\ "load_1min" <> "notes".
Proof.
  apply (X12_fields_in_schema float_stub round_stub truediv_stub
           (quiet_cycle (Instant 0%float noon) (Instant 1.25%float noon)
                        (Instant 1.25%float one_past_noon)) start_state).
  vm_compute. by eexists.
Defined.

(** ** Firmware-log-tail probe: start-up, offsets and reports *)

(** X15: after a check of a file that exists and can be read, the retained
    offset is the size of the file, whatever it was before; a check whose
    [getsize] raises yields nothing and leaves the offset alone. *)
Theorem X15_offset_is_size :
  (forall content pos,
     (LogMonitor.check (LogMonitor.present content) pos).2 = length content) /\
  (forall f pos e,
     LogMonitor.log_getsize f = Raised e ->
     LogMonitor.check f pos = (Returned None, pos)).
Proof.
  split.
  - intros content pos.
    rewrite (log_check_eval (LogMonitor.present content) pos (length content)
               eq_refl eq_refl).
    cbv zeta. cbn [LogMonitor.present LogMonitor.log_bytes].
    destruct (Nat.ltb_spec (length content) pos) as [Hlt|Hge].
    + destruct (Nat.ltb_spec 0 (length content)) as [Hpos|Hzero]; cbn [snd]; lia.
    + destruct (Nat.ltb_spec pos (length content)) as [Hlt|Hge']; cbn [snd]; lia.
  - intros f pos e He. unfold LogMonitor.check.
    destruct (LogMonitor.log_exists f); cbn [negb]; [| done].
    unfold try_except, LogMonitor.body, py_bind, lift. by rewrite He.
Qed.

(** X16: the probe starts at the end of the file it finds, so what is in
    the log at start-up is never reported: the first check after
    [__init__] reports on exactly the bytes appended since.  When no file
    is there at start-up the offset starts at zero and the first check of
    the file reports on all of it. *)
Theorem X16_startup_content_skipped :
  (forall initial appended_bytes,
     LogMonitor.init (LogMonitor.present initial) = Returned (length initial) /\
     LogMonitor.check (LogMonitor.present (initial ++ appended_bytes)) (length initial)
       = (Returned (LogMonitor.report appended_bytes),
          length (initial ++ appended_bytes)%list)) /\
  LogMonitor.init LogMonitor.absent = Returned 0%nat /\
  (forall content,
     LogMonitor.check (LogMonitor.present content) 0%nat
       = (Returned (LogMonitor.report content), length content)).
Proof.
  split; [| split; [reflexivity |]].
  - intros initial extra. split; [reflexivity |].
    rewrite (log_check_appended initial (initial ++ extra))
      by (by exists extra).
    by rewrite drop_app_length.
  - intros content.
    apply (log_check_appended [] content). apply prefix_nil.
Qed.

Lemma flat_map_nil {A B} (f : A -> list B) (l : list A) :
  flat_map f l = [] <-> Forall (fun x => f x = []) l.
Proof.
  induction l as [|x l IH]; cbn [flat_map]; [by split |].
  rewrite Forall_cons, <- IH. split.
  - by intros [H1 H2]%app_eq_nil.
  - by intros [-> ->].
Qed.

(** A line gives no entry exactly when it holds none of the watched
    messages. *)
Lemma line_errors_nil line :
  LogMonitor.line_errors line = [] <-> ~ watched_message line.
Proof.
  unfold watched_message.
  rewrite <- search_timer_close, <- search_mcu_shutdown, <- search_lost_comm.
  unfold LogMonitor.line_errors, LogMonitor.patterns. cbn [flat_map fst snd].
  destruct (Re.search (Re.lit "Timer too close") line),
           (Re.search (Re.Seq _ _) line),
           (Re.search (Re.lit "Timeout on serial communication") line);
    cbn [app]; split; try discriminate; try tauto; intros _; intros [H | [H | H]];
    discriminate H.
Qed.

(** X17: a check of a readable file to which ASCII text was appended since
    the offset was taken yields nothing exactly when no appended line
    holds [Timer too close], [MCU '<name>' shutdown] or
    [Timeout on serial communication]; and what it yields otherwise is
    one [log_errors] text and nothing else: the entries of all appended
    lines, in order, joined by [; ]. *)
Theorem X17_report_entries (initial appended_bytes : list ascii) :
  ascii_bytes appended_bytes ->
  let result :=
    (LogMonitor.check (LogMonitor.present (initial ++ appended_bytes))
       (length initial)).1 in
  let lines := LogMonitor.readlines appended_bytes in
  (result = Returned None <-> Forall (fun line => ~ watched_message line) lines) /\
  (forall r,
     result = Returned (Some r) ->
     r = {[ "log_errors" :=
              VStr (PyStr.join "; " (flat_map LogMonitor.line_errors lines)) ]}).
Proof.
  intros _. cbv zeta.
  rewrite (log_check_appended initial (initial ++ appended_bytes))
    by (by exists appended_bytes).
  rewrite drop_app_length. cbn [fst].
  unfold LogMonitor.report, LogMonitor.scan.
  rewrite <- (Forall_iff _ _ _ line_errors_nil), <- flat_map_nil.
  destruct (flat_map _ _) as [|e es]; split; try done.
  by intros r [= <-].
Qed.

Lemma X17_report_entries_witness :
  let result :=
    (LogMonitor.check (LogMonitor.present (klippy_before ++ nl :: klippy_rotated))
       (length klippy_before)).1 in
  result = Returned (Some {[ "log_errors" := VStr "timer_close: Timer too close" ]}) /\
  forall r,
    result = Returned (Some r) ->
    r = {[ "log_errors" := VStr "timer_close: Timer too close" ]}.
Proof.
  split; [reflexivity |].
  apply (X17_report_entries klippy_before (nl :: klippy_rotated)).
  repeat constructor.
Defined.

Lemma concat_empty_cons x (l : list string) :
  String.concat EmptyString (x :: l) = (x ++ String.concat EmptyString l)%string.
Proof.
  destruct l as [|y l]; [| done]. cbn [String.concat]. by rewrite string_app_nil_r.
Qed.

(** X18: when the bytes read are ASCII and hold no carriage return, the
    lines the probe scans are, put end to end, those bytes: each byte lands
    in exactly one line, and no line is empty. *)
Theorem X18_readlines_lossless (bytes : list ascii) :
  ascii_bytes bytes ->
  cr ∉ bytes ->
  String.concat EmptyString (LogMonitor.readlines bytes) = string_of_list_ascii bytes /\
  Forall (fun line => line <> EmptyString) (LogMonitor.readlines bytes).
Proof.
  intros _.
  induction bytes as [|c rest IH]; intros Hcr; [by split |].
  apply not_elem_of_cons in Hcr as [Hc Hrest].
  destruct (IH Hrest) as [IHcat IHne].
  cbn [LogMonitor.readlines string_of_list_ascii].
  destruct (Ascii.eqb_spec c nl) as [->|Hnl].
  - split; [| by constructor]. rewrite concat_empty_cons, IHcat. done.
  - destruct (Ascii.eqb_spec c cr) as [->|_]; [done |].
    destruct (LogMonitor.readlines rest) as [|line lines].
    + split; [| by repeat constructor].
      cbn [String.concat] in *. by rewrite <- IHcat.
    + split.
      * rewrite concat_empty_cons in *. by rewrite string_app_cons, IHcat.
      * inversion IHne; subst. by constructor.
Qed.

Lemma X18_readlines_lossless_witness :
  String.concat EmptyString (LogMonitor.readlines klippy_grown)
    = string_of_list_ascii klippy_grown /\
  Forall (fun line => line <> EmptyString) (LogMonitor.readlines klippy_grown).
Proof.
  apply (X18_readlines_lossless klippy_grown).
  - repeat constructor.
  - vm_compute. intros H.
    repeat (apply elem_of_cons in H as [H|H]; [discriminate H |]).
    by apply elem_of_nil in H.
Defined.

(** ** Recorder and loop: the files over a run *)

Section Files.

Variable float_of_str : string -> option float.
Variable round_ndigits : float -> Z -> float.
Variable int_truediv : Z -> Z -> float.
Variable float_repr : float -> string.

(** What [log] does to the backup file. *)
Lemma log_backup_file now primary backup data w :
  CSVLogger.backup_file (CSVLogger.log float_repr now primary backup data w).2 =
    match CSVLogger.backup_file w with
    | None => None
    | Some b =>
        Some (match primary_fault primary, CSVLogger.writerow_raises backup with
              | None, None =>
                  (b ++ [CSVLogger.dict_to_list float_repr CSV_HEADERS
                           (logged_row now data)])%list
              | _, _ => b
              end)
    end.
Proof.
  destruct w as [f [b|] c];
    destruct primary as [[e1|] [e2|] [e3|]], backup as [[e4|] [e5|] x];
    reflexivity.
Qed.

(** The backup file after a cycle. *)
Lemma cycle_backup_file env st :
  CSVLogger.backup_file
    (Main.out (Main.cycle float_of_str round_ndigits int_truediv float_repr env st)) =
    match CSVLogger.backup_file (Main.out st) with
    | None => None
    | Some b =>
        Some (match primary_fault (Main.primary_faults env),
                    CSVLogger.writerow_raises (Main.backup_faults env) with
              | None, None =>
                  (b ++ [CSVLogger.dict_to_list float_repr CSV_HEADERS
                           (logged_row (wall (Main.at_log env))
                              (Main.current_data float_of_str round_ndigits
                                 int_truediv env st))])%list
              | _, _ => b
              end)
    end.
Proof.
  unfold Main.cycle, Main.current_data.
  destruct (Main.run_monitors _ _ _ env st) as [[[d c] s] p]. cbn [fst snd Main.out].
  by rewrite log_backup_file.
Qed.




Lemma init_files_ok backup_directory dir_exists backup_dir_exists faults w :
  CSVLogger.init backup_directory dir_exists backup_dir_exists faults = Returned w ->
  files_ok w /\ length (CSVLogger.file w) = 1%nat /\
  CSVLogger.backup_file w =
    (if CSVLogger.truthy backup_directory then Some (CSVLogger.file w) else None).
Proof.
  unfold CSVLogger.init.
  destruct (if dir_exists then None else _); [discriminate |].
  destruct (if CSVLogger.truthy backup_directory && negb backup_dir_exists then _ else _);
    [discriminate |].
  destruct (CSVLogger.open_raises faults); [discriminate |].
  destruct (CSVLogger.truthy backup_directory).
  - destruct (CSVLogger.backup_open_raises faults); [discriminate |].
    intros [= <-]. split; [| by split].
    split; [by repeat constructor |]. split; [done |].
    intros b [= <-]. by split.
  - intros [= <-]. split; [| by split].
    split; [by repeat constructor |]. split; [done |].
    intros b. discriminate.
Qed.


Lemma cycle_healthy env st :
  Main.primary_faults env = CSVLogger.healthy ->
  Main.backup_faults env = CSVLogger.healthy ->
  let w := Main.out st in
  let w' := Main.out (Main.cycle float_of_str round_ndigits int_truediv float_repr env st) in
  exists row,
    CSVLogger.file w' = (CSVLogger.file w ++ [row])%list /\
    CSVLogger.backup_file w' = (fun b => b ++ [row])%list <$> CSVLogger.backup_file w.
Proof.
  intros Hp Hb w w'. subst w w'.
  rewrite cycle_primary_file, cycle_backup_file, Hp, Hb. cbn.
  eexists. split; [reflexivity |].
  by destruct (CSVLogger.backup_file (Main.out st)).
Qed.

(** X20: when both files take every write, a run of [n] cycles leaves the
    header and [n] rows in the primary file, and the backup file, when
    there is one, holds the same rows as the primary file. *)
Theorem X20_healthy_run
    (backup_directory : option string) (dir_exists backup_dir_exists : bool)
    (faults : CSVLogger.startup_faults) (w0 : CSVLogger.io)
    (seen : list string) (pos : nat) (envs : list Main.cycle_env) :
  CSVLogger.init backup_directory dir_exists backup_dir_exists faults = Returned w0 ->
  all_healthy envs ->
  let final :=
    Main.out (Main.run float_of_str round_ndigits int_truediv float_repr envs
                (Main.State seen pos w0)) in
  length (CSVLogger.file final) = S (length envs) /\
  CSVLogger.backup_file final =
    (if CSVLogger.truthy backup_directory then Some (CSVLogger.file final) else None).
Proof.
  intros Hinit Hhealthy final.
  destruct (init_files_ok _ _ _ _ _ Hinit) as (_ & Hlen & Hb).
  subst final. unfold Main.run.
  change w0 with (Main.out (Main.State seen pos w0)) in Hlen, Hb.
  revert Hlen Hb. generalize (Main.State seen pos w0) as st.
  replace (S (length envs)) with (1 + length envs + 0)%nat by lia.
  assert (forall extra st,
    length (CSVLogger.file (Main.out st)) = (1 + extra)%nat ->
    CSVLogger.backup_file (Main.out st) =
      (if CSVLogger.truthy backup_directory
       then Some (CSVLogger.file (Main.out st)) else None) ->
    length (CSVLogger.file (Main.out (fold_left
       (fun s env => Main.cycle float_of_str round_ndigits int_truediv float_repr env s)
       envs st))) = (1 + length envs + extra)%nat /\
    CSVLogger.backup_file (Main.out (fold_left
       (fun s env => Main.cycle float_of_str round_ndigits int_truediv float_repr env s)
       envs st)) =
      (if CSVLogger.truthy backup_directory
       then Some (CSVLogger.file (Main.out (fold_left
         (fun s env => Main.cycle float_of_str round_ndigits int_truediv float_repr env s)
         envs st))) else None)) as H.
  { clear Hinit. induction Hhealthy as [|env envs [Hp Hbk] _ IH];
      intros extra st Hlen Hb; cbn [fold_left length].
    - split; [lia | done].
    - destruct (cycle_healthy env st Hp Hbk) as (row & Hfile & Hbackup).
      replace (1 + S (length envs) + extra)%nat
        with (1 + length envs + S extra)%nat by lia.
      apply IH.
      + rewrite Hfile, length_app. cbn. lia.
      + rewrite Hbackup, Hfile, Hb. by destruct (CSVLogger.truthy backup_directory). }
  intros st Hlen Hb. apply (H 0%nat st); [by rewrite Hlen | done].
Qed.

End Files.


Lemma X20_healthy_run_witness :
  let final :=
    Main.out (Main.run float_stub round_stub truediv_stub repr_stub
                [quiet_cycle (Instant 0%float noon) (Instant 1.25%float noon)
                             (Instant 1.25%float one_past_noon)]
                start_state) in
  length (CSVLogger.file final) = 2%nat /\
  CSVLogger.backup_file final = Some (CSVLogger.file final).
Proof.
  apply (X20_healthy_run float_stub round_stub truediv_stub repr_stub
           (Some "backup") true true
           (CSVLogger.StartupFaults None None None None) fresh_files [] 0%nat
           [quiet_cycle (Instant 0%float noon) (Instant 1.25%float noon)
                        (Instant 1.25%float one_past_noon)] eq_refl).
  repeat constructor.
Defined.

(** ** Integers as text *)

Lemma digit_val_digit_char n :
  0 <= n < 10 -> PyStr.digit_val (PyStr.digit_char (Z.to_nat n)) = n.
Proof.
  intros Hn. unfold PyStr.digit_val, PyStr.digit_char.
  rewrite nat_ascii_embedding by lia. lia.
Qed.

Lemma is_digit_digit_char n :
  0 <= n < 10 -> PyStr.is_digit (PyStr.digit_char (Z.to_nat n)) = true.
Proof.
  intros Hn. unfold PyStr.is_digit, PyStr.digit_char.
  rewrite nat_ascii_embedding by lia.
  apply andb_true_iff. split; apply Nat.leb_le; lia.
Qed.

(** The digits [pos_digits] puts before [acc] read back as the number. *)
Lemma pos_digits_value fuel : forall n acc,
  0 <= n < 2 ^ Z.of_nat fuel ->
  PyStr.int_of_digits 0 (PyStr.pos_digits fuel n acc) = PyStr.int_of_digits n acc.
Proof.
  induction fuel as [|fuel IH]; intros n acc Hn.
  - cbn in Hn. assert (n = 0) as -> by lia. reflexivity.
  - cbn [PyStr.pos_digits]. cbv zeta.
    assert (Hmod : 0 <= n mod 10 < 10) by (apply Z.mod_pos_bound; lia).
    destruct (Z.ltb_spec n 10) as [Hlt|Hge].
    + cbn [PyStr.int_of_digits]. rewrite digit_val_digit_char by done.
      rewrite Z.mod_small by lia. f_equal.
    + rewrite IH.
      * cbn [PyStr.int_of_digits]. rewrite digit_val_digit_char by done.
        f_equal. pose proof (Z.div_mod n 10). lia.
      * rewrite Nat2Z.inj_succ, Z.pow_succ_r in Hn by lia.
        split; [apply Z.div_pos; lia |].
        apply Z.div_lt_upper_bound; lia.
Qed.

Lemma pos_digits_all_digits fuel : forall n acc,
  0 <= n ->
  all_chars PyStr.is_digit acc = true ->
  all_chars PyStr.is_digit (PyStr.pos_digits fuel n acc) = true.
Proof.
  induction fuel as [|fuel IH]; intros n acc Hn Hacc; [done |].
  cbn [PyStr.pos_digits]. cbv zeta.
  assert (Hmod : 0 <= n mod 10 < 10) by (apply Z.mod_pos_bound; lia).
  assert (Hd : all_chars PyStr.is_digit
                 (String (PyStr.digit_char (Z.to_nat (n mod 10))) acc) = true).
  { cbn [all_chars]. by rewrite is_digit_digit_char, Hacc. }
  destruct (n <? 10); [done |].
  apply IH; [apply Z.div_pos; lia | done].
Qed.

Lemma pos_digits_nonempty fuel : forall n c acc,
  PyStr.pos_digits fuel n (String c acc) <> EmptyString.
Proof.
  induction fuel as [|fuel IH]; intros n c acc; [done |].
  cbn [PyStr.pos_digits]. cbv zeta. destruct (n <? 10); [done | apply IH].
Qed.

Lemma digits_need_no_quotes s :
  all_chars PyStr.is_digit s = true -> CSVLogger.csv_field s = s.
Proof.
  intros Hs. unfold CSVLogger.csv_field.
  assert (H : CSVLogger.contains
                (fun c => Ascii.eqb c CSVLogger.comma || Ascii.eqb c CSVLogger.quote
                          || Ascii.eqb c cr || Ascii.eqb c nl) s = false).
  { induction s as [|c s IH]; [done |]. cbn [all_chars] in Hs.
    apply andb_true_iff in Hs as [Hc Hs]. cbn [CSVLogger.contains].
    rewrite (IH Hs), orb_false_r. clear -Hc.
    destruct c as [[] [] [] [] [] [] [] []]; vm_compute in Hc |- *;
      first [done | discriminate Hc]. }
  by rewrite H.
Qed.

(** X21: a non-negative integer value is written to its cell as decimal
    digits only, so the cell is never quoted, and reading the cell back as
    a decimal number, the way the latency probe reads [Max:], gives the
    value. *)
Theorem X21_int_cell_roundtrip (float_repr : float -> string) (n : Z) :
  0 <= n ->
  let cell := CSVLogger.cell_of_value float_repr (VInt n) in
  cell <> EmptyString /\
  all_chars PyStr.is_digit cell = true /\
  CSVLogger.csv_field cell = cell /\
  PyStr.int_of_digits 0 cell = n.
Proof.
  intros Hn cell. subst cell. cbn [CSVLogger.cell_of_value].
  unfold PyStr.str_of_int.
  destruct (Z.ltb_spec n 0) as [Hneg|_]; [lia |].
  assert (Hfuel : 0 <= n < 2 ^ Z.of_nat (S (Z.to_nat (Z.log2 n)))).
  { split; [done |].
    rewrite Nat2Z.inj_succ, Z2Nat.id by apply Z.log2_nonneg.
    destruct (Z.eq_dec n 0) as [->|Hne]; [done |].
    apply Z.log2_spec. lia. }
  assert (Hdigits : all_chars PyStr.is_digit
            (PyStr.pos_digits (S (Z.to_nat (Z.log2 n))) n EmptyString) = true)
    by (by apply pos_digits_all_digits).
  split; [| split; [done | split]].
  - cbn [PyStr.pos_digits]. cbv zeta.
    destruct (n <? 10); [done | apply pos_digits_nonempty].
  - by apply digits_need_no_quotes.
  - by rewrite pos_digits_value.
Qed.

Lemma X21_int_cell_roundtrip_witness :
  PyStr.int_of_digits 0 (CSVLogger.cell_of_value repr_stub (VInt 3050)) = 3050.
Proof.
  destruct (X21_int_cell_roundtrip repr_stub 3050 ltac:(lia)) as (_ & _ & _ & H).
  exact H.
Defined.

